(** * libfsapfs: the file system B-tree node reader

    A shallow embedding of [libfsapfs_file_system_btree.c]
    ([libfsapfs_file_system_btree_initialize],
    [libfsapfs_file_system_btree_free],
    [libfsapfs_file_system_btree_read_file_io_handle] and
    [libfsapfs_file_system_btree_read_data]) and the properties of the
    single-node decode that the specification states about it, followed by
    further properties of the four functions.

    The C function works on a byte buffer, a handful of integer locals of
    fixed width, two heap objects (the decoded B-tree header and footer) and
    the structure it is handed.  The embedding keeps all of these: the buffer
    is a [list byte], the locals are [Z] with every truncation written out,
    the heap, the allocator, the structure and the sequence of buffer
    accesses live in an explicit [state] threaded by a small state and error
    monad. *)

From Stdlib Require Import ZArith List Bool Lia.
From Stdlib.Strings Require Import Byte.
Import ListNotations.
Local Open Scope Z_scope.

(** ** Fixed-width integers *)

Module Int.

(** Assignment to a [uint16_t] keeps the low 16 bits. *)
Definition to_uint16 (x : Z) : Z := x mod 65536.

(** Conversion to an unsigned type of [bits] bits ([size_t], [uint64_t]). *)
Definition to_unsigned (bits x : Z) : Z := x mod 2 ^ bits.

Definition uint16_range (x : Z) : Prop := 0 <= x < 65536.
Definition uint64_range (x : Z) : Prop := 0 <= x < 2 ^ 64.

Lemma to_uint16_range x : uint16_range (to_uint16 x).
Proof. unfold uint16_range, to_uint16. apply Z.mod_pos_bound. lia. Qed.

Lemma to_uint16_small x : uint16_range x -> to_uint16 x = x.
Proof. unfold uint16_range, to_uint16. intros. now apply Z.mod_small. Qed.

Lemma to_unsigned_small bits x : 0 <= x < 2 ^ bits -> to_unsigned bits x = x.
Proof. unfold to_unsigned. intros. now apply Z.mod_small. Qed.

End Int.

(** ** Byte streams *)

Module ByteStream.

Definition byte_value (b : byte) : Z := Z.of_N (Byte.to_N b).

(** [byte_stream_copy_to_uintN_little_endian]: the bytes are or-ed together,
    the first one lowest. *)
Fixpoint little_endian (bs : list byte) : Z :=
  match bs with
  | [] => 0
  | b :: rest => Z.lor (byte_value b) (Z.shiftl (little_endian rest) 8)
  end.

(** The [len] bytes of [data] that start at [off]. *)
Definition slice (data : list byte) (off len : Z) : list byte :=
  firstn (Z.to_nat len) (skipn (Z.to_nat off) data).

Lemma byte_value_range b : 0 <= byte_value b < 256.
Proof.
  unfold byte_value. pose proof (Byte.to_N_bounded b). lia.
Qed.

Lemma lor_shiftl_8 a b :
  0 <= a < 256 -> 0 <= b -> Z.lor a (Z.shiftl b 8) = a + 256 * b.
Proof.
  intros Ha Hb.
  rewrite Z.shiftl_mul_pow2 by lia.
  change (2 ^ 8) with 256.
  assert (Hland : Z.land a (b * 256) = 0);
    [|pose proof (Z.add_lor_land a (b * 256)); lia].
  apply Z.bits_inj'; intros n Hn.
  rewrite Z.land_spec, Z.bits_0.
  destruct (Z.ltb_spec n 8) as [Hlt|Hge].
  - replace (b * 256) with (b * 2 ^ 8) by reflexivity.
    rewrite (Z.mul_pow2_bits_low b 8 n) by lia.
    apply andb_false_r.
  - rewrite (Z.bits_above_log2 a n); [reflexivity|lia|].
    destruct (Z.eq_dec a 0) as [->|Hnz]; [simpl; lia|].
    assert (Z.log2 a < 8); [|lia].
    apply Z.log2_lt_pow2; simpl; lia.
Qed.

Lemma little_endian_range bs :
  0 <= little_endian bs < 2 ^ (8 * Z.of_nat (length bs)).
Proof.
  induction bs as [|b rest IH].
  - simpl. lia.
  - cbn [little_endian length].
    pose proof (byte_value_range b) as Hb.
    rewrite lor_shiftl_8 by lia.
    replace (8 * Z.of_nat (S (length rest)))
      with (8 + 8 * Z.of_nat (length rest)) by lia.
    rewrite Z.pow_add_r by lia.
    change (2 ^ 8) with 256. nia.
Qed.

Lemma slice_length data off len :
  (length (slice data off len) <= Z.to_nat len)%nat.
Proof. unfold slice. rewrite length_firstn. lia. Qed.

End ByteStream.

(** ** Errors

    [libcerror_error_set] is called with a domain and a code; the
    constructors below are the pairs the modelled functions use. *)

Inductive libcerror_error_t : Type :=
| ARGUMENT_ERROR_INVALID_VALUE       (* DOMAIN_ARGUMENTS, INVALID_VALUE *)
| RUNTIME_ERROR_VALUE_MISSING        (* DOMAIN_RUNTIME, VALUE_MISSING *)
| RUNTIME_ERROR_VALUE_ALREADY_SET    (* DOMAIN_RUNTIME, VALUE_ALREADY_SET *)
| RUNTIME_ERROR_VALUE_OUT_OF_BOUNDS  (* DOMAIN_RUNTIME, VALUE_OUT_OF_BOUNDS *)
| RUNTIME_ERROR_UNSUPPORTED_VALUE    (* DOMAIN_RUNTIME, UNSUPPORTED_VALUE *)
| RUNTIME_ERROR_INITIALIZE_FAILED    (* DOMAIN_RUNTIME, INITIALIZE_FAILED *)
| RUNTIME_ERROR_FINALIZE_FAILED      (* DOMAIN_RUNTIME, FINALIZE_FAILED *)
| MEMORY_ERROR_INSUFFICIENT          (* DOMAIN_MEMORY, INSUFFICIENT *)
| IO_ERROR_READ_FAILED.              (* DOMAIN_IO, READ_FAILED *)

(** The error kinds of the specification, read off the libcerror code. *)
Inductive error_kind : Type :=
| ArgumentError | BoundsError | UnsupportedFormat | IoError | OtherError.

Definition kind_of (e : libcerror_error_t) : error_kind :=
  match e with
  | ARGUMENT_ERROR_INVALID_VALUE | RUNTIME_ERROR_VALUE_MISSING => ArgumentError
  | RUNTIME_ERROR_VALUE_OUT_OF_BOUNDS => BoundsError
  | RUNTIME_ERROR_UNSUPPORTED_VALUE => UnsupportedFormat
  | IO_ERROR_READ_FAILED => IoError
  | _ => OtherError
  end.

(** A function leaves either through a plain [return( -1 )] or through
    [goto on_error], each after one [libcerror_error_set]. *)
Inductive abort : Type :=
| Return_error (e : libcerror_error_t)
| Goto_on_error (e : libcerror_error_t).

Definition abort_error (a : abort) : libcerror_error_t :=
  match a with Return_error e | Goto_on_error e => e end.

(** ** The decoded objects

    Only the members that [libfsapfs_file_system_btree_read_data] reads.
    The header members are [uint16_t], the footer sizes are [uint16_t] and
    the number of entries is [uint64_t]. *)

Record libfsapfs_btree_header_t : Type := {
  flags : Z;
  entries_data_offset : Z;
  entries_data_size : Z;
  unused_data_offset : Z;
  unused_data_size : Z
}.

Record libfsapfs_btree_footer_t : Type := {
  key_size : Z;
  value_size : Z;
  number_of_entries : Z
}.

Definition header_wf (h : libfsapfs_btree_header_t) : Prop :=
  Int.uint16_range (flags h)
  /\ Int.uint16_range (entries_data_offset h)
  /\ Int.uint16_range (entries_data_size h)
  /\ Int.uint16_range (unused_data_offset h)
  /\ Int.uint16_range (unused_data_size h).

Definition footer_wf (f : libfsapfs_btree_footer_t) : Prop :=
  Int.uint16_range (key_size f)
  /\ Int.uint16_range (value_size f)
  /\ Int.uint64_range (number_of_entries f).

(** What [memory_set( ..., 0, ... )] leaves in a fresh object. *)
Definition cleared_header : libfsapfs_btree_header_t :=
  {| flags := 0; entries_data_offset := 0; entries_data_size := 0;
     unused_data_offset := 0; unused_data_size := 0 |}.

Definition cleared_footer : libfsapfs_btree_footer_t :=
  {| key_size := 0; value_size := 0; number_of_entries := 0 |}.

(** One table-of-contents record after its offsets were made absolute: the
    values of the locals [key_data_offset], [key_data_size],
    [value_data_offset] and [value_data_size] at the end of a loop round. *)
Record resolved_entry : Type := {
  key_data_offset : Z;
  key_data_size : Z;
  value_data_offset : Z;
  value_data_size : Z
}.

(** What a call has decoded and validated when it reaches [return( 1 )].
    The C function keeps these in locals only; the view is what the
    statements about decoded values refer to. *)
Record node_view : Type := {
  view_header : libfsapfs_btree_header_t;
  view_footer : libfsapfs_btree_footer_t;
  view_entries : list resolved_entry
}.

(** ** Program state *)

Inductive block : Type :=
| File_system_btree_block
| Btree_header_block
| Btree_footer_block.

Definition block_eqb (a b : block) : bool :=
  match a, b with
  | File_system_btree_block, File_system_btree_block
  | Btree_header_block, Btree_header_block
  | Btree_footer_block, Btree_footer_block => true
  | _, _ => false
  end.

(** [file_system_btree]: the structure the caller's pointer designates, as
    its bytes ([None] is the NULL pointer).
    [heap]: the blocks obtained from [memory_allocate] and not yet freed.
    [malloc_oracle]: whether the coming allocations succeed; an exhausted
    oracle means success.
    [libcnotify_verbose]: the debug switch (false also stands for a build
    without HAVE_DEBUG_OUTPUT).
    [accesses]: every range [(offset, length)] of [data] that was read, in
    order.
    [btree_header], [btree_footer]: the two pointer locals of
    [libfsapfs_file_system_btree_read_data] with the objects they own. *)
Record state : Type := mkState {
  file_system_btree : option (list byte);
  heap : list block;
  malloc_oracle : list bool;
  libcnotify_verbose : bool;
  accesses : list (Z * Z);
  btree_header : option libfsapfs_btree_header_t;
  btree_footer : option libfsapfs_btree_footer_t
}.

Definition set_file_system_btree (v : option (list byte)) (s : state) : state :=
  mkState v (heap s) (malloc_oracle s) (libcnotify_verbose s) (accesses s)
          (btree_header s) (btree_footer s).

Definition set_heap (v : list block) (s : state) : state :=
  mkState (file_system_btree s) v (malloc_oracle s) (libcnotify_verbose s)
          (accesses s) (btree_header s) (btree_footer s).

Definition set_malloc_oracle (v : list bool) (s : state) : state :=
  mkState (file_system_btree s) (heap s) v (libcnotify_verbose s)
          (accesses s) (btree_header s) (btree_footer s).

Definition set_accesses (v : list (Z * Z)) (s : state) : state :=
  mkState (file_system_btree s) (heap s) (malloc_oracle s)
          (libcnotify_verbose s) v (btree_header s) (btree_footer s).

Definition set_btree_header (v : option libfsapfs_btree_header_t)
    (s : state) : state :=
  mkState (file_system_btree s) (heap s) (malloc_oracle s)
          (libcnotify_verbose s) (accesses s) v (btree_footer s).

Definition set_btree_footer (v : option libfsapfs_btree_footer_t)
    (s : state) : state :=
  mkState (file_system_btree s) (heap s) (malloc_oracle s)
          (libcnotify_verbose s) (accesses s) (btree_header s) v.

(** [memory_allocate]: asks the oracle, and on success the block is live. *)
Definition memory_allocate (b : block) (s : state) : bool * state :=
  match malloc_oracle s with
  | [] => (true, set_heap (b :: heap s) s)
  | true :: rest => (true, set_malloc_oracle rest (set_heap (b :: heap s) s))
  | false :: rest => (false, set_malloc_oracle rest s)
  end.

Fixpoint remove_block (b : block) (h : list block) : list block :=
  match h with
  | [] => []
  | b' :: rest => if block_eqb b b' then rest else b' :: remove_block b rest
  end.

(** [memory_free] *)
Definition memory_free (b : block) (s : state) : state :=
  set_heap (remove_block b (heap s)) s.

(** ** The monad of the function bodies *)

Definition M (A : Type) : Type := state -> (A + abort) * state.

Definition ret {A : Type} (a : A) : M A := fun s => (inl a, s).

Definition bind {A B : Type} (m : M A) (k : A -> M B) : M B :=
  fun s =>
    match m s with
    | (inl a, s') => k a s'
    | (inr e, s') => (inr e, s')
    end.

Definition throw {A : Type} (e : abort) : M A := fun s => (inr e, s).

Notation "x <- m ;; k" := (bind m (fun x => k))
  (at level 61, m at next level, right associativity).
Notation "m ;; k" := (bind m (fun _ => k))
  (at level 61, right associativity).

(** [if( c ) { libcerror_error_set( ... ); leave }] *)
Definition fail_if (c : bool) (e : abort) : M unit :=
  fun s => if c then (inr e, s) else (inl tt, s).

(** A read of [len] bytes of [data] at [off]. *)
Definition access (off len : Z) : M unit :=
  fun s => (inl tt, set_accesses (accesses s ++ [(off, len)]) s).

(** A read that only the debug output makes
    ([libcnotify_print_data] or a value that is only printed). *)
Definition debug_access (off len : Z) : M unit :=
  fun s => if libcnotify_verbose s then access off len s else (inl tt, s).

Definition load (data : list byte) (off len : Z) : M (list byte) :=
  access off len ;; ret (ByteStream.slice data off len).

(** [byte_stream_copy_to_uintN_little_endian( &data[ off ], value )] *)
Definition load_uint (data : list byte) (off len : Z) : M Z :=
  bytes <- load data off len ;; ret (ByteStream.little_endian bytes).

(** A callee that reports through its return value. *)
Definition call {A : Type} (f : state -> A * state) : M A :=
  fun s => let (r, s') := f s in (inl r, s').

(** ** The file system B-tree object (lines 38-139) *)

Section FileSystemBtree.

Variable sizeof_libfsapfs_file_system_btree_t : nat.

(** [libfsapfs_file_system_btree_initialize].  [handle] tells whether the
    argument [file_system_btree] (a pointer to the caller's pointer) is
    non-NULL; the caller's pointer itself is the [file_system_btree] of the
    state.  [memory_set] returns its destination and so never fails. *)
Definition libfsapfs_file_system_btree_initialize (handle : bool) (s : state)
  : (Z * option libcerror_error_t) * state :=
  if negb handle then ((-1, Some ARGUMENT_ERROR_INVALID_VALUE), s)
  else match file_system_btree s with
       | Some _ => ((-1, Some RUNTIME_ERROR_VALUE_ALREADY_SET), s)
       | None =>
           let (allocated, s1) := memory_allocate File_system_btree_block s in
           if allocated
           then ((1, None),
                 set_file_system_btree
                   (Some (repeat x00 sizeof_libfsapfs_file_system_btree_t)) s1)
           else ((-1, Some MEMORY_ERROR_INSUFFICIENT), s1)
       end.

(** [libfsapfs_file_system_btree_free] *)
Definition libfsapfs_file_system_btree_free (handle : bool) (s : state)
  : (Z * option libcerror_error_t) * state :=
  if negb handle then ((-1, Some ARGUMENT_ERROR_INVALID_VALUE), s)
  else match file_system_btree s with
       | Some _ =>
           ((1, None),
            set_file_system_btree None (memory_free File_system_btree_block s))
       | None => ((1, None), s)
       end.

End FileSystemBtree.

(** ** A concrete layout

    The sizes of the B-tree header and footer and their byte decoders are
    not among the sources; the reader below takes them as parameters.
    This instance fixes them, so that the reader can be run on concrete
    buffers.  The general statements do not depend on it. *)

Module Reference.

(** A platform with a [size_t] of 64 bits. *)
Definition size_bits : Z := 64.

(** Modelled from the spec: fsapfs_btree.h, which declares
    [fsapfs_btree_header_t], is not among the sources.  The layout table
    gives flags(2) + level(2) + number_of_keys(4) + entries_offset(2) +
    entries_size(2) + unused_offset(2) + unused_size(2) + reserved and calls
    the size "fixed"; the instance takes 24 bytes, 8 of them reserved. *)
Definition sizeof_fsapfs_btree_header_t : Z := 24.

(** Modelled from the spec: fsapfs_btree.h, which declares
    [fsapfs_btree_footer_t], is not among the sources.  The layout table
    gives key_size(2), value_size(2), number_of_entries(8), other node
    metadata and calls the size "fixed"; the instance takes 40 bytes. *)
Definition sizeof_fsapfs_btree_footer_t : Z := 40.

(** A little-endian member of [len] bytes at [off]. *)
Definition member (bytes : list byte) (off len : Z) : Z :=
  ByteStream.little_endian (ByteStream.slice bytes off len).

(** Modelled from the spec: the decoding of
    [libfsapfs_btree_header_read_data] (libfsapfs_btree_header.c is not
    among the sources), the members in the order of the layout table,
    little-endian. *)
Definition header_of_bytes (bytes : list byte)
  : option libfsapfs_btree_header_t :=
  Some {| flags := member bytes 0 2;
          entries_data_offset := member bytes 8 2;
          entries_data_size := member bytes 10 2;
          unused_data_offset := member bytes 12 2;
          unused_data_size := member bytes 14 2 |}.

(** Modelled from the spec: the decoding of
    [libfsapfs_btree_footer_read_data] (libfsapfs_btree_footer.c is not
    among the sources), the members in the order of the layout table,
    little-endian. *)
Definition footer_of_bytes (bytes : list byte)
  : option libfsapfs_btree_footer_t :=
  Some {| key_size := member bytes 0 2;
          value_size := member bytes 2 2;
          number_of_entries := member bytes 4 8 |}.

(** Building buffers. *)
Definition byte_of_Z (v : Z) : byte :=
  match Byte.of_N (Z.to_N (v mod 256)) with
  | Some b => b
  | None => x00
  end.

Fixpoint encode (n : nat) (v : Z) : list byte :=
  match n with
  | O => []
  | S n' => byte_of_Z v :: encode n' (v / 256)
  end.

Definition zeros (n : nat) : list byte := repeat x00 n.

Definition object_bytes (type subtype : Z) : list byte :=
  zeros 24 ++ encode 4 type ++ encode 4 subtype.

Definition header_bytes (h : libfsapfs_btree_header_t) : list byte :=
  encode 2 (flags h) ++ zeros 6
  ++ encode 2 (entries_data_offset h) ++ encode 2 (entries_data_size h)
  ++ encode 2 (unused_data_offset h) ++ encode 2 (unused_data_size h)
  ++ zeros 8.

Definition footer_bytes (f : libfsapfs_btree_footer_t) : list byte :=
  encode 2 (key_size f) ++ encode 2 (value_size f)
  ++ encode 8 (number_of_entries f) ++ zeros 28.

Definition entry_bytes (e : resolved_entry) : list byte :=
  encode 2 (key_data_offset e) ++ encode 2 (key_data_size e)
  ++ encode 2 (value_data_offset e) ++ encode 2 (value_data_size e).

Definition node_bytes (type subtype : Z) (h : libfsapfs_btree_header_t)
    (payload : list byte) (f : libfsapfs_btree_footer_t) : list byte :=
  object_bytes type subtype ++ header_bytes h ++ payload ++ footer_bytes f.

(** A caller's state: an initialised structure of 8 zero bytes, nothing
    else allocated, every allocation succeeds. *)
Definition start (verbose : bool) : state :=
  mkState (Some (zeros 8)) [File_system_btree_block] [] verbose [] None None.

Definition header (offset size unused_offset unused_size : Z)
  : libfsapfs_btree_header_t :=
  {| flags := 3; entries_data_offset := offset; entries_data_size := size;
     unused_data_offset := unused_offset; unused_data_size := unused_size |}.

Definition footer (entries : Z) : libfsapfs_btree_footer_t :=
  {| key_size := 0; value_size := 0; number_of_entries := entries |}.

(** The four members of a table-of-contents record as they are stored. *)
Definition record (key_offset key_length value_offset value_length : Z)
  : resolved_entry :=
  {| key_data_offset := key_offset; key_data_size := key_length;
     value_data_offset := value_offset; value_data_size := value_length |}.

(** A node of 112 bytes with one entry: key "K1" right after the record,
    value "V1" right before the footer, four unused bytes in between. *)
Definition one_entry_node : list byte :=
  node_bytes 2 14 (header 0 8 2 4)
    (entry_bytes (record 0 2 2 2) ++ [x4b; x31] ++ zeros 4 ++ [x56; x31])
    (footer 1).

(** The same entry in a node of 108 bytes without a gap: the unused region
    starts where the space ends and is empty. *)
Definition packed_node : list byte :=
  node_bytes 2 14 (header 0 8 4 0)
    (entry_bytes (record 0 2 2 2) ++ [x4b; x31] ++ [x56; x31])
    (footer 1).

(** [one_entry_node] with header flags 0x0001. *)
Definition flags_one_node : list byte :=
  node_bytes 2 14
    {| flags := 1; entries_data_offset := 0; entries_data_size := 8;
       unused_data_offset := 2; unused_data_size := 4 |}
    (entry_bytes (record 0 2 2 2) ++ [x4b; x31] ++ zeros 4 ++ [x56; x31])
    (footer 1).

(** [one_entry_node] with a footer of fixed-size keys (key_size 8). *)
Definition fixed_key_size_node : list byte :=
  node_bytes 2 14 (header 0 8 2 4)
    (entry_bytes (record 0 2 2 2) ++ [x4b; x31] ++ zeros 4 ++ [x56; x31])
    {| key_size := 8; value_size := 0; number_of_entries := 1 |}.

(** [one_entry_node] with a footer that counts two entries where the
    entries region holds one record. *)
Definition two_entries_claimed_node : list byte :=
  node_bytes 2 14 (header 0 8 2 4)
    (entry_bytes (record 0 2 2 2) ++ [x4b; x31] ++ zeros 4 ++ [x56; x31])
    (footer 2).

(** A block of 4096 bytes with one record whose key offset is 65520. *)
Definition wrapped_key_node : list byte :=
  node_bytes 2 14 (header 0 8 2 4)
    (entry_bytes (record 65520 2 2 2) ++ zeros (Z.to_nat 3990) ++ [x56; x31])
    (footer 1).

(** A block of 4096 bytes with one record whose value offset is 65535. *)
Definition wrapped_value_node : list byte :=
  node_bytes 2 14 (header 0 8 2 4)
    (entry_bytes (record 0 2 65535 2) ++ [x4b; x31] ++ zeros (Z.to_nat 3990))
    (footer 1).

(** A buffer of 70000 bytes with the entry of [one_entry_node]. *)
Definition large_node : list byte :=
  node_bytes 2 14 (header 0 8 2 4)
    (entry_bytes (record 0 2 2 2) ++ [x4b; x31]
     ++ zeros (Z.to_nat 69892) ++ [x56; x31])
    (footer 1).

(** A state that differs from [start] in all that a call may not depend
    on: the bytes of the structure, the heap, the debug switch and the
    accesses made so far. *)
Definition other_start : state :=
  mkState (Some [x01; x02; x03]) [] [] true [(0, 1)]
          (Some cleared_header) None.

(** The state before the structure is created. *)
Definition nothing_allocated : state :=
  mkState None [] [] false [] None None.

End Reference.

(** ** The arithmetic in the words of the specification

    The accounting chain: "starting from remaining = buffer_length -
    header_end_offset - sizeof(Footer), sequentially subtract, in this order,
    the entries-region offset, then the entries-region size, then the
    unused-region offset, then the unused-region size, each subtraction
    preceded by a check that the value being subtracted does not exceed the
    current remaining".  [true] when no check is violated. *)
Definition accounting_chain_spec
    (buffer_length header_end_offset footer_size : Z)
    (h : libfsapfs_btree_header_t) : bool :=
  let remaining := buffer_length - header_end_offset - footer_size in
  (entries_data_offset h <=? remaining)
  && (let remaining := remaining - entries_data_offset h in
      (entries_data_size h <=? remaining)
      && (let remaining := remaining - entries_data_size h in
          (unused_data_offset h <=? remaining)
          && (let remaining := remaining - unused_data_offset h in
              unused_data_size h <=? remaining))).

(** "entries_area_end = object_header_size + header_size + entries_offset +
    entries_size" and "absolute_key_offset = entries_area_end +
    record.key_data_offset", as integers. *)
Definition absolute_key_offset_spec (object_header_size header_size : Z)
    (h : libfsapfs_btree_header_t) (record_key_data_offset : Z) : Z :=
  object_header_size + header_size
  + entries_data_offset h + entries_data_size h + record_key_data_offset.

(** "footer_offset = buffer_length - sizeof(Footer)" and
    "absolute_value_offset = footer_offset - record.value_data_offset", as
    integers. *)
Definition absolute_value_offset_spec (buffer_length footer_size : Z)
    (record_value_data_offset : Z) : Z :=
  buffer_length - footer_size - record_value_data_offset.

(** ** Reading a node (lines 266-769) *)

Section ReadData.

(** The width of [size_t] in bits. *)
Variable size_bits : Z.

(** [sizeof( fsapfs_btree_header_t )] and [sizeof( fsapfs_btree_footer_t )]:
    fsapfs_btree.h is not among the sources, and the specification only
    calls both "fixed". *)
Variable sizeof_fsapfs_btree_header_t : Z.
Variable sizeof_fsapfs_btree_footer_t : Z.

(** The byte decoders of libfsapfs_btree_header.c and
    libfsapfs_btree_footer.c, which are not among the sources: from the
    bytes they are handed to the decoded object, or failure. *)
Variable header_of_bytes : list byte -> option libfsapfs_btree_header_t.
Variable footer_of_bytes : list byte -> option libfsapfs_btree_footer_t.

Definition SSIZE_MAX : Z := 2 ^ (size_bits - 1) - 1.

(** Arithmetic in [size_t] and [uint64_t] wraps. *)
Definition size_t (x : Z) : Z := Int.to_unsigned size_bits x.
Definition uint64_t (x : Z) : Z := Int.to_unsigned 64 x.

(** Modelled from the spec: fsapfs_object.h, which declares
    [fsapfs_object_t], is not among the sources.  The object header is the
    "common 32-byte preamble" checksum(8) + identifier(8) + version(8) +
    type(4) + subtype(4). *)
Definition sizeof_fsapfs_object_t : Z := 32.
Definition offsetof_object_checksum : Z := 0.
Definition offsetof_object_identifier : Z := 8.
Definition offsetof_object_version : Z := 16.
Definition offsetof_object_type : Z := 24.
Definition offsetof_object_subtype : Z := 28.

(** Modelled from the spec: fsapfs_btree.h, which declares
    [fsapfs_btree_variable_size_entry_t], is not among the sources.  A
    table-of-contents record is 8 bytes: key_offset(2), key_size(2),
    value_offset(2), value_size(2), so its members lie at 0, 2, 4 and 6. *)
Definition sizeof_fsapfs_btree_variable_size_entry_t : Z := 8.

(** The header and footer objects are the "intermediate allocations" of the
    specification.  libfsapfs_btree_header.c and libfsapfs_btree_footer.c,
    which define their functions, are not among the sources: creation and
    release follow [libfsapfs_file_system_btree_initialize] and
    [libfsapfs_file_system_btree_free] above, which are written to the same
    pattern, and the decoding is the parameter [header_of_bytes]
    ([footer_of_bytes]). *)

(** Modelled from the spec: [libfsapfs_btree_header_initialize], after
    [libfsapfs_file_system_btree_initialize]: it refuses a pointer that is
    set, allocates, clears, and leaves NULL behind when it fails. *)
Definition libfsapfs_btree_header_initialize (s : state) : Z * state :=
  match btree_header s with
  | Some _ => (-1, s)
  | None =>
      let (allocated, s1) := memory_allocate Btree_header_block s in
      if allocated then (1, set_btree_header (Some cleared_header) s1)
      else (-1, s1)
  end.

(** Modelled from the spec: [libfsapfs_btree_header_read_data] decodes the
    bytes it is handed into the object, or fails. *)
Definition libfsapfs_btree_header_read_data (bytes : list byte) (s : state)
  : Z * state :=
  match header_of_bytes bytes with
  | Some h => (1, set_btree_header (Some h) s)
  | None => (-1, s)
  end.

(** Modelled from the spec: [libfsapfs_btree_header_free], after
    [libfsapfs_file_system_btree_free]: it frees the object when there is
    one, sets the pointer to NULL and returns 1. *)
Definition libfsapfs_btree_header_free (s : state) : Z * state :=
  match btree_header s with
  | Some _ => (1, set_btree_header None (memory_free Btree_header_block s))
  | None => (1, s)
  end.

(** Modelled from the spec: [libfsapfs_btree_footer_initialize], as for the
    header. *)
Definition libfsapfs_btree_footer_initialize (s : state) : Z * state :=
  match btree_footer s with
  | Some _ => (-1, s)
  | None =>
      let (allocated, s1) := memory_allocate Btree_footer_block s in
      if allocated then (1, set_btree_footer (Some cleared_footer) s1)
      else (-1, s1)
  end.

(** Modelled from the spec: [libfsapfs_btree_footer_read_data], as for the
    header. *)
Definition libfsapfs_btree_footer_read_data (bytes : list byte) (s : state)
  : Z * state :=
  match footer_of_bytes bytes with
  | Some f => (1, set_btree_footer (Some f) s)
  | None => (-1, s)
  end.

(** Modelled from the spec: [libfsapfs_btree_footer_free], as for the
    header. *)
Definition libfsapfs_btree_footer_free (s : state) : Z * state :=
  match btree_footer s with
  | Some _ => (1, set_btree_footer None (memory_free Btree_footer_block s))
  | None => (1, s)
  end.

(** [btree_header->member] and [btree_footer->member] *)
Definition the_header (s : state) : libfsapfs_btree_header_t :=
  match btree_header s with Some h => h | None => cleared_header end.

Definition the_footer (s : state) : libfsapfs_btree_footer_t :=
  match btree_footer s with Some f => f | None => cleared_footer end.

Definition get_header : M libfsapfs_btree_header_t :=
  fun s => (inl (the_header s), s).

Definition get_footer : M libfsapfs_btree_footer_t :=
  fun s => (inl (the_footer s), s).

Definition out_of_bounds : abort :=
  Goto_on_error RUNTIME_ERROR_VALUE_OUT_OF_BOUNDS.

(** The loop of lines 614-726, [count] rounds from [data_offset] on.
    [entries_data_offset] and [footer_offset] are the [uint16_t] locals set
    at lines 611-612; [entries_size] is [btree_header->entries_data_size]. *)
Fixpoint read_entries (data : list byte) (data_size entries_size : Z)
    (entries_data_offset footer_offset : Z) (count : nat) (data_offset : Z)
  : M (list resolved_entry) :=
  match count with
  | O => ret []
  | S count' =>
      (* 618-634 *)
      key_data_offset <- load_uint data data_offset 2 ;;
      key_data_size <- load_uint data (data_offset + 2) 2 ;;
      value_data_offset <- load_uint data (data_offset + 4) 2 ;;
      value_data_size <- load_uint data (data_offset + 6) 2 ;;
      (* 670 *)
      let data_offset :=
        size_t (data_offset + sizeof_fsapfs_btree_variable_size_entry_t) in
      (* 672 *)
      let key_data_offset :=
        Int.to_uint16
          (key_data_offset + (entries_data_offset + entries_size)) in
      (* 674-685 *)
      fail_if ((data_size <? key_data_offset)
               || (size_t (data_size - key_data_offset) <? key_data_size))
              out_of_bounds ;;
      (* 686-698 *)
      debug_access key_data_offset key_data_size ;;
      (* 699 *)
      let value_data_offset :=
        Int.to_uint16 (footer_offset - value_data_offset) in
      (* 701-712 *)
      fail_if ((data_size <? value_data_offset)
               || (size_t (data_size - value_data_offset) <? value_data_size))
              out_of_bounds ;;
      (* 713-725 *)
      debug_access value_data_offset value_data_size ;;
      rest <- read_entries data data_size entries_size entries_data_offset
                           footer_offset count' data_offset ;;
      ret ({| key_data_offset := key_data_offset;
              key_data_size := key_data_size;
              value_data_offset := value_data_offset;
              value_data_size := value_data_size |} :: rest)
  end.

Definition unsupported_value : abort :=
  Goto_on_error RUNTIME_ERROR_UNSUPPORTED_VALUE.

Definition file_system_btree_is_null : M bool :=
  fun s =>
    (inl (match file_system_btree s with None => true | Some _ => false end),
     s).

(** The accounting chain of lines 483-545; [data_offset] is the end of the
    B-tree header. *)
Definition check_layout (btree_header : libfsapfs_btree_header_t)
    (data_size data_offset : Z) : M unit :=
  (* 483-493 *)
  fail_if (data_size <? size_t (data_offset + sizeof_fsapfs_btree_footer_t))
          out_of_bounds ;;
  (* 494 *)
  let remaining_data_size :=
    size_t (size_t (data_size - data_offset) - sizeof_fsapfs_btree_footer_t) in
  (* 496-506 *)
  fail_if (remaining_data_size <=? entries_data_offset btree_header)
          out_of_bounds ;;
  (* 507 *)
  let remaining_data_size :=
    size_t (remaining_data_size - entries_data_offset btree_header) in
  (* 509-519 *)
  fail_if (remaining_data_size <? entries_data_size btree_header)
          out_of_bounds ;;
  (* 520 *)
  let remaining_data_size :=
    size_t (remaining_data_size - entries_data_size btree_header) in
  (* 522-532 *)
  fail_if (remaining_data_size <=? unused_data_offset btree_header)
          out_of_bounds ;;
  (* 533 *)
  let remaining_data_size :=
    size_t (remaining_data_size - unused_data_offset btree_header) in
  (* 535-545 *)
  fail_if (remaining_data_size <? unused_data_size btree_header)
          out_of_bounds.

(** The body of [libfsapfs_file_system_btree_read_data] up to
    [return( 1 )]; every [throw] and failing [fail_if] is one of its error
    exits. *)
Definition read_data_body (data : option (list byte)) : M node_view :=
  (* 296-306 *)
  is_null <- file_system_btree_is_null ;;
  fail_if is_null (Return_error ARGUMENT_ERROR_INVALID_VALUE) ;;
  (* 307-317 *)
  match data with
  | None => throw (Return_error RUNTIME_ERROR_VALUE_MISSING)
  | Some data =>
      let data_size := Z.of_nat (length data) in
      (* 318-329 *)
      fail_if ((data_size <? sizeof_fsapfs_object_t)
               || (SSIZE_MAX <? data_size))
              (Return_error RUNTIME_ERROR_VALUE_OUT_OF_BOUNDS) ;;
      (* 330-353 *)
      debug_access 0 data_size ;;
      debug_access 0 sizeof_fsapfs_object_t ;;
      (* 354-369 *)
      object_type <- load_uint data offsetof_object_type 4 ;;
      fail_if (negb (object_type =? 2)) unsupported_value ;;
      (* 370-385 *)
      object_subtype <- load_uint data offsetof_object_subtype 4 ;;
      fail_if (negb (object_subtype =? 14)) unsupported_value ;;
      (* 386-426 *)
      debug_access offsetof_object_checksum 8 ;;
      debug_access offsetof_object_identifier 8 ;;
      debug_access offsetof_object_version 8 ;;
      (* 428-440 *)
      let data_offset := sizeof_fsapfs_object_t in
      fail_if (data_size <? size_t (data_offset + sizeof_fsapfs_btree_header_t))
              out_of_bounds ;;
      (* 441-453 *)
      r <- call libfsapfs_btree_header_initialize ;;
      fail_if (negb (r =? 1)) (Goto_on_error RUNTIME_ERROR_INITIALIZE_FAILED) ;;
      (* 454-468 *)
      bytes <- load data data_offset sizeof_fsapfs_btree_header_t ;;
      r <- call (libfsapfs_btree_header_read_data bytes) ;;
      fail_if (negb (r =? 1)) (Goto_on_error IO_ERROR_READ_FAILED) ;;
      (* 469-480 *)
      btree_header <- get_header ;;
      fail_if (negb (flags btree_header =? 3)) unsupported_value ;;
      (* 481 *)
      let data_offset := size_t (data_offset + sizeof_fsapfs_btree_header_t) in
      (* 483-545 *)
      check_layout btree_header data_size data_offset ;;
      (* 548-560 *)
      r <- call libfsapfs_btree_footer_initialize ;;
      fail_if (negb (r =? 1)) (Goto_on_error RUNTIME_ERROR_INITIALIZE_FAILED) ;;
      (* 561-575 *)
      bytes <- load data (size_t (data_size - sizeof_fsapfs_btree_footer_t))
                    sizeof_fsapfs_btree_footer_t ;;
      r <- call (libfsapfs_btree_footer_read_data bytes) ;;
      fail_if (negb (r =? 1)) (Goto_on_error IO_ERROR_READ_FAILED) ;;
      (* 576-597 *)
      btree_footer <- get_footer ;;
      fail_if (negb (key_size btree_footer =? 0)) out_of_bounds ;;
      fail_if (negb (value_size btree_footer =? 0)) out_of_bounds ;;
      (* 598-608 *)
      fail_if (uint64_t (size_t (entries_data_size btree_header)
                         / sizeof_fsapfs_btree_variable_size_entry_t)
               <? number_of_entries btree_footer)
              out_of_bounds ;;
      (* 609 *)
      let data_offset :=
        size_t (data_offset + entries_data_offset btree_header) in
      (* 611 *)
      let entries_data_offset :=
        Int.to_uint16
          (entries_data_offset btree_header
           + Int.to_uint16 (size_t (sizeof_fsapfs_object_t
                                    + sizeof_fsapfs_btree_header_t))) in
      (* 612 *)
      let footer_offset :=
        Int.to_uint16 (size_t (data_size - sizeof_fsapfs_btree_footer_t)) in
      (* 614-726 *)
      entries <- read_entries data data_size (entries_data_size btree_header)
                              entries_data_offset footer_offset
                              (Z.to_nat (number_of_entries btree_footer))
                              data_offset ;;
      (* 727-739 *)
      r <- call libfsapfs_btree_footer_free ;;
      fail_if (negb (r =? 1)) (Goto_on_error RUNTIME_ERROR_FINALIZE_FAILED) ;;
      (* 740-752 *)
      r <- call libfsapfs_btree_header_free ;;
      fail_if (negb (r =? 1)) (Goto_on_error RUNTIME_ERROR_FINALIZE_FAILED) ;;
      ret {| view_header := btree_header;
             view_footer := btree_footer;
             view_entries := entries |}
  end.

(** The [on_error] label (lines 755-768). *)
Definition on_error (s : state) : state :=
  let s1 := match btree_footer s with
            | Some _ => snd (libfsapfs_btree_footer_free s)
            | None => s
            end in
  match btree_header s1 with
  | Some _ => snd (libfsapfs_btree_header_free s1)
  | None => s1
  end.

(** The declarations of lines 276-277: both pointer locals start as NULL. *)
Definition enter (s : state) : state :=
  set_btree_footer None (set_btree_header None s).

(** [libfsapfs_file_system_btree_read_data]: the return value, the error
    that was set, and the state the call leaves. *)
Definition libfsapfs_file_system_btree_read_data (data : option (list byte))
    (s : state) : (Z * option libcerror_error_t) * state :=
  match read_data_body data (enter s) with
  | (inl _, s') => ((1, None), s')
  | (inr (Return_error e), s') => ((-1, Some e), s')
  | (inr (Goto_on_error e), s') => ((-1, Some e), on_error s')
  end.

(** The decoded values of a call (see [node_view]). *)
Definition decoded (data : option (list byte)) (s : state) : option node_view :=
  match fst (read_data_body data (enter s)) with
  | inl view => Some view
  | inr _ => None
  end.

(** ** The vocabulary of the statements *)

(** An access [(offset, length)] stays inside a buffer of [data_size]
    bytes: every index it touches is in [0, data_size). *)
Definition in_bounds (data_size : Z) (a : Z * Z) : Prop :=
  0 <= fst a /\ 0 <= snd a /\ fst a + snd a <= data_size.

(** The key range and the value range of a resolved entry stay inside. *)
Definition entry_in_bounds (data_size : Z) (e : resolved_entry) : Prop :=
  in_bounds data_size (key_data_offset e, key_data_size e)
  /\ in_bounds data_size (value_data_offset e, value_data_size e).

(** The offsets of the [count] table-of-contents records from [off] on. *)
Definition record_offsets (off : Z) (count : nat) : list Z :=
  map (fun i => off + 8 * Z.of_nat i) (seq 0 count).

(** What one round of the loop makes of the record at [off]: both
    absolute offsets are [uint16_t] values. *)
Definition resolved_at (data : list byte)
    (entries_size entries_data_offset footer_offset off : Z) : resolved_entry :=
  {| key_data_offset :=
       Int.to_uint16
         (ByteStream.little_endian (ByteStream.slice data off 2)
          + (entries_data_offset + entries_size));
     key_data_size :=
       ByteStream.little_endian (ByteStream.slice data (off + 2) 2);
     value_data_offset :=
       Int.to_uint16
         (footer_offset
          - ByteStream.little_endian (ByteStream.slice data (off + 4) 2));
     value_data_size :=
       ByteStream.little_endian (ByteStream.slice data (off + 6) 2) |}.

(** The first allocation of a call succeeds; the second one does. *)
Definition header_allocated (s : state) : Prop :=
  match malloc_oracle s with false :: _ => False | _ => True end.

Definition footer_allocated (s : state) : Prop :=
  match malloc_oracle s with _ :: false :: _ => False | _ => True end.

(** [s'] is [s] after some more accesses, all of them in bounds. *)
Definition logged (data_size : Z) (s s' : state) : Prop :=
  exists l, s' = set_accesses (accesses s ++ l) s
            /\ Forall (in_bounds data_size) l.

(** [s'] is what a call may leave of [s]: the structure and the heap as
    they were, both pointer locals NULL, some allocator answers used up
    and some accesses of [data] added, all of them in bounds. *)
Definition released (data : option (list byte)) (s s' : state) : Prop :=
  exists l oracle,
    s' = mkState (file_system_btree s) (heap s) oracle (libcnotify_verbose s)
                 (accesses s ++ l) None None
    /\ match data with
       | None => l = []
       | Some d => Forall (in_bounds (Z.of_nat (length d))) l
       end.

(** The members and slices of a buffer that the reader looks at. *)
Definition object_type (d : list byte) : Z :=
  ByteStream.little_endian (ByteStream.slice d offsetof_object_type 4).

Definition object_subtype (d : list byte) : Z :=
  ByteStream.little_endian (ByteStream.slice d offsetof_object_subtype 4).

Definition header_slice (d : list byte) : list byte :=
  ByteStream.slice d sizeof_fsapfs_object_t sizeof_fsapfs_btree_header_t.

Definition footer_slice (d : list byte) : list byte :=
  ByteStream.slice d (Z.of_nat (length d) - sizeof_fsapfs_btree_footer_t)
                   sizeof_fsapfs_btree_footer_t.

Definition header_end : Z :=
  sizeof_fsapfs_object_t + sizeof_fsapfs_btree_header_t.

(** The layouts that the accounting chain of lines 483-545 lets through:
    the offsets strictly below what remains, the sizes at most what
    remains. *)
Definition layout_ok (h : libfsapfs_btree_header_t) (data_size : Z) : Prop :=
  let remaining := data_size - header_end - sizeof_fsapfs_btree_footer_t in
  header_end + sizeof_fsapfs_btree_footer_t <= data_size
  /\ entries_data_offset h < remaining
  /\ entries_data_size h <= remaining - entries_data_offset h
  /\ unused_data_offset h
     < remaining - entries_data_offset h - entries_data_size h
  /\ unused_data_size h
     <= remaining - entries_data_offset h - entries_data_size h
        - unused_data_offset h.

(** All that holds of a buffer and of the view [v] a call has decoded from
    it when the call returns 1. *)
Definition accepted (data : option (list byte)) (s : state) (v : node_view)
  : Prop :=
  exists d,
    data = Some d
    /\ file_system_btree s <> None
    /\ sizeof_fsapfs_object_t <= Z.of_nat (length d) <= SSIZE_MAX
    /\ object_type d = 2
    /\ object_subtype d = 14
    /\ header_of_bytes (header_slice d) = Some (view_header v)
    /\ flags (view_header v) = 3
    /\ layout_ok (view_header v) (Z.of_nat (length d))
    /\ footer_of_bytes (footer_slice d) = Some (view_footer v)
    /\ key_size (view_footer v) = 0
    /\ value_size (view_footer v) = 0
    /\ number_of_entries (view_footer v)
       <= entries_data_size (view_header v) / 8
    /\ view_entries v
       = map (resolved_at d (entries_data_size (view_header v))
                (Int.to_uint16 (entries_data_offset (view_header v)
                                + Int.to_uint16 header_end))
                (Int.to_uint16
                   (Z.of_nat (length d) - sizeof_fsapfs_btree_footer_t)))
             (record_offsets
                (header_end + entries_data_offset (view_header v))
                (Z.to_nat (number_of_entries (view_footer v))))
    /\ Forall (entry_in_bounds (Z.of_nat (length d))) (view_entries v).

(** The accesses of a call up to and including the header slice. *)
Definition header_stage_accesses (verbose : bool) (data_size : Z)
  : list (Z * Z) :=
  (if verbose then [(0, data_size); (0, sizeof_fsapfs_object_t)] else [])
  ++ [(offsetof_object_type, 4); (offsetof_object_subtype, 4)]
  ++ (if verbose
      then [(offsetof_object_checksum, 8); (offsetof_object_identifier, 8);
            (offsetof_object_version, 8)]
      else [])
  ++ [(sizeof_fsapfs_object_t, sizeof_fsapfs_btree_header_t)].

(** The conditions under which a call gets as far as the accounting chain
    with the header [h]. *)
Definition header_decoded (s : state) (d : list byte)
    (h : libfsapfs_btree_header_t) : Prop :=
  file_system_btree s <> None
  /\ sizeof_fsapfs_object_t <= Z.of_nat (length d) <= SSIZE_MAX
  /\ object_type d = 2
  /\ object_subtype d = 14
  /\ header_end <= Z.of_nat (length d)
  /\ header_allocated s
  /\ header_of_bytes (header_slice d) = Some h
  /\ flags h = 3.

(** The conditions under which a call gets as far as the checks of the
    footer [f]. *)
Definition footer_decoded (s : state) (d : list byte)
    (h : libfsapfs_btree_header_t) (f : libfsapfs_btree_footer_t) : Prop :=
  header_decoded s d h
  /\ layout_ok h (Z.of_nat (length d))
  /\ footer_allocated s
  /\ footer_of_bytes (footer_slice d) = Some f.

(** The three ways to UNSUPPORTED_VALUE: the object type, the object
    subtype, the header flags. *)
Definition unsupported_cause (data : option (list byte)) (s : state) : Prop :=
  exists d,
    data = Some d
    /\ file_system_btree s <> None
    /\ sizeof_fsapfs_object_t <= Z.of_nat (length d) <= SSIZE_MAX
    /\ (object_type d <> 2
        \/ (object_type d = 2 /\ object_subtype d <> 14)
        \/ (object_type d = 2 /\ object_subtype d = 14
            /\ header_end <= Z.of_nat (length d)
            /\ header_allocated s
            /\ exists h, header_of_bytes (header_slice d) = Some h
                         /\ flags h <> 3)).

(** Two states that the reader cannot tell apart: the same answer to the
    NULL test, the same allocator, the same pointer locals. *)
Definition alike (s1 s2 : state) : Prop :=
  (file_system_btree s1 = None <-> file_system_btree s2 = None)
  /\ malloc_oracle s1 = malloc_oracle s2
  /\ btree_header s1 = btree_header s2
  /\ btree_footer s1 = btree_footer s2.

(** A body whose result is the same from states that are [alike], and
    that keeps them so. *)
Definition respects {A : Type} (m : M A) : Prop :=
  forall s1 s2, alike s1 s2 ->
    fst (m s1) = fst (m s2) /\ alike (snd (m s1)) (snd (m s2)).

(** ** Reasoning about bodies: weakest preconditions

    [wp m Q E s]: run from [s], the body [m] either returns a value and a
    state that satisfy [Q], or leaves with an abort and a state that
    satisfy [E]. *)

Definition wp {A : Type} (m : M A) (Q : A -> state -> Prop)
    (E : abort -> state -> Prop) (s : state) : Prop :=
  match m s with
  | (inl a, s') => Q a s'
  | (inr e, s') => E e s'
  end.

Lemma wp_bind {A B : Type} (m : M A) (k : A -> M B) Q E s :
  wp m (fun a s' => wp (k a) Q E s') E s -> wp (bind m k) Q E s.
Proof.
  unfold wp, bind. destruct (m s) as [[a|e] s']; auto.
Qed.

Lemma wp_ret {A : Type} (a : A) Q E s : Q a s -> wp (ret a) Q E s.
Proof. auto. Qed.

Lemma wp_throw {A : Type} e (Q : A -> state -> Prop) E s :
  E e s -> wp (throw e) Q E s.
Proof. auto. Qed.

Lemma wp_fail_if c e Q E s :
  (c = true -> E e s) -> (c = false -> Q tt s) -> wp (fail_if c e) Q E s.
Proof. unfold wp, fail_if. destruct c; auto. Qed.

Lemma wp_load data off len Q E s :
  Q (ByteStream.slice data off len)
    (set_accesses (accesses s ++ [(off, len)]) s) ->
  wp (load data off len) Q E s.
Proof. auto. Qed.

Lemma wp_load_uint data off len Q E s :
  Q (ByteStream.little_endian (ByteStream.slice data off len))
    (set_accesses (accesses s ++ [(off, len)]) s) ->
  wp (load_uint data off len) Q E s.
Proof. auto. Qed.

Lemma wp_call {A : Type} (f : state -> A * state) Q E s :
  Q (fst (f s)) (snd (f s)) -> wp (call f) Q E s.
Proof. unfold wp, call. destruct (f s); auto. Qed.

Lemma wp_conseq {A : Type} (m : M A) (Q Q' : A -> state -> Prop)
    (E E' : abort -> state -> Prop) s :
  wp m Q E s -> (forall a s', Q a s' -> Q' a s') ->
  (forall e s', E e s' -> E' e s') -> wp m Q' E' s.
Proof.
  unfold wp. destruct (m s) as [[a|e] s']; auto.
Qed.

(** ** Assumptions on what the sources do not show

    [size_t] has at least 32 bits; the three structures together are no
    larger than SSIZE_MAX; and the decoders return members that fit their
    C types. *)

Hypothesis size_bits_ge : 32 <= size_bits.
Hypothesis sizeof_header_ge : 0 <= sizeof_fsapfs_btree_header_t.
Hypothesis sizeof_footer_ge : 0 <= sizeof_fsapfs_btree_footer_t.
Hypothesis sizes_small :
  sizeof_fsapfs_object_t + sizeof_fsapfs_btree_header_t
  + sizeof_fsapfs_btree_footer_t <= SSIZE_MAX.
Hypothesis header_of_bytes_wf :
  forall bytes h, header_of_bytes bytes = Some h -> header_wf h.
Hypothesis footer_of_bytes_wf :
  forall bytes f, footer_of_bytes bytes = Some f -> footer_wf f.

(** Where [size_t] and [uint64_t] arithmetic does not wrap. *)
Lemma size_t_small x : 0 <= x <= 2 * SSIZE_MAX + 1 -> size_t x = x.
Proof.
  intros Hx. unfold size_t. apply Int.to_unsigned_small.
  unfold SSIZE_MAX in Hx.
  replace (2 ^ size_bits) with (2 * 2 ^ (size_bits - 1)); [lia|].
  rewrite <- Z.pow_succ_r by lia. f_equal. lia.
Qed.

Lemma uint64_t_small x : 0 <= x < 18446744073709551616 -> uint64_t x = x.
Proof. intros. unfold uint64_t. now apply Int.to_unsigned_small. Qed.

Lemma wp_debug_access_if off len (Q : unit -> state -> Prop) E s verbose :
  libcnotify_verbose s = verbose ->
  (if verbose
   then Q tt (set_accesses (accesses s ++ [(off, len)]) s)
   else Q tt s) ->
  wp (debug_access off len) Q E s.
Proof.
  intros <-. unfold wp, debug_access, access.
  destruct (libcnotify_verbose s); auto.
Qed.

Lemma wp_get_header (Q : libfsapfs_btree_header_t -> state -> Prop) E s :
  Q (the_header s) s -> wp get_header Q E s.
Proof. auto. Qed.

Lemma wp_get_footer (Q : libfsapfs_btree_footer_t -> state -> Prop) E s :
  Q (the_footer s) s -> wp get_footer Q E s.
Proof. auto. Qed.

Lemma wp_file_system_btree_is_null (Q : bool -> state -> Prop) E s :
  (file_system_btree s = None -> Q true s) ->
  (file_system_btree s <> None -> Q false s) ->
  wp file_system_btree_is_null Q E s.
Proof.
  unfold wp, file_system_btree_is_null.
  destruct (file_system_btree s); intros H1 H2; [apply H2|apply H1]; congruence.
Qed.

(** *** Stepping through a body

    [wp_run] follows a body statement by statement.  Every check splits the
    goal into the exit and the continuation, each with what the check has
    told; a branch whose facts contradict each other is closed at once. *)

Ltac state_simpl :=
  unfold memory_free, set_file_system_btree, set_heap, set_malloc_oracle,
    set_accesses, set_btree_header, set_btree_footer, enter in *;
  cbn [file_system_btree heap malloc_oracle libcnotify_verbose accesses
       btree_header btree_footer the_header the_footer
       remove_block block_eqb fst snd] in *.

Ltac bool_facts :=
  repeat match goal with
  | H : (_ || _) = false |- _ => apply orb_false_iff in H; destruct H
  | H : (_ || _) = true |- _ => apply orb_true_iff in H; destruct H
  | H : negb _ = false |- _ => apply negb_false_iff in H
  | H : negb _ = true |- _ => apply negb_true_iff in H
  | H : (_ <? _) = false |- _ => apply Z.ltb_ge in H
  | H : (_ <? _) = true |- _ => apply Z.ltb_lt in H
  | H : (_ <=? _) = false |- _ => apply Z.leb_gt in H
  | H : (_ <=? _) = true |- _ => apply Z.leb_le in H
  | H : (_ =? _) = false |- _ => apply Z.eqb_neq in H
  | H : (_ =? _) = true |- _ => apply Z.eqb_eq in H
  end.

Ltac size_simpl :=
  repeat match goal with
  | H : context [uint64_t ?x] |- _ =>
      rewrite (uint64_t_small x) in H by (Z.div_mod_to_equations; lia)
  | H : context [size_t ?x] |- _ =>
      rewrite (size_t_small x) in H by lia
  | |- context [size_t ?x] =>
      rewrite (size_t_small x) by lia
  end.

Ltac wp_step :=
  lazymatch goal with
  | |- wp (bind _ _) _ _ _ => apply wp_bind
  | |- wp (ret _) _ _ _ => apply wp_ret
  | |- wp (throw _) _ _ _ => apply wp_throw
  | |- wp (fail_if _ _) _ _ _ =>
      apply wp_fail_if; intro; bool_facts; try (exfalso; congruence);
      size_simpl; try (exfalso; lia)
  | |- wp (debug_access _ _) _ _ _ =>
      eapply wp_debug_access_if; [state_simpl; eassumption|cbv iota]
  | |- wp (load _ _ _) _ _ _ => apply wp_load
  | |- wp (load_uint _ _ _) _ _ _ => apply wp_load_uint
  | |- wp get_header _ _ _ => apply wp_get_header
  | |- wp get_footer _ _ _ => apply wp_get_footer
  | |- wp file_system_btree_is_null _ _ _ =>
      apply wp_file_system_btree_is_null; intro
  end; cbv beta zeta; state_simpl.

(** *** The loop *)

Lemma set_accesses_nil s : set_accesses (accesses s ++ []) s = s.
Proof. destruct s; cbn. now rewrite app_nil_r. Qed.

Lemma logged_refl data_size s : logged data_size s s.
Proof. exists []. split; [now rewrite set_accesses_nil | constructor]. Qed.

Lemma logged_step data_size s l s' :
  Forall (in_bounds data_size) l ->
  logged data_size (set_accesses (accesses s ++ l) s) s' ->
  logged data_size s s'.
Proof.
  intros Hl (l' & -> & Hl'). exists (l ++ l'). split.
  - cbn. now rewrite app_assoc.
  - apply Forall_app. auto.
Qed.

Lemma little_endian_slice_range data off len :
  0 <= len ->
  0 <= ByteStream.little_endian (ByteStream.slice data off len) < 2 ^ (8 * len).
Proof.
  intros Hlen.
  pose proof (ByteStream.little_endian_range
                (ByteStream.slice data off len)) as Hr.
  pose proof (ByteStream.slice_length data off len) as Hl.
  split; [lia|]. eapply Z.lt_le_trans; [apply Hr|].
  apply Z.pow_le_mono_r; lia.
Qed.

Lemma logged_trans data_size s s1 s2 :
  logged data_size s s1 -> logged data_size s1 s2 -> logged data_size s s2.
Proof.
  intros (l1 & -> & H1) H2. eapply logged_step; eauto.
Qed.

Ltac solve_in_bounds :=
  repeat (apply Forall_cons; [unfold in_bounds; cbn [fst snd]; lia|]);
  apply Forall_nil.

Ltac solve_logged :=
  state_simpl; rewrite <- ?app_assoc; cbn [app];
  eexists; split; [unfold set_accesses; reflexivity | solve_in_bounds].

Ltac uint16_facts :=
  repeat match goal with
  | |- context [Int.to_uint16 ?x] =>
      let v := fresh "v" in
      pose proof (Int.to_uint16_range x);
      generalize dependent (Int.to_uint16 x); intros v; intros
  end;
  unfold Int.uint16_range in *.

Lemma map_seq_shift {A : Type} (f : nat -> A) n :
  map f (seq 1 n) = map (fun i => f (S i)) (seq 0 n).
Proof. rewrite <- seq_shift, map_map. reflexivity. Qed.

Lemma read_entries_wp data entries_size entries_data_offset footer_offset
    count :
  forall off s,
    Z.of_nat (length data) <= SSIZE_MAX ->
    0 <= off ->
    off + 8 * Z.of_nat count <= Z.of_nat (length data) ->
    wp (read_entries data (Z.of_nat (length data)) entries_size
                     entries_data_offset footer_offset count off)
       (fun r s' => logged (Z.of_nat (length data)) s s'
                    /\ r = map (resolved_at data entries_size
                                            entries_data_offset footer_offset)
                               (record_offsets off count)
                    /\ Forall (entry_in_bounds (Z.of_nat (length data))) r)
       (fun e s' => logged (Z.of_nat (length data)) s s'
                    /\ e = out_of_bounds)
       s.
Proof.
  induction count as [|count IH]; intros off s Hsize Hoff Hcount.
  - apply wp_ret. split; [apply logged_refl|]. split; [reflexivity|constructor].
  - cbn [read_entries].
    unfold sizeof_fsapfs_btree_variable_size_entry_t.
    rewrite (size_t_small (off + 8)) by lia.
    assert (Hreads : Forall (in_bounds (Z.of_nat (length data)))
                       [(off, 2); (off + 2, 2); (off + 4, 2); (off + 6, 2)])
      by (repeat constructor; cbn; lia).
    assert (Hnext : off + 8 + 8 * Z.of_nat count <= Z.of_nat (length data))
      by lia.
    assert (Hshift : record_offsets off (S count)
                     = off :: record_offsets (off + 8) count).
    { unfold record_offsets. cbn [seq map]. f_equal; [lia|].
      rewrite map_seq_shift. apply map_ext. intros i. lia. }
    rewrite Hshift. cbn [map]. unfold resolved_at at 1.
    destruct (libcnotify_verbose s) eqn:Hverbose;
      (do 8 wp_step;
       pose proof (little_endian_slice_range data (off + 2) 2 ltac:(lia)) as Hk;
       pose proof (little_endian_slice_range data (off + 6) 2 ltac:(lia)) as Hv;
       generalize dependent
         (ByteStream.little_endian (ByteStream.slice data off 2));
       generalize dependent
         (ByteStream.little_endian (ByteStream.slice data (off + 2) 2));
       generalize dependent
         (ByteStream.little_endian (ByteStream.slice data (off + 4) 2));
       generalize dependent
         (ByteStream.little_endian (ByteStream.slice data (off + 6) 2));
       intros vsize Hv voff ksize Hk koff;
       uint16_facts);
      (repeat wp_step; try (split; [solve_logged|reflexivity]));
      (eapply wp_conseq; [apply (IH (off + 8)); lia| |]).
    1, 3: intros r s' (Hlog & Hr & Hall); apply wp_ret; split; [|split];
      [ eapply logged_trans; [|exact Hlog]; solve_logged
      | now rewrite Hr
      | constructor; [|exact Hall];
        unfold entry_in_bounds, in_bounds; cbn; lia ].
    all: intros e s' (Hlog & ->); split; [|reflexivity];
      eapply logged_trans; [|exact Hlog]; solve_logged.
Qed.

Ltac wp_call_step :=
  lazymatch goal with
  | |- wp (call (libfsapfs_btree_header_initialize)) _ _ _ =>
      apply wp_call;
      unfold libfsapfs_btree_header_initialize, memory_allocate; state_simpl;
      try match goal with
      | |- context [match ?o with [] => _ | _ :: _ => _ end] =>
          let Ho := fresh "Horacle" in
          destruct o as [|[|] ?] eqn:Ho;
          unfold header_allocated, footer_allocated in *;
          repeat match goal with
          | H : context [match o with _ => _ end] |- _ => rewrite Ho in H
          end;
          try contradiction
      end
  | |- wp (call (libfsapfs_btree_footer_initialize)) _ _ _ =>
      apply wp_call;
      unfold libfsapfs_btree_footer_initialize, memory_allocate; state_simpl;
      try match goal with
      | |- context [match ?o with [] => _ | _ :: _ => _ end] =>
          let Ho := fresh "Horacle" in
          destruct o as [|[|] ?] eqn:Ho;
          unfold header_allocated, footer_allocated in *;
          repeat match goal with
          | H : context [match o with _ => _ end] |- _ => rewrite Ho in H
          end;
          try contradiction
      end
  | |- wp (call (libfsapfs_btree_header_read_data ?bytes)) _ _ _ =>
      apply wp_call; unfold libfsapfs_btree_header_read_data;
      let Hh := fresh "Hheader" in
      let Hwf := fresh "Hwf" in
      lazymatch goal with
      | Hknown : header_of_bytes bytes = Some _ |- _ =>
          rewrite Hknown;
          pose proof (header_of_bytes_wf _ _ Hknown) as Hwf;
          unfold header_wf, Int.uint16_range in Hwf
      | _ =>
          destruct (header_of_bytes bytes) eqn:Hh;
          [pose proof (header_of_bytes_wf _ _ Hh) as Hwf;
           unfold header_wf, Int.uint16_range in Hwf|]
      end
  | |- wp (call (libfsapfs_btree_footer_read_data ?bytes)) _ _ _ =>
      apply wp_call; unfold libfsapfs_btree_footer_read_data;
      let Hf := fresh "Hfooter" in
      let Hwf := fresh "Hwf" in
      lazymatch goal with
      | Hknown : footer_of_bytes bytes = Some _ |- _ =>
          rewrite Hknown;
          pose proof (footer_of_bytes_wf _ _ Hknown) as Hwf;
          unfold footer_wf, Int.uint16_range, Int.uint64_range in Hwf
      | _ =>
          destruct (footer_of_bytes bytes) eqn:Hf;
          [pose proof (footer_of_bytes_wf _ _ Hf) as Hwf;
           unfold footer_wf, Int.uint16_range, Int.uint64_range in Hwf|]
      end
  | |- wp (call libfsapfs_btree_header_free) _ _ _ =>
      apply wp_call; unfold libfsapfs_btree_header_free
  | |- wp (call libfsapfs_btree_footer_free) _ _ _ =>
      apply wp_call; unfold libfsapfs_btree_footer_free
  | |- wp (check_layout _ _ _) _ _ _ =>
      unfold check_layout
  | |- wp (match ?d with Some _ => _ | None => _ end) _ _ _ =>
      destruct d
  end; cbv beta zeta; state_simpl.

Ltac wp_run := repeat first [wp_call_step | wp_step].

Ltac wp_loop :=
  lazymatch goal with
  | |- wp (read_entries _ _ _ _ _ _ _) _ _ _ =>
      eapply wp_conseq;
      [ apply read_entries_wp; Z.div_mod_to_equations; lia
      | let l := fresh "l" in
        let Hl := fresh "Hl" in
        intros ? ? ((l & -> & Hl) & ? & ?); state_simpl
      | let l := fresh "l" in
        let Hl := fresh "Hl" in
        intros ? ? ((l & -> & Hl) & ->); state_simpl; cbv iota ]
  end.

Ltac solve_released :=
  cbv iota;
  unfold on_error, libfsapfs_btree_footer_free, libfsapfs_btree_header_free;
  state_simpl; unfold released;
  first
    [ exists []; eexists; split; [rewrite app_nil_r; reflexivity|];
      try match goal with |- match ?d with _ => _ end => destruct d end;
      solve [reflexivity | apply Forall_nil]
    | rewrite <- ?app_assoc; cbn [app];
      do 2 eexists; split; [reflexivity|];
      repeat first
        [ apply Forall_nil
        | assumption
        | apply Forall_cons; [unfold in_bounds; cbn [fst snd]; lia|]
        | apply Forall_app; split ] ].

(** *** The body as a whole *)

Ltac unfold_body :=
  unfold read_data_body, out_of_bounds, unsupported_value,
    object_type, object_subtype, header_slice, footer_slice, header_end,
    sizeof_fsapfs_object_t, offsetof_object_type, offsetof_object_subtype,
    offsetof_object_checksum, offsetof_object_identifier,
    offsetof_object_version, sizeof_fsapfs_btree_variable_size_entry_t in *.

(** Whatever happens, the body and the [on_error] label leave a state that
    is [released]. *)
Lemma body_effect data s :
  wp (read_data_body data)
     (fun _ s' => released data s s')
     (fun e s' => match e with
                  | Return_error _ => released data s s'
                  | Goto_on_error _ => released data s (on_error s')
                  end)
     (enter s).
Proof.
  unfold_body.
  destruct (libcnotify_verbose s) eqn:Hverbose;
    wp_run; try wp_loop; wp_run; solve_released.
Qed.

(** A body that reaches its end has passed every check. *)
Lemma body_accepts data s :
  wp (read_data_body data) (fun v _ => accepted data s v) (fun _ _ => True)
     (enter s).
Proof.
  unfold accepted, layout_ok. unfold_body.
  destruct (libcnotify_verbose s) eqn:Hverbose;
    wp_run; try wp_loop; wp_run; try exact I;
    cbn [view_header view_footer view_entries];
    (eexists; split; [reflexivity|]); repeat split; auto; lia.
Qed.

(** A layout that is not [layout_ok] ends the call at the chain. *)
Lemma body_layout_violation s d h verbose :
  header_decoded s d h ->
  libcnotify_verbose s = verbose ->
  ~ layout_ok h (Z.of_nat (length d)) ->
  wp (read_data_body (Some d)) (fun _ _ => False)
     (fun e s' =>
        e = out_of_bounds
        /\ on_error s'
           = mkState (file_system_btree s) (heap s) (tl (malloc_oracle s))
                     (libcnotify_verbose s)
                     (accesses s
                      ++ header_stage_accesses verbose (Z.of_nat (length d)))
                     None None)
     (enter s).
Proof.
  unfold header_decoded, layout_ok, header_stage_accesses.
  intros (Hfsb & Hsize & Htype & Hsubtype & Hend & Halloc & Hheader & Hflags)
         Hverbose Hlayout.
  unfold_body.
  destruct verbose;
    wp_run; try wp_loop; wp_run;
    (split; [reflexivity|]);
    unfold on_error, libfsapfs_btree_footer_free, libfsapfs_btree_header_free;
    state_simpl; rewrite <- ?app_assoc; reflexivity.
Qed.

(** The three footer checks all end in VALUE_OUT_OF_BOUNDS. *)
Lemma body_footer_rejects s d h f :
  footer_decoded s d h f ->
  key_size f <> 0 \/ value_size f <> 0
  \/ entries_data_size h / 8 < number_of_entries f ->
  wp (read_data_body (Some d)) (fun _ _ => False)
     (fun e _ => e = out_of_bounds) (enter s).
Proof.
  unfold footer_decoded, header_decoded, layout_ok.
  intros ((Hfsb & Hsize & Htype & Hsubtype & Hend & Halloc & Hheader & Hflags)
          & Hlayout & Halloc' & Hfooter) Hreject.
  unfold_body.
  destruct (libcnotify_verbose s) eqn:Hverbose;
    wp_run; try wp_loop; wp_run; try reflexivity; try lia.
Qed.

(** UNSUPPORTED_VALUE has no other cause than [unsupported_cause], and each
    of its three cases leads to it. *)
Lemma body_unsupported_only data s :
  wp (read_data_body data) (fun _ _ => True)
     (fun e _ => abort_error e = RUNTIME_ERROR_UNSUPPORTED_VALUE
                 -> unsupported_cause data s)
     (enter s).
Proof.
  unfold unsupported_cause. unfold_body.
  destruct (libcnotify_verbose s) eqn:Hverbose;
    wp_run; try wp_loop; wp_run; try exact I;
    cbn [abort_error]; intros Herror; try discriminate Herror;
    (eexists; split; [reflexivity|]);
    (split; [assumption|]); (split; [lia|]);
    unfold header_allocated;
    repeat match goal with
    | Ho : malloc_oracle _ = _ |- _ => rewrite Ho; clear Ho
    end;
    first
      [ left; assumption
      | right; left; split; assumption
      | right; right; repeat split; try assumption; try lia;
        eexists; split; [eassumption|assumption] ].
Qed.

Lemma body_unsupported_if data s :
  unsupported_cause data s ->
  wp (read_data_body data) (fun _ _ => False)
     (fun e _ => e = unsupported_value) (enter s).
Proof.
  unfold unsupported_cause.
  intros (d & -> & Hfsb & Hsize & Hcause).
  unfold_body.
  destruct Hcause
    as [Htype
       |[(Htype & Hsubtype)
        |(Htype & Hsubtype & Hend & Halloc & h & Hheader & Hflags)]];
    destruct (libcnotify_verbose s) eqn:Hverbose;
    wp_run; try wp_loop; wp_run; try reflexivity; try lia; try congruence.
Qed.

(** The accounting chain on its own: it changes nothing, passes exactly
    the layouts that are [layout_ok], and fails with one error. *)
Lemma check_layout_run h data_size s :
  header_wf h ->
  header_end <= data_size <= SSIZE_MAX ->
  wp (check_layout h data_size header_end)
     (fun _ s' => layout_ok h data_size /\ s' = s)
     (fun e s' => ~ layout_ok h data_size /\ e = out_of_bounds /\ s' = s)
     s.
Proof.
  unfold header_wf, Int.uint16_range, layout_ok, header_end,
    sizeof_fsapfs_object_t, check_layout, out_of_bounds in *.
  intros Hwf Hsize.
  wp_run; repeat split; try reflexivity; try lia.
Qed.

(** *** Independence of the surrounding state *)

Lemma respects_ret {A : Type} (a : A) : respects (ret a).
Proof. intros s1 s2 H. split; [reflexivity|exact H]. Qed.

Lemma respects_throw {A : Type} e : respects (@throw A e).
Proof. intros s1 s2 H. split; [reflexivity|exact H]. Qed.

Lemma respects_bind {A B : Type} (m : M A) (k : A -> M B) :
  respects m -> (forall a, respects (k a)) -> respects (bind m k).
Proof.
  intros Hm Hk s1 s2 H. unfold bind.
  destruct (Hm s1 s2 H) as [Hfst Hsnd].
  destruct (m s1) as [[a1|e1] t1], (m s2) as [[a2|e2] t2];
    cbn [fst snd] in *; try discriminate.
  - injection Hfst as ->. apply Hk, Hsnd.
  - injection Hfst as ->. split; [reflexivity|exact Hsnd].
Qed.

Lemma respects_fail_if c e : respects (fail_if c e).
Proof.
  intros s1 s2 H. unfold fail_if. destruct c; split; auto.
Qed.

Lemma respects_access off len : respects (access off len).
Proof. intros s1 s2 H. split; [reflexivity|exact H]. Qed.

Lemma respects_debug_access off len : respects (debug_access off len).
Proof.
  intros s1 s2 H. unfold debug_access, access.
  destruct (libcnotify_verbose s1), (libcnotify_verbose s2);
    split; solve [reflexivity | exact H].
Qed.

Lemma respects_load data off len : respects (load data off len).
Proof.
  unfold load. apply respects_bind; [apply respects_access|].
  intros _. apply respects_ret.
Qed.

Lemma respects_load_uint data off len : respects (load_uint data off len).
Proof.
  unfold load_uint. apply respects_bind; [apply respects_load|].
  intros bytes. apply respects_ret.
Qed.

Lemma respects_is_null : respects file_system_btree_is_null.
Proof.
  intros s1 s2 H. split; [|exact H].
  destruct H as ((H1 & H2) & _). unfold file_system_btree_is_null.
  cbn [fst].
  destruct (file_system_btree s1), (file_system_btree s2);
    try reflexivity.
  - discriminate H2. reflexivity.
  - discriminate H1. reflexivity.
Qed.

Lemma respects_get_header : respects get_header.
Proof.
  intros s1 s2 H. split; [|exact H].
  destruct H as (_ & _ & H & _). unfold get_header, the_header.
  cbn [fst]. now rewrite H.
Qed.

Lemma respects_get_footer : respects get_footer.
Proof.
  intros s1 s2 H. split; [|exact H].
  destruct H as (_ & _ & _ & H). unfold get_footer, the_footer.
  cbn [fst]. now rewrite H.
Qed.

Ltac alike_call :=
  intros [f1 h1 o1 v1 a1 bh1 bf1] [f2 h2 o2 v2 a2 bh2 bf2]
         (Hnull & Horacle & Hheader & Hfooter);
  cbn [file_system_btree malloc_oracle btree_header btree_footer] in *;
  subst;
  unfold call, alike,
    libfsapfs_btree_header_initialize, libfsapfs_btree_footer_initialize,
    libfsapfs_btree_header_read_data, libfsapfs_btree_footer_read_data,
    libfsapfs_btree_header_free, libfsapfs_btree_footer_free,
    memory_allocate;
  cbv beta; state_simpl;
  repeat match goal with
  | |- context [match ?x with _ => _ end] =>
      first [is_var x | lazymatch x with header_of_bytes _ => idtac
                                       | footer_of_bytes _ => idtac end];
      destruct x; state_simpl
  end;
  auto.

Lemma respects_header_initialize :
  respects (call libfsapfs_btree_header_initialize).
Proof. alike_call. Qed.

Lemma respects_footer_initialize :
  respects (call libfsapfs_btree_footer_initialize).
Proof. alike_call. Qed.

Lemma respects_header_read_data bytes :
  respects (call (libfsapfs_btree_header_read_data bytes)).
Proof. alike_call. Qed.

Lemma respects_footer_read_data bytes :
  respects (call (libfsapfs_btree_footer_read_data bytes)).
Proof. alike_call. Qed.

Lemma respects_header_free : respects (call libfsapfs_btree_header_free).
Proof. alike_call. Qed.

Lemma respects_footer_free : respects (call libfsapfs_btree_footer_free).
Proof. alike_call. Qed.

Ltac respects_step :=
  first
    [ apply respects_bind; [|intro]
    | apply respects_ret
    | apply respects_throw
    | apply respects_fail_if
    | apply respects_debug_access
    | apply respects_load
    | apply respects_load_uint
    | apply respects_is_null
    | apply respects_get_header
    | apply respects_get_footer
    | apply respects_header_initialize
    | apply respects_footer_initialize
    | apply respects_header_read_data
    | apply respects_footer_read_data
    | apply respects_header_free
    | apply respects_footer_free ].

Lemma respects_read_entries data data_size entries_size entries_data_offset
    footer_offset count :
  forall off,
    respects (read_entries data data_size entries_size entries_data_offset
                           footer_offset count off).
Proof.
  induction count as [|count IH]; intros off; cbn [read_entries].
  - apply respects_ret.
  - repeat respects_step. apply IH.
Qed.

Lemma respects_check_layout h data_size off :
  respects (check_layout h data_size off).
Proof. unfold check_layout. repeat respects_step. Qed.

Lemma respects_body data : respects (read_data_body data).
Proof.
  unfold read_data_body.
  repeat respects_step.
  destruct data as [d|]; [|apply respects_throw].
  repeat first [ respects_step
               | apply respects_check_layout
               | apply respects_read_entries ].
Qed.

(** ** What the call leaves, decodes and returns *)

Lemma read_data_unfold data s :
  libfsapfs_file_system_btree_read_data data s
  = match read_data_body data (enter s) with
    | (inl _, s') => ((1, None), s')
    | (inr (Return_error e), s') => ((-1, Some e), s')
    | (inr (Goto_on_error e), s') => ((-1, Some e), on_error s')
    end.
Proof. reflexivity. Qed.

Lemma read_data_released data s :
  released data s (snd (libfsapfs_file_system_btree_read_data data s)).
Proof.
  pose proof (body_effect data s) as H. unfold wp in H.
  rewrite read_data_unfold.
  destruct (read_data_body data (enter s)) as [[v|[e|e]] s']; exact H.
Qed.

Lemma read_data_success data s :
  fst (libfsapfs_file_system_btree_read_data data s) = (1, None)
  <-> exists v, decoded data s = Some v.
Proof.
  rewrite read_data_unfold. unfold decoded.
  destruct (read_data_body data (enter s)) as [[v|[e|e]] s']; cbn [fst];
    split; intros H.
  - now exists v.
  - reflexivity.
  - discriminate H.
  - destruct H as [w Hw]. discriminate Hw.
  - discriminate H.
  - destruct H as [w Hw]. discriminate Hw.
Qed.

Lemma decoded_accepted data s v : decoded data s = Some v -> accepted data s v.
Proof.
  pose proof (body_accepts data s) as H. unfold wp in H. unfold decoded.
  destruct (read_data_body data (enter s)) as [[v'|e] s']; cbn [fst];
    intros Hv; [injection Hv as <-; exact H | discriminate Hv].
Qed.

(** C1, as amended.  Once the header is decoded, the accounting chain
    starts from remaining = data_size - (32 + header size) - footer size and
    takes off the entries offset, the entries size and the unused offset in
    this order; before each it compares the value with what remains, and it
    compares the unused size with what remains at the end.  The two
    offsets must be strictly less than the remaining space (an offset equal
    to it is rejected), the two sizes at most the remaining space: this is
    [layout_ok].  A layout that is [layout_ok] passes the chain, which
    changes nothing; any other layout fails it with VALUE_OUT_OF_BOUNDS, and
    the call then returns -1 having read only the object header members and
    the header slice, and having made only the header allocation: the footer
    is never created or decoded and no table-of-contents record is read. *)
Theorem accounting_chain_checked s d h :
  header_decoded s d h ->
  (layout_ok h (Z.of_nat (length d)) ->
   forall t, check_layout h (Z.of_nat (length d)) header_end t = (inl tt, t))
  /\ (~ layout_ok h (Z.of_nat (length d)) ->
      (forall t, check_layout h (Z.of_nat (length d)) header_end t
                 = (inr out_of_bounds, t))
      /\ libfsapfs_file_system_btree_read_data (Some d) s
         = ((-1, Some RUNTIME_ERROR_VALUE_OUT_OF_BOUNDS),
            mkState (file_system_btree s) (heap s) (tl (malloc_oracle s))
                    (libcnotify_verbose s)
                    (accesses s
                     ++ header_stage_accesses (libcnotify_verbose s)
                                              (Z.of_nat (length d)))
                    None None)).
Proof.
  intros Hdecoded.
  assert (Hrun : forall t,
             wp (check_layout h (Z.of_nat (length d)) header_end)
                (fun _ t' => layout_ok h (Z.of_nat (length d)) /\ t' = t)
                (fun e t' => ~ layout_ok h (Z.of_nat (length d))
                             /\ e = out_of_bounds /\ t' = t)
                t).
  { intros t. apply check_layout_run.
    - destruct Hdecoded as (_ & _ & _ & _ & _ & _ & Hheader & _).
      eapply header_of_bytes_wf, Hheader.
    - destruct Hdecoded as (_ & Hsize & _ & _ & Hend & _). lia. }
  split.
  - intros Hok t. specialize (Hrun t). unfold wp in Hrun.
    destruct (check_layout h (Z.of_nat (length d)) header_end t) as [[[]|e] t'].
    + destruct Hrun as [_ ->]. reflexivity.
    + destruct Hrun as [Hno _]. contradiction.
  - intros Hno. split.
    + intros t. specialize (Hrun t). unfold wp in Hrun.
      destruct (check_layout h (Z.of_nat (length d)) header_end t)
        as [[[]|e] t'].
      * destruct Hrun as [Hok _]. contradiction.
      * destruct Hrun as (_ & -> & ->). reflexivity.
    + pose proof (body_layout_violation s d h (libcnotify_verbose s)
                   Hdecoded eq_refl Hno) as H.
      unfold wp in H. rewrite read_data_unfold.
      destruct (read_data_body (Some d) (enter s)) as [[v|e] s'];
        [contradiction|].
      destruct H as [-> ->]. reflexivity.
Qed.

(** C4.  Whatever the buffer holds, every range of [data] that a call reads
    (the object header members, the header slice, the footer slice, every
    2-byte member of every table-of-contents record and, with debug output
    on, the whole buffer and every resolved key and value range) lies
    inside the buffer, and so does every key and value range the call has
    resolved when it returns 1.  Without a buffer nothing is read. *)
Theorem read_data_reads_in_bounds data s :
  exists l,
    accesses (snd (libfsapfs_file_system_btree_read_data data s))
    = accesses s ++ l
    /\ (forall off len, In (off, len) l ->
          exists d, data = Some d
                    /\ in_bounds (Z.of_nat (length d)) (off, len))
    /\ (forall v, decoded data s = Some v ->
          exists d, data = Some d
                    /\ Forall (entry_in_bounds (Z.of_nat (length d)))
                              (view_entries v)).
Proof.
  destruct (read_data_released data s) as (l & oracle & Hstate & Hl).
  exists l. split; [|split].
  - rewrite Hstate. reflexivity.
  - intros off len Hin. destruct data as [d|].
    + exists d. split; [reflexivity|].
      rewrite Forall_forall in Hl. apply (Hl _ Hin).
    + subst l. destruct Hin.
  - intros v Hv. apply decoded_accepted in Hv.
    destruct Hv as (d & -> & Hrest). exists d. split; [reflexivity|].
    decompose [and] Hrest. assumption.
Qed.

(** C5.  When the call returns 1, the regions its header declares fit the
    buffer: object header size + B-tree header size + entries offset +
    entries size + unused offset + unused size + footer size is at most
    data_size. *)
Theorem accepted_layout_accounting data s :
  fst (libfsapfs_file_system_btree_read_data data s) = (1, None) ->
  exists d h,
    data = Some d
    /\ header_of_bytes (header_slice d) = Some h
    /\ sizeof_fsapfs_object_t + sizeof_fsapfs_btree_header_t
       + entries_data_offset h + entries_data_size h
       + unused_data_offset h + unused_data_size h
       + sizeof_fsapfs_btree_footer_t
       <= Z.of_nat (length d).
Proof.
  intros Hok. apply read_data_success in Hok. destruct Hok as [v Hv].
  apply decoded_accepted in Hv.
  destruct Hv as (d & -> & _ & _ & _ & _ & Hheader & _ & Hlayout & _).
  exists d, (view_header v). split; [reflexivity|]. split; [exact Hheader|].
  unfold layout_ok, header_end in Hlayout. lia.
Qed.

(** C6.  A footer whose number of entries exceeds entries_data_size / 8 is
    rejected with VALUE_OUT_OF_BOUNDS.  So when the call returns 1, the
    number of entries times 8 is at most entries_data_size, and the loop has
    gone through exactly that many table-of-contents records: the resolved
    entries are, index for index, what a loop round makes of the records at
    header end + entries offset + 8 * i. *)
Theorem footer_entry_count :
  (forall s d h f,
      footer_decoded s d h f ->
      entries_data_size h / 8 < number_of_entries f ->
      fst (libfsapfs_file_system_btree_read_data (Some d) s)
      = (-1, Some RUNTIME_ERROR_VALUE_OUT_OF_BOUNDS))
  /\ (forall data s v,
        decoded data s = Some v ->
        number_of_entries (view_footer v) * 8
        <= entries_data_size (view_header v)
        /\ length (view_entries v)
           = Z.to_nat (number_of_entries (view_footer v))
        /\ exists d,
             data = Some d
             /\ view_entries v
                = map (resolved_at d (entries_data_size (view_header v))
                         (Int.to_uint16
                            (entries_data_offset (view_header v)
                             + Int.to_uint16 header_end))
                         (Int.to_uint16
                            (Z.of_nat (length d)
                             - sizeof_fsapfs_btree_footer_t)))
                      (record_offsets
                         (header_end + entries_data_offset (view_header v))
                         (Z.to_nat (number_of_entries (view_footer v))))).
Proof.
  split.
  - intros s d h f Hdecoded Hmany.
    assert (Hreject : key_size f <> 0 \/ value_size f <> 0
                      \/ entries_data_size h / 8 < number_of_entries f)
      by auto.
    pose proof (body_footer_rejects s d h f Hdecoded Hreject) as H.
    unfold wp in H.
    rewrite read_data_unfold.
    destruct (read_data_body (Some d) (enter s)) as [[v|e] s'];
      [contradiction|].
    subst e. reflexivity.
  - intros data s v Hv. apply decoded_accepted in Hv.
    destruct Hv as (d & -> & _ & _ & _ & _ & Hheader & _ & _ & Hfooter
                    & _ & _ & Hcount & Hentries & _).
    split; [|split].
    + pose proof (header_of_bytes_wf _ _ Hheader) as (_ & _ & Hsize & _).
      unfold Int.uint16_range in Hsize. Z.div_mod_to_equations. lia.
    + rewrite Hentries. unfold record_offsets.
      now rewrite !length_map, length_seq.
    + exists d. split; [reflexivity|exact Hentries].
Qed.

(** C7, as amended.  The call fails with UNSUPPORTED_VALUE
    (UnsupportedFormat) exactly when, the arguments being valid, the object
    type is not 0x00000002, or the type is right and the subtype is not
    0x0000000e, or both are right, the header is created and decoded and its
    flags are not 0x0003.  A footer key_size or value_size that is not zero
    is rejected too, but with VALUE_OUT_OF_BOUNDS (BoundsError). *)
Theorem unsupported_format_cases data s :
  ((exists e, fst (libfsapfs_file_system_btree_read_data data s) = (-1, Some e)
              /\ kind_of e = UnsupportedFormat)
   <-> unsupported_cause data s)
  /\ (forall d h f,
        data = Some d ->
        footer_decoded s d h f ->
        key_size f <> 0 \/ value_size f <> 0 ->
        exists e,
          fst (libfsapfs_file_system_btree_read_data data s) = (-1, Some e)
          /\ kind_of e = BoundsError).
Proof.
  split; [split|].
  - intros (e & Hfail & Hkind).
    assert (He : e = RUNTIME_ERROR_UNSUPPORTED_VALUE)
      by (destruct e; try discriminate Hkind; reflexivity).
    subst e.
    pose proof (body_unsupported_only data s) as H. unfold wp in H.
    rewrite read_data_unfold in Hfail.
    destruct (read_data_body data (enter s)) as [[v|[e|e]] s'];
      cbn [fst] in Hfail; try discriminate Hfail;
      injection Hfail as ->; apply H; reflexivity.
  - intros Hcause.
    pose proof (body_unsupported_if data s Hcause) as H. unfold wp in H.
    rewrite read_data_unfold.
    destruct (read_data_body data (enter s)) as [[v|e] s'];
      [contradiction|].
    subst e. exists RUNTIME_ERROR_UNSUPPORTED_VALUE. split; reflexivity.
  - intros d h f -> Hdecoded Hsize.
    assert (Hreject : key_size f <> 0 \/ value_size f <> 0
                      \/ entries_data_size h / 8 < number_of_entries f)
      by tauto.
    pose proof (body_footer_rejects s d h f Hdecoded Hreject) as H.
    unfold wp in H.
    rewrite read_data_unfold.
    destruct (read_data_body (Some d) (enter s)) as [[v|e] s'];
      [contradiction|].
    subst e. exists RUNTIME_ERROR_VALUE_OUT_OF_BOUNDS. split; reflexivity.
Qed.

(** C8.  When the call returns -1, whichever check failed, nothing of a
    node is left behind: no decoded view exists, the structure it was given
    is as before, both pointer locals are NULL again and the heap is the
    heap the call started with, so the header and the footer it may have
    allocated are freed. *)
Theorem read_data_failure_releases data s e :
  fst (libfsapfs_file_system_btree_read_data data s) = (-1, Some e) ->
  decoded data s = None
  /\ file_system_btree (snd (libfsapfs_file_system_btree_read_data data s))
     = file_system_btree s
  /\ heap (snd (libfsapfs_file_system_btree_read_data data s)) = heap s
  /\ btree_header (snd (libfsapfs_file_system_btree_read_data data s)) = None
  /\ btree_footer (snd (libfsapfs_file_system_btree_read_data data s)) = None.
Proof.
  intros Hfail.
  split.
  - destruct (decoded data s) as [v|] eqn:Hv; [|reflexivity].
    assert (Hok : fst (libfsapfs_file_system_btree_read_data data s)
                  = (1, None))
      by (apply read_data_success; eauto).
    rewrite Hok in Hfail. discriminate Hfail.
  - destruct (read_data_released data s) as (l & oracle & -> & _).
    cbn. auto.
Qed.

(** C9, as amended.  The outcome of a call is a function of the buffer,
    of whether the structure pointer is NULL and of what the allocator
    answers to the two requests of the call, and of nothing else: two calls
    on the same buffer, with the structure pointer NULL in both or in
    neither and the same allocator answers, return the same value with the
    same error and have decoded the same header, footer and key and value
    ranges, whatever the contents of the structure, the heap, the debug
    switch and the reads made before are.  The allocator answers do
    matter: a refused allocation makes the call fail on a buffer that it
    accepts otherwise. *)
Theorem read_data_deterministic data s1 s2 :
  (file_system_btree s1 = None <-> file_system_btree s2 = None) ->
  malloc_oracle s1 = malloc_oracle s2 ->
  fst (libfsapfs_file_system_btree_read_data data s1)
  = fst (libfsapfs_file_system_btree_read_data data s2)
  /\ decoded data s1 = decoded data s2.
Proof.
  intros Hnull Horacle.
  assert (Halike : alike (enter s1) (enter s2)).
  { unfold alike, enter. cbn. auto. }
  destruct (respects_body data _ _ Halike) as [Hfst _].
  unfold decoded. rewrite !read_data_unfold.
  destruct (read_data_body data (enter s1)) as [[v1|[e1|e1]] t1],
           (read_data_body data (enter s2)) as [[v2|[e2|e2]] t2];
    cbn [fst] in *; try discriminate Hfst; injection Hfst as ->; auto.
Qed.

(** C10.  The call never writes the structure it is given: after it, on
    success as on failure, the structure holds what it held before.  In
    particular a structure fresh from
    [libfsapfs_file_system_btree_initialize] is still all zero bytes after
    the call: no header, no footer and no entry is stored in it. *)
Theorem read_data_leaves_structure data s :
  file_system_btree (snd (libfsapfs_file_system_btree_read_data data s))
  = file_system_btree s
  /\ (forall size s0,
        fst (libfsapfs_file_system_btree_initialize size true s0) = (1, None) ->
        s = snd (libfsapfs_file_system_btree_initialize size true s0) ->
        file_system_btree (snd (libfsapfs_file_system_btree_read_data data s))
        = Some (repeat x00 size)).
Proof.
  assert (Hsame : file_system_btree
                    (snd (libfsapfs_file_system_btree_read_data data s))
                  = file_system_btree s).
  { destruct (read_data_released data s) as (l & oracle & -> & _).
    reflexivity. }
  split; [exact Hsame|].
  intros size s0 Hinit ->. rewrite Hsame.
  unfold libfsapfs_file_system_btree_initialize, memory_allocate in *.
  cbn [negb] in *.
  destruct (file_system_btree s0); [discriminate Hinit|].
  destruct (malloc_oracle s0) as [|[|] rest]; cbn in *;
    solve [reflexivity | discriminate Hinit].
Qed.

(** ** Which buffers the reader accepts, and what an accepting call reads *)

(** The entries a call resolves from [d] when the header is [h] and the
    footer is [f]: one per record, with the [uint16_t] locals of lines
    611-612. *)
Definition resolved_entries (d : list byte) (h : libfsapfs_btree_header_t)
    (f : libfsapfs_btree_footer_t) : list resolved_entry :=
  map (resolved_at d (entries_data_size h)
         (Int.to_uint16 (entries_data_offset h + Int.to_uint16 header_end))
         (Int.to_uint16 (Z.of_nat (length d) - sizeof_fsapfs_btree_footer_t)))
      (record_offsets (header_end + entries_data_offset h)
                      (Z.to_nat (number_of_entries f))).

(** Every check of the call passes: the footer is reached, it has variable
    size keys and values and no more entries than the entries region has
    room for, and every resolved key and value range stays in the buffer. *)
Definition acceptable (s : state) (d : list byte)
    (h : libfsapfs_btree_header_t) (f : libfsapfs_btree_footer_t) : Prop :=
  footer_decoded s d h f
  /\ key_size f = 0
  /\ value_size f = 0
  /\ number_of_entries f <= entries_data_size h / 8
  /\ Forall (entry_in_bounds (Z.of_nat (length d))) (resolved_entries d h f).

(** The reads of one round of the loop that passes both checks: the four
    members of the record at [off], and with debug output the key and the
    value range. *)
Definition record_accesses (verbose : bool) (data : list byte)
    (entries_size entries_data_offset footer_offset off : Z) : list (Z * Z) :=
  let e := resolved_at data entries_size entries_data_offset footer_offset
                       off in
  [(off, 2); (off + 2, 2); (off + 4, 2); (off + 6, 2)]
  ++ (if verbose
      then [(key_data_offset e, key_data_size e);
            (value_data_offset e, value_data_size e)]
      else []).

(** The reads of a call that returns 1, in order. *)
Definition success_accesses (verbose : bool) (d : list byte)
    (h : libfsapfs_btree_header_t) (f : libfsapfs_btree_footer_t)
  : list (Z * Z) :=
  header_stage_accesses verbose (Z.of_nat (length d))
  ++ [(Z.of_nat (length d) - sizeof_fsapfs_btree_footer_t,
       sizeof_fsapfs_btree_footer_t)]
  ++ flat_map
       (record_accesses verbose d (entries_data_size h)
          (Int.to_uint16 (entries_data_offset h + Int.to_uint16 header_end))
          (Int.to_uint16
             (Z.of_nat (length d) - sizeof_fsapfs_btree_footer_t)))
       (record_offsets (header_end + entries_data_offset h)
                       (Z.to_nat (number_of_entries f))).

Lemma record_offsets_S off count :
  record_offsets off (S count) = off :: record_offsets (off + 8) count.
Proof.
  unfold record_offsets. cbn [seq map]. f_equal; [lia|].
  rewrite map_seq_shift. apply map_ext. intros i. lia.
Qed.

(** The loop over records that all resolve inside the buffer: it does not
    fail, and it reads what [record_accesses] lists. *)
Lemma read_entries_run data entries_size entries_data_offset footer_offset
    count :
  forall off s,
    Z.of_nat (length data) <= SSIZE_MAX ->
    0 <= off ->
    off + 8 * Z.of_nat count <= Z.of_nat (length data) ->
    Forall (entry_in_bounds (Z.of_nat (length data)))
           (map (resolved_at data entries_size entries_data_offset
                             footer_offset)
                (record_offsets off count)) ->
    wp (read_entries data (Z.of_nat (length data)) entries_size
                     entries_data_offset footer_offset count off)
       (fun r s' =>
          r = map (resolved_at data entries_size entries_data_offset
                               footer_offset)
                  (record_offsets off count)
          /\ s' = set_accesses
                    (accesses s
                     ++ flat_map
                          (record_accesses (libcnotify_verbose s) data
                             entries_size entries_data_offset footer_offset)
                          (record_offsets off count))
                    s)
       (fun _ _ => False)
       s.
Proof.
  induction count as [|count IH]; intros off s Hsize Hoff Hcount Hall.
  - apply wp_ret. split; [reflexivity|].
    cbn [record_offsets seq map flat_map]. now rewrite set_accesses_nil.
  - cbn [read_entries].
    unfold sizeof_fsapfs_btree_variable_size_entry_t.
    rewrite (size_t_small (off + 8)) by lia.
    rewrite record_offsets_S in *. cbn [map flat_map] in *.
    apply Forall_cons_iff in Hall. destruct Hall as [Hhead Htail].
    unfold entry_in_bounds, in_bounds, resolved_at in Hhead.
    cbn [fst snd key_data_offset key_data_size value_data_offset
         value_data_size] in Hhead.
    destruct Hhead as ((Hk1 & Hk2 & Hk3) & (Hv1 & Hv2 & Hv3)).
    destruct (libcnotify_verbose s) eqn:Hverbose;
      repeat wp_step;
      (eapply wp_conseq;
       [ apply (IH (off + 8)); solve [assumption | lia]
       | intros r s' (-> & ->); apply wp_ret; split; [reflexivity|];
         state_simpl; rewrite ?Hverbose, <- ?app_assoc; reflexivity
       | intros e s' [] ]).
Qed.

Ltac wp_loop_run :=
  lazymatch goal with
  | |- wp (read_entries _ _ _ _ _ _ _) _ _ _ =>
      eapply wp_conseq;
      [ apply read_entries_run;
        first [assumption | Z.div_mod_to_equations; lia]
      | intros ? ? (-> & ->); state_simpl
      | intros ? ? [] ]
  end.

(** An acceptable buffer goes through the whole body: the view is the
    header, the footer and the resolved entries, two allocations were asked
    for and both objects are freed again, and the reads are those of
    [success_accesses]. *)
Lemma body_complete s d h f :
  acceptable s d h f ->
  wp (read_data_body (Some d))
     (fun v s' =>
        v = {| view_header := h; view_footer := f;
               view_entries := resolved_entries d h f |}
        /\ s' = mkState (file_system_btree s) (heap s)
                        (skipn 2 (malloc_oracle s)) (libcnotify_verbose s)
                        (accesses s
                         ++ success_accesses (libcnotify_verbose s) d h f)
                        None None)
     (fun _ _ => False)
     (enter s).
Proof.
  unfold acceptable, footer_decoded, header_decoded, layout_ok,
    resolved_entries, success_accesses, header_stage_accesses.
  intros (((Hfsb & Hsize & Htype & Hsubtype & Hend & Halloc & Hheader & Hflags)
           & Hlayout & Halloc' & Hfooter)
          & Hkey & Hvalue & Hcount & Hentries).
  unfold_body.
  destruct (libcnotify_verbose s) eqn:Hverbose;
    wp_run; try wp_loop_run; wp_run;
    (split; [reflexivity|]);
    rewrite ?Hverbose, <- ?app_assoc; reflexivity.
Qed.

(** A body that reaches its end was granted both allocations. *)
Lemma body_allocations data s :
  wp (read_data_body data)
     (fun _ _ => header_allocated s /\ footer_allocated s)
     (fun _ _ => True)
     (enter s).
Proof.
  unfold_body.
  destruct (libcnotify_verbose s) eqn:Hverbose;
    wp_run; try wp_loop; wp_run; try exact I;
    unfold header_allocated, footer_allocated;
    repeat match goal with
    | Ho : malloc_oracle _ = _ |- _ => rewrite Ho; clear Ho
    end;
    split; exact I.
Qed.

(** What each error of the body tells about the call. *)
Definition failure_cause (data : option (list byte)) (s : state)
    (e : libcerror_error_t) : Prop :=
  match e with
  | ARGUMENT_ERROR_INVALID_VALUE => file_system_btree s = None
  | RUNTIME_ERROR_VALUE_MISSING => file_system_btree s <> None /\ data = None
  | RUNTIME_ERROR_VALUE_OUT_OF_BOUNDS
  | RUNTIME_ERROR_UNSUPPORTED_VALUE =>
      file_system_btree s <> None /\ data <> None
  | RUNTIME_ERROR_INITIALIZE_FAILED =>
      ~ (header_allocated s /\ footer_allocated s)
  | IO_ERROR_READ_FAILED =>
      exists d, data = Some d
                /\ (header_of_bytes (header_slice d) = None
                    \/ footer_of_bytes (footer_slice d) = None)
  | RUNTIME_ERROR_VALUE_ALREADY_SET
  | RUNTIME_ERROR_FINALIZE_FAILED
  | MEMORY_ERROR_INSUFFICIENT => False
  end.

Lemma body_failure_cause data s :
  wp (read_data_body data) (fun _ _ => True)
     (fun e _ => failure_cause data s (abort_error e))
     (enter s).
Proof.
  unfold_body.
  destruct (libcnotify_verbose s) eqn:Hverbose;
    wp_run; try wp_loop; wp_run; try exact I;
    unfold out_of_bounds; cbn [abort_error failure_cause];
    unfold header_allocated, footer_allocated, header_slice, footer_slice,
      sizeof_fsapfs_object_t;
    repeat match goal with
    | Ho : malloc_oracle _ = _ |- _ => rewrite Ho; clear Ho
    end;
    first
      [ assumption
      | tauto
      | split; [assumption|]; solve [discriminate | reflexivity]
      | eexists; split; [reflexivity|];
        first [left; assumption | right; assumption] ].
Qed.

(** Past the footer checks the only error left is the one of the loop. *)
Lemma body_entries_stage s d h f :
  footer_decoded s d h f ->
  key_size f = 0 ->
  value_size f = 0 ->
  number_of_entries f <= entries_data_size h / 8 ->
  wp (read_data_body (Some d)) (fun _ _ => True)
     (fun e _ => e = out_of_bounds) (enter s).
Proof.
  unfold footer_decoded, header_decoded, layout_ok.
  intros ((Hfsb & Hsize & Htype & Hsubtype & Hend & Halloc & Hheader & Hflags)
          & Hlayout & Halloc' & Hfooter) Hkey Hvalue Hcount.
  unfold_body.
  destruct (libcnotify_verbose s) eqn:Hverbose;
    wp_run; try wp_loop; wp_run; solve [exact I | reflexivity].
Qed.

Lemma decoded_allocations data s v :
  decoded data s = Some v -> header_allocated s /\ footer_allocated s.
Proof.
  pose proof (body_allocations data s) as H. unfold wp in H. unfold decoded.
  destruct (read_data_body data (enter s)) as [[v'|e] s']; cbn [fst];
    intros Hv; [exact H | discriminate Hv].
Qed.

Lemma accepted_acceptable data s v :
  decoded data s = Some v ->
  exists d,
    data = Some d
    /\ acceptable s d (view_header v) (view_footer v)
    /\ view_entries v = resolved_entries d (view_header v) (view_footer v).
Proof.
  intros Hv.
  destruct (decoded_allocations _ _ _ Hv) as [Halloc Halloc'].
  apply decoded_accepted in Hv.
  destruct Hv as (d & -> & Hfsb & Hsize & Htype & Hsubtype & Hheader & Hflags
                  & Hlayout & Hfooter & Hkey & Hvalue & Hcount & Hentries
                  & Hbounds).
  exists d. split; [reflexivity|]. split; [|exact Hentries].
  unfold acceptable, footer_decoded, header_decoded, resolved_entries.
  rewrite <- Hentries.
  pose proof Hlayout as Hfits. unfold layout_ok in Hfits.
  repeat split; try assumption; lia.
Qed.

Lemma acceptable_decoded s d h f :
  acceptable s d h f ->
  libfsapfs_file_system_btree_read_data (Some d) s
  = ((1, None),
     mkState (file_system_btree s) (heap s) (skipn 2 (malloc_oracle s))
             (libcnotify_verbose s)
             (accesses s ++ success_accesses (libcnotify_verbose s) d h f)
             None None)
  /\ decoded (Some d) s
     = Some {| view_header := h; view_footer := f;
               view_entries := resolved_entries d h f |}.
Proof.
  intros Hok. pose proof (body_complete s d h f Hok) as H.
  unfold wp in H. rewrite read_data_unfold. unfold decoded.
  destruct (read_data_body (Some d) (enter s)) as [[v|e] s'];
    [|contradiction].
  destruct H as [-> ->]. split; reflexivity.
Qed.

(** X1.  The argument checks of lines 296-329 come first and in this
    order: without a structure the call fails with INVALID_VALUE whatever
    the buffer is; with a structure and without a buffer it fails with
    VALUE_MISSING; and a buffer shorter than the 32 bytes of an object
    header (the empty buffer included) or longer than SSIZE_MAX fails with
    VALUE_OUT_OF_BOUNDS.  In all three cases nothing has been read and no
    allocation has been asked for: the state is the one of the entry. *)
Theorem read_data_argument_errors data s :
  (file_system_btree s = None ->
   libfsapfs_file_system_btree_read_data data s
   = ((-1, Some ARGUMENT_ERROR_INVALID_VALUE), enter s))
  /\ (file_system_btree s <> None ->
      data = None ->
      libfsapfs_file_system_btree_read_data data s
      = ((-1, Some RUNTIME_ERROR_VALUE_MISSING), enter s))
  /\ (forall d,
        file_system_btree s <> None ->
        data = Some d ->
        Z.of_nat (length d) < sizeof_fsapfs_object_t
        \/ SSIZE_MAX < Z.of_nat (length d) ->
        libfsapfs_file_system_btree_read_data data s
        = ((-1, Some RUNTIME_ERROR_VALUE_OUT_OF_BOUNDS), enter s)).
Proof.
  assert (Hnull : file_system_btree (enter s) = file_system_btree s)
    by reflexivity.
  unfold libfsapfs_file_system_btree_read_data, read_data_body, bind,
    file_system_btree_is_null, fail_if, throw.
  rewrite Hnull.
  split; [|split].
  - intros ->. reflexivity.
  - intros Hset ->. destruct (file_system_btree s); [reflexivity|].
    now contradiction Hset.
  - intros d Hset -> Hsize.
    destruct (file_system_btree s); [|now contradiction Hset].
    assert (Hcheck : (Z.of_nat (length d) <? sizeof_fsapfs_object_t)
                     || (SSIZE_MAX <? Z.of_nat (length d)) = true).
    { apply orb_true_iff.
      destruct Hsize; [left|right]; now apply Z.ltb_lt. }
    rewrite Hcheck. reflexivity.
Qed.

(** X2.  The call returns 1 exactly for the buffers that are [acceptable]:
    the structure and the buffer are given, the size is between 32 and
    SSIZE_MAX, the object type is 2 and the subtype 14, both allocations are
    granted, the header decodes with flags 3 and a layout that passes the
    accounting chain, the footer decodes with key_size 0, value_size 0 and
    at most entries_data_size / 8 entries, and the key and value range of
    every record, as resolved in 16 bits, stays inside the buffer. *)
Theorem read_data_accepts_iff data s :
  fst (libfsapfs_file_system_btree_read_data data s) = (1, None)
  <-> exists d h f, data = Some d /\ acceptable s d h f.
Proof.
  split.
  - intros Hok. apply read_data_success in Hok. destruct Hok as [v Hv].
    destruct (accepted_acceptable _ _ _ Hv) as (d & -> & Hok & _).
    exists d, (view_header v), (view_footer v). split; [reflexivity|exact Hok].
  - intros (d & h & f & -> & Hok).
    destruct (acceptable_decoded _ _ _ _ Hok) as [-> _]. reflexivity.
Qed.

(** X3.  What a call that returns 1 has done.  It has asked for two
    allocations and freed both objects: the heap and the structure are as
    before and both pointer locals are NULL.  It has decoded the header,
    the footer and one entry per record.  And its reads are those of
    [success_accesses]: with debug output off they are, in this order and
    with nothing else, the object type, the object subtype, the header
    slice, the footer slice and the four 2-byte members of each record. *)
Theorem read_data_success_state s d h f :
  acceptable s d h f ->
  libfsapfs_file_system_btree_read_data (Some d) s
  = ((1, None),
     mkState (file_system_btree s) (heap s) (skipn 2 (malloc_oracle s))
             (libcnotify_verbose s)
             (accesses s ++ success_accesses (libcnotify_verbose s) d h f)
             None None)
  /\ decoded (Some d) s
     = Some {| view_header := h; view_footer := f;
               view_entries := resolved_entries d h f |}
  /\ (libcnotify_verbose s = false ->
      success_accesses (libcnotify_verbose s) d h f
      = [(offsetof_object_type, 4); (offsetof_object_subtype, 4);
         (sizeof_fsapfs_object_t, sizeof_fsapfs_btree_header_t);
         (Z.of_nat (length d) - sizeof_fsapfs_btree_footer_t,
          sizeof_fsapfs_btree_footer_t)]
        ++ flat_map (fun off => [(off, 2); (off + 2, 2); (off + 4, 2);
                                 (off + 6, 2)])
                    (record_offsets (header_end + entries_data_offset h)
                                    (Z.to_nat (number_of_entries f)))).
Proof.
  intros Hok. destruct (acceptable_decoded _ _ _ _ Hok) as [Hrun Hview].
  split; [exact Hrun|]. split; [exact Hview|].
  intros ->. reflexivity.
Qed.

Lemma Forall2_map_right {A B : Type} (P : A -> B -> Prop) (g : A -> B) l :
  (forall a, In a l -> P a (g a)) -> Forall2 P l (map g l).
Proof.
  induction l as [|a l IH]; intros H; cbn [map]; constructor.
  - apply H. now left.
  - apply IH. intros b Hb. apply H. now right.
Qed.

(** X4.  When the call returns 1, the records the loop has read lie in the
    entries region that the header declares: each of them starts at or
    after header end + entries offset and ends at or before the end of the
    region, the region ends at or before the footer, and there are at most
    8191 records. *)
Theorem records_inside_entries_region data s v :
  decoded data s = Some v ->
  exists d,
    data = Some d
    /\ number_of_entries (view_footer v) <= 8191
    /\ header_end + entries_data_offset (view_header v)
       + entries_data_size (view_header v)
       <= Z.of_nat (length d) - sizeof_fsapfs_btree_footer_t
    /\ Forall (fun off =>
                 header_end + entries_data_offset (view_header v) <= off
                 /\ off + sizeof_fsapfs_btree_variable_size_entry_t
                    <= header_end + entries_data_offset (view_header v)
                       + entries_data_size (view_header v))
              (record_offsets
                 (header_end + entries_data_offset (view_header v))
                 (Z.to_nat (number_of_entries (view_footer v)))).
Proof.
  intros Hv. apply decoded_accepted in Hv.
  destruct Hv as (d & -> & _ & _ & _ & _ & Hheader & _ & Hlayout & Hfooter
                  & _ & _ & Hcount & _).
  pose proof (header_of_bytes_wf _ _ Hheader) as (_ & _ & Hsize & _).
  pose proof (footer_of_bytes_wf _ _ Hfooter) as (_ & _ & Hentries).
  unfold Int.uint16_range in Hsize. unfold Int.uint64_range in Hentries.
  unfold layout_ok in Hlayout.
  unfold sizeof_fsapfs_btree_variable_size_entry_t.
  exists d. split; [reflexivity|]. split; [|split].
  - Z.div_mod_to_equations. lia.
  - lia.
  - apply Forall_forall. intros off Hoff. unfold record_offsets in Hoff.
    apply in_map_iff in Hoff. destruct Hoff as (i & <- & Hi).
    apply in_seq in Hi. Z.div_mod_to_equations. lia.
Qed.

(** X5.  Once the footer has passed its checks, the loop decides: the call
    returns 1 when the key range and the value range of every record, with
    the offsets as the 16-bit locals hold them, stay inside the buffer, and
    it fails with VALUE_OUT_OF_BOUNDS when one of them does not. *)
Theorem entry_out_of_bounds_rejected s d h f :
  footer_decoded s d h f ->
  key_size f = 0 ->
  value_size f = 0 ->
  number_of_entries f <= entries_data_size h / 8 ->
  (Forall (entry_in_bounds (Z.of_nat (length d))) (resolved_entries d h f) ->
   fst (libfsapfs_file_system_btree_read_data (Some d) s) = (1, None))
  /\ (~ Forall (entry_in_bounds (Z.of_nat (length d)))
               (resolved_entries d h f) ->
      fst (libfsapfs_file_system_btree_read_data (Some d) s)
      = (-1, Some RUNTIME_ERROR_VALUE_OUT_OF_BOUNDS)).
Proof.
  intros Hdecoded Hkey Hvalue Hcount. split.
  - intros Hall.
    assert (Hok : acceptable s d h f) by (unfold acceptable; auto).
    destruct (acceptable_decoded _ _ _ _ Hok) as [-> _]. reflexivity.
  - intros Hnot.
    destruct (decoded (Some d) s) as [v|] eqn:Hv.
    + exfalso. apply Hnot.
      destruct (accepted_acceptable _ _ _ Hv)
        as (d' & Hd & (Hfooter & _ & _ & _ & Hall) & _).
      injection Hd as <-.
      destruct Hdecoded as ((_ & _ & _ & _ & _ & _ & Hh & _) & _ & _ & Hf).
      destruct Hfooter as ((_ & _ & _ & _ & _ & _ & Hh' & _) & _ & _ & Hf').
      rewrite Hh in Hh'. injection Hh' as ->.
      rewrite Hf in Hf'. injection Hf' as ->.
      exact Hall.
    + pose proof (body_entries_stage s d h f Hdecoded Hkey Hvalue Hcount)
        as H.
      unfold wp in H. unfold decoded in Hv. rewrite read_data_unfold.
      destruct (read_data_body (Some d) (enter s)) as [[v|e] s'];
        cbn [fst] in Hv; [discriminate Hv|].
      subst e. reflexivity.
Qed.

(** X6.  When the call returns 1, an entry whose exact key offset (object
    header size + header size + entries offset + entries size + the
    record's key offset) is below 65536 has exactly this key offset; and
    when the footer starts below 65536, an entry whose record's value offset
    does not exceed the footer offset has exactly the value offset footer
    offset - the record's value offset.  So the resolved offsets are the
    exact ones wherever the 16-bit locals do not wrap. *)
Theorem resolved_offsets_without_wrap data s v :
  decoded data s = Some v ->
  exists d,
    data = Some d
    /\ Forall2
         (fun off e =>
            let key := ByteStream.little_endian (ByteStream.slice d off 2) in
            let value :=
              ByteStream.little_endian (ByteStream.slice d (off + 4) 2) in
            (absolute_key_offset_spec sizeof_fsapfs_object_t
               sizeof_fsapfs_btree_header_t (view_header v) key < 65536 ->
             key_data_offset e
             = absolute_key_offset_spec sizeof_fsapfs_object_t
                 sizeof_fsapfs_btree_header_t (view_header v) key)
            /\ (Z.of_nat (length d) - sizeof_fsapfs_btree_footer_t < 65536 ->
                value <= Z.of_nat (length d) - sizeof_fsapfs_btree_footer_t ->
                value_data_offset e
                = absolute_value_offset_spec (Z.of_nat (length d))
                    sizeof_fsapfs_btree_footer_t value))
         (record_offsets (header_end + entries_data_offset (view_header v))
                         (Z.to_nat (number_of_entries (view_footer v))))
         (view_entries v).
Proof.
  intros Hv. apply decoded_accepted in Hv.
  destruct Hv as (d & -> & _ & _ & _ & _ & Hheader & _ & Hlayout & _
                  & _ & _ & _ & Hentries & _).
  pose proof (header_of_bytes_wf _ _ Hheader) as (_ & Hoffset & Hsize & _).
  unfold Int.uint16_range in Hoffset, Hsize.
  unfold layout_ok, header_end in Hlayout.
  exists d. split; [reflexivity|]. rewrite Hentries.
  apply Forall2_map_right. intros off _. cbv zeta.
  unfold resolved_at, absolute_key_offset_spec, absolute_value_offset_spec,
    header_end.
  cbn [key_data_offset value_data_offset].
  pose proof (little_endian_slice_range d off 2 ltac:(lia)) as Hkey.
  pose proof (little_endian_slice_range d (off + 4) 2 ltac:(lia)) as Hvalue.
  unfold sizeof_fsapfs_object_t in *.
  split.
  - intros Hsmall.
    rewrite (Int.to_uint16_small (32 + sizeof_fsapfs_btree_header_t))
      by (unfold Int.uint16_range; lia).
    rewrite (Int.to_uint16_small (entries_data_offset (view_header v) + _))
      by (unfold Int.uint16_range; lia).
    rewrite Int.to_uint16_small by (unfold Int.uint16_range; lia).
    lia.
  - intros Hsmall Hbefore.
    rewrite (Int.to_uint16_small (Z.of_nat (length d) - _))
      by (unfold Int.uint16_range; lia).
    rewrite Int.to_uint16_small by (unfold Int.uint16_range; lia).
    reflexivity.
Qed.

(** X7.  What a failure tells.  The call sets INVALID_VALUE only without a
    structure and VALUE_MISSING only without a buffer; INITIALIZE_FAILED
    only when an allocation was refused; READ_FAILED only when the header or
    the footer decoder has failed on its slice; every other failure is
    VALUE_OUT_OF_BOUNDS or UNSUPPORTED_VALUE, on a call that was given both
    arguments.  No other code is set. *)
Theorem read_data_failure_causes data s e :
  fst (libfsapfs_file_system_btree_read_data data s) = (-1, Some e) ->
  failure_cause data s e.
Proof.
  intros Hfail. pose proof (body_failure_cause data s) as H.
  unfold wp in H. rewrite read_data_unfold in Hfail.
  destruct (read_data_body data (enter s)) as [[v|[e'|e']] s'];
    cbn [fst] in Hfail; try discriminate Hfail;
    injection Hfail as <-; exact H.
Qed.

(** A wrong object type or subtype ends the call before anything is
    allocated. *)
Lemma body_rejects_early s d verbose :
  file_system_btree s <> None ->
  sizeof_fsapfs_object_t <= Z.of_nat (length d) <= SSIZE_MAX ->
  libcnotify_verbose s = verbose ->
  object_type d <> 2 \/ object_subtype d <> 14 ->
  wp (read_data_body (Some d)) (fun _ _ => False)
     (fun e s' =>
        e = unsupported_value
        /\ on_error s'
           = mkState (file_system_btree s) (heap s) (malloc_oracle s)
                     (libcnotify_verbose s)
                     (accesses s
                      ++ (if verbose
                          then [(0, Z.of_nat (length d));
                                (0, sizeof_fsapfs_object_t)]
                          else [])
                      ++ (offsetof_object_type, 4)
                         :: (if object_type d =? 2
                             then [(offsetof_object_subtype, 4)]
                             else []))
                     None None)
     (enter s).
Proof.
  intros Hset Hsize Hverbose Hwrong.
  unfold_body.
  destruct verbose;
    wp_run;
    try (exfalso; destruct Hwrong as [Hwrong|Hwrong]; congruence);
    (split; [reflexivity|]);
    repeat match goal with
    | H : ?x = 2 |- context [?x =? 2] => rewrite H
    | H : ?x <> 2 |- context [?x =? 2] =>
        rewrite (proj2 (Z.eqb_neq x 2) H)
    end;
    unfold on_error; state_simpl; rewrite <- ?app_assoc; reflexivity.
Qed.

(** X8.  A wrong object type or subtype is found out early.  With valid
    arguments, an object type other than 2 ends the call with
    UNSUPPORTED_VALUE after the 4 bytes of the type have been read, and a
    subtype other than 14 after the 4 bytes of the subtype as well; with
    debug output on, the dump of the whole buffer and the dump of the
    object header come before these reads.  Nothing has been allocated.
    With debug output off, no byte beyond the object header has been
    read. *)
Theorem read_data_rejects_early s d :
  file_system_btree s <> None ->
  sizeof_fsapfs_object_t <= Z.of_nat (length d) <= SSIZE_MAX ->
  object_type d <> 2 \/ object_subtype d <> 14 ->
  libfsapfs_file_system_btree_read_data (Some d) s
  = ((-1, Some RUNTIME_ERROR_UNSUPPORTED_VALUE),
     mkState (file_system_btree s) (heap s) (malloc_oracle s)
             (libcnotify_verbose s)
             (accesses s
              ++ (if libcnotify_verbose s
                  then [(0, Z.of_nat (length d)); (0, sizeof_fsapfs_object_t)]
                  else [])
              ++ (offsetof_object_type, 4)
                 :: (if object_type d =? 2
                     then [(offsetof_object_subtype, 4)]
                     else []))
             None None)
  /\ (libcnotify_verbose s = false ->
      exists l,
        accesses (snd (libfsapfs_file_system_btree_read_data (Some d) s))
        = accesses s ++ l
        /\ Forall (in_bounds sizeof_fsapfs_object_t) l).
Proof.
  intros Hset Hsize Hwrong.
  pose proof (body_rejects_early s d (libcnotify_verbose s) Hset Hsize
                eq_refl Hwrong) as H.
  unfold wp in H. rewrite read_data_unfold.
  destruct (read_data_body (Some d) (enter s)) as [[v|e] s'];
    [contradiction|].
  destruct H as [-> ->]. split; [reflexivity|].
  intros Hquiet. cbn [snd accesses]. rewrite Hquiet. cbn [app].
  eexists. split; [reflexivity|].
  unfold in_bounds, sizeof_fsapfs_object_t, offsetof_object_type,
    offsetof_object_subtype.
  destruct (object_type d =? 2); repeat constructor; cbn [fst snd]; lia.
Qed.

(** X9.  A structure that is created, handed to the reader and freed
    leaves the heap as it was, whatever the buffer holds and whether or not
    the allocations succeed: the free after the call returns 1, the
    caller's pointer is NULL again, and the heap is the heap from before
    [libfsapfs_file_system_btree_initialize]. *)
Theorem lifecycle_restores_heap size data s :
  file_system_btree s = None ->
  let s1 := snd (libfsapfs_file_system_btree_initialize size true s) in
  let s2 := snd (libfsapfs_file_system_btree_read_data data s1) in
  fst (libfsapfs_file_system_btree_free true s2) = (1, None)
  /\ file_system_btree (snd (libfsapfs_file_system_btree_free true s2)) = None
  /\ heap (snd (libfsapfs_file_system_btree_free true s2)) = heap s.
Proof.
  intros Hnull s1 s2.
  destruct (read_data_released data s1) as (l & oracle & Hs2 & _).
  fold s2 in Hs2. rewrite Hs2. clear Hs2 s2. subst s1.
  unfold libfsapfs_file_system_btree_free,
    libfsapfs_file_system_btree_initialize, memory_allocate.
  rewrite Hnull. cbn [negb].
  destruct (malloc_oracle s) as [|[|] rest]; state_simpl;
    rewrite ?Hnull; repeat split; reflexivity.
Qed.

(** The reader returns 1 without an error or -1 with one. *)
Lemma read_data_result data s :
  fst (libfsapfs_file_system_btree_read_data data s) = (1, None)
  \/ exists e,
       fst (libfsapfs_file_system_btree_read_data data s) = (-1, Some e).
Proof.
  rewrite read_data_unfold.
  destruct (read_data_body data (enter s)) as [[v|[e|e]] s']; cbn [fst];
    eauto.
Qed.

(** Two buffers of the same length that agree on all that the reader
    decodes: the object type and subtype, the header slice, the footer slice
    and the entries region that the header declares. *)
Definition same_metadata (d1 d2 : list byte) : Prop :=
  length d1 = length d2
  /\ object_type d1 = object_type d2
  /\ object_subtype d1 = object_subtype d2
  /\ header_slice d1 = header_slice d2
  /\ footer_slice d1 = footer_slice d2
  /\ forall h off,
       header_of_bytes (header_slice d1) = Some h ->
       header_end + entries_data_offset h <= off ->
       off + 2 <= header_end + entries_data_offset h + entries_data_size h ->
       ByteStream.slice d1 off 2 = ByteStream.slice d2 off 2.

Lemma same_metadata_sym d1 d2 : same_metadata d1 d2 -> same_metadata d2 d1.
Proof.
  intros (Hlength & Htype & Hsubtype & Hheader & Hfooter & Hentries).
  repeat split; try solve [symmetry; assumption].
  intros h off Hh Hlow Hhigh. symmetry. apply (Hentries h); try assumption.
  now rewrite Hheader.
Qed.

Lemma acceptable_same_metadata s d1 d2 h f :
  same_metadata d1 d2 ->
  acceptable s d1 h f ->
  acceptable s d2 h f /\ resolved_entries d1 h f = resolved_entries d2 h f.
Proof.
  intros (Hlength & Htype & Hsubtype & Hheader & Hfooter & Hentries) Hok.
  assert (Hsame : resolved_entries d1 h f = resolved_entries d2 h f).
  { destruct Hok as (((_ & _ & _ & _ & _ & _ & Hh & _) & _) & _ & _
                     & Hcount & _).
    pose proof (header_of_bytes_wf _ _ Hh) as (_ & _ & Hsize & _).
    unfold Int.uint16_range in Hsize.
    unfold resolved_entries. rewrite <- Hlength.
    apply map_ext_in. intros off Hoff. unfold record_offsets in Hoff.
    apply in_map_iff in Hoff. destruct Hoff as (i & <- & Hi).
    apply in_seq in Hi.
    assert (Hroom : 8 * (Z.of_nat i + 1) <= entries_data_size h)
      by (Z.div_mod_to_equations; lia).
    unfold resolved_at.
    rewrite !(Hentries h) by (try assumption; lia). reflexivity. }
  split; [|exact Hsame].
  unfold acceptable, footer_decoded, header_decoded in *.
  rewrite <- Hsame, <- Hlength, <- Htype, <- Hsubtype, <- Hheader, <- Hfooter.
  exact Hok.
Qed.

Lemma decoded_same_metadata s d1 d2 v :
  same_metadata d1 d2 ->
  decoded (Some d1) s = Some v -> decoded (Some d2) s = Some v.
Proof.
  intros Hsame Hv.
  destruct (accepted_acceptable _ _ _ Hv) as (d & Hd & Hok & Hentries).
  injection Hd as <-.
  destruct (acceptable_same_metadata _ _ _ _ _ Hsame Hok) as [Hok' Heq].
  destruct (acceptable_decoded _ _ _ _ Hok') as [_ ->].
  rewrite <- Heq, <- Hentries. now destruct v.
Qed.

(** X10.  The keys and the values are not looked at: two buffers of the
    same length that agree on the object type and subtype, on the header
    slice, on the footer slice and on the entries region have the same
    fate.  The call returns the same value on both and decodes the same
    header, footer and entries, whatever the other bytes are. *)
Theorem decoded_ignores_payload s d1 d2 :
  same_metadata d1 d2 ->
  decoded (Some d1) s = decoded (Some d2) s
  /\ fst (fst (libfsapfs_file_system_btree_read_data (Some d1) s))
     = fst (fst (libfsapfs_file_system_btree_read_data (Some d2) s)).
Proof.
  intros Hsame.
  assert (Hview : decoded (Some d1) s = decoded (Some d2) s).
  { destruct (decoded (Some d1) s) as [v|] eqn:H1.
    - symmetry. eapply decoded_same_metadata; eassumption.
    - destruct (decoded (Some d2) s) as [v|] eqn:H2; [|reflexivity].
      apply (decoded_same_metadata _ _ _ _ (same_metadata_sym _ _ Hsame)) in H2.
      rewrite H1 in H2. discriminate H2. }
  split; [exact Hview|].
  destruct (read_data_result (Some d1) s) as [H1|[e1 H1]],
           (read_data_result (Some d2) s) as [H2|[e2 H2]];
    rewrite H1, H2; try reflexivity; exfalso.
  - apply read_data_success in H1. destruct H1 as [v H1].
    rewrite Hview in H1.
    assert (H : fst (libfsapfs_file_system_btree_read_data (Some d2) s)
                = (1, None)) by (apply read_data_success; eauto).
    rewrite H2 in H. discriminate H.
  - apply read_data_success in H2. destruct H2 as [v H2].
    rewrite <- Hview in H2.
    assert (H : fst (libfsapfs_file_system_btree_read_data (Some d1) s)
                = (1, None)) by (apply read_data_success; eauto).
    rewrite H1 in H. discriminate H.
Qed.

(** ** Reading a node from a file (lines 141-264) *)

Section ReadFileIoHandle.

(** libbfio is a library of its own.  Its handle and the two functions
    that are called on it are parameters: a handle is whatever state the
    library keeps, [libbfio_handle_seek_offset] (always with SEEK_SET here)
    returns the offset it has reached or -1, and
    [libbfio_handle_read_buffer] returns its count and the bytes it has
    stored at the start of the buffer. *)
Variable libbfio_handle_t : Type.
Variable libbfio_handle_seek_offset :
  libbfio_handle_t -> Z -> Z * libbfio_handle_t.
Variable libbfio_handle_read_buffer :
  libbfio_handle_t -> Z -> (Z * list byte) * libbfio_handle_t.

(** The calls made on the file IO handle. *)
Inductive libbfio_call : Type :=
| Seek_offset (offset : Z)
| Read_buffer (size : Z).

(** The errors that the function and the reader it calls set, in the
    order of their [libcerror_error_set] calls: the codes of
    [libcerror_error_t] and, for the seek, DOMAIN_IO with SEEK_FAILED.
    What libbfio sets on its own is not listed. *)
Inductive file_io_error : Type :=
| Error_code (e : libcerror_error_t)
| IO_ERROR_SEEK_FAILED.

(** [node_state]: the state of the reader above.
    [block_data]: the local of this name, as the size of the buffer it
    points to while that buffer is allocated; [None] before
    [memory_allocate] and after [memory_free].
    [file_io_handle]: the state of the handle.
    [libbfio_calls]: the calls made on the handle, in order. *)
Record file_io_state : Type := mkFileIoState {
  node_state : state;
  block_data : option Z;
  file_io_handle : libbfio_handle_t;
  libbfio_calls : list libbfio_call
}.

Definition set_node_state (v : state) (s : file_io_state) : file_io_state :=
  mkFileIoState v (block_data s) (file_io_handle s) (libbfio_calls s).

Definition set_block_data (v : option Z) (s : file_io_state)
  : file_io_state :=
  mkFileIoState (node_state s) v (file_io_handle s) (libbfio_calls s).

(** A call on the handle: the handle moves on and the call is logged. *)
Definition called (c : libbfio_call) (handle : libbfio_handle_t)
    (s : file_io_state) : file_io_state :=
  mkFileIoState (node_state s) (block_data s) handle (libbfio_calls s ++ [c]).

Definition uint32_t (x : Z) : Z := Int.to_unsigned 32 x.

(** The conversion to [ssize_t] wraps into the signed range. *)
Definition ssize_t (x : Z) : Z :=
  (x + 2 ^ (size_bits - 1)) mod 2 ^ size_bits - 2 ^ (size_bits - 1).

(** [block_data = memory_allocate( size )], with the allocator of the
    reader. *)
Definition allocate_block_data (size : Z) (s : file_io_state)
  : bool * file_io_state :=
  match malloc_oracle (node_state s) with
  | [] => (true, set_block_data (Some size) s)
  | true :: rest =>
      (true,
       set_block_data (Some size)
         (set_node_state (set_malloc_oracle rest (node_state s)) s))
  | false :: rest =>
      (false, set_node_state (set_malloc_oracle rest (node_state s)) s)
  end.

(** The [on_error] label (lines 257-263). *)
Definition file_io_on_error (s : file_io_state) : file_io_state :=
  match block_data s with
  | Some _ => set_block_data None s
  | None => s
  end.

(** The errors on the caller's error object after the callee has run. *)
Definition errors_of (e : option libcerror_error_t) : list file_io_error :=
  match e with
  | Some e => [Error_code e]
  | None => []
  end.

(** [libfsapfs_file_system_btree_read_file_io_handle]: the return value,
    the errors that were set, and the state the call leaves.  The guard of
    lines 166-178 is compiled when [size_t] has at most 4 bytes.  When the
    read returns [block_size], the bytes it has stored are the whole
    buffer, which is what the reader is handed. *)
Definition libfsapfs_file_system_btree_read_file_io_handle
    (file_offset block_size : Z) (s : file_io_state)
  : (Z * list file_io_error) * file_io_state :=
  (* 151 *)
  let s := set_block_data None s in
  (* 155-165 *)
  match file_system_btree (node_state s) with
  | None => ((-1, [Error_code ARGUMENT_ERROR_INVALID_VALUE]), s)
  | Some _ =>
      (* 166-178 *)
      if (size_bits <=? 32) && (uint32_t SSIZE_MAX <? block_size)
      then ((-1, [Error_code RUNTIME_ERROR_VALUE_OUT_OF_BOUNDS]), s)
      else
        (* 179-192 *)
        let (allocated, s) :=
          allocate_block_data (size_t (1 * block_size)) s in
        if negb allocated
        then ((-1, [Error_code MEMORY_ERROR_INSUFFICIENT]),
              file_io_on_error s)
        else
          (* 203-219 *)
          let (offset, handle) :=
            libbfio_handle_seek_offset (file_io_handle s) file_offset in
          let s := called (Seek_offset file_offset) handle s in
          if offset =? -1
          then ((-1, [IO_ERROR_SEEK_FAILED]), file_io_on_error s)
          else
            (* 220-236 *)
            let (read, handle) :=
              libbfio_handle_read_buffer (file_io_handle s)
                                         (size_t block_size) in
            let (read_count, bytes) := read in
            let s := called (Read_buffer (size_t block_size)) handle s in
            if negb (read_count =? ssize_t block_size)
            then ((-1, [Error_code IO_ERROR_READ_FAILED]),
                  file_io_on_error s)
            else
              (* 237-251 *)
              let (result, node) :=
                libfsapfs_file_system_btree_read_data (Some bytes)
                                                      (node_state s) in
              let s := set_node_state node s in
              if negb (fst result =? 1)
              then ((-1,
                     errors_of (snd result)
                     ++ [Error_code IO_ERROR_READ_FAILED]),
                    file_io_on_error s)
              else
                (* 252-255 *)
                ((1, []), set_block_data None s)
  end.

(** What the library is taken to do: a read that returns a count has
    stored that many bytes. *)
Hypothesis read_buffer_stores_count :
  forall handle size count bytes handle',
    libbfio_handle_read_buffer handle size = ((count, bytes), handle') ->
    0 <= count ->
    Z.of_nat (length bytes) = count.

(** The bounds of a [uint32_t] argument. *)
Definition uint32_range (x : Z) : Prop := 0 <= x < 2 ^ 32.

Lemma size_t_uint32 x : uint32_range x -> size_t x = x.
Proof.
  unfold uint32_range. intros Hx. apply size_t_small. split; [lia|].
  unfold SSIZE_MAX.
  assert (2 ^ 31 <= 2 ^ (size_bits - 1)) by (apply Z.pow_le_mono_r; lia).
  lia.
Qed.

(** Where the call hands the block to the reader, the conversion of
    [block_size] to [ssize_t] has kept its value. *)
Lemma ssize_t_block_size x :
  uint32_range x ->
  (size_bits <=? 32) && (uint32_t SSIZE_MAX <? x) = false ->
  ssize_t x = x /\ x <= SSIZE_MAX.
Proof.
  unfold uint32_range, ssize_t, uint32_t, SSIZE_MAX, Int.to_unsigned.
  intros Hx Hguard.
  assert (Hpow : 2 ^ size_bits = 2 * 2 ^ (size_bits - 1)).
  { rewrite <- Z.pow_succ_r by lia. f_equal. lia. }
  assert (Hsmall : x <= 2 ^ (size_bits - 1) - 1).
  { apply andb_false_iff in Hguard. destruct Hguard as [Hbits|Hguard].
    - apply Z.leb_gt in Hbits.
      assert (2 ^ 32 <= 2 ^ (size_bits - 1))
        by (apply Z.pow_le_mono_r; lia).
      lia.
    - apply Z.ltb_ge in Hguard.
      assert (Hbits : size_bits <= 32 \/ 32 < size_bits) by lia.
      destruct Hbits as [Hbits|Hbits].
      + assert (Hbits32 : size_bits = 32) by lia.
        rewrite Hbits32 in Hguard |- *.
        change (2 ^ (32 - 1) - 1) with 2147483647 in Hguard |- *.
        change (2147483647 mod 2 ^ 32) with 2147483647 in Hguard. lia.
      + assert (2 ^ 32 <= 2 ^ (size_bits - 1))
          by (apply Z.pow_le_mono_r; lia).
        lia. }
  split; [|exact Hsmall].
  rewrite Hpow. rewrite Z.mod_small by lia. lia.
Qed.

Ltac file_io_simpl :=
  cbn [node_state block_data file_io_handle libbfio_calls set_block_data
       set_node_state called file_io_on_error fst snd negb] in *.

Ltac file_io_cases :=
  unfold libfsapfs_file_system_btree_read_file_io_handle,
    allocate_block_data;
  file_io_simpl;
  repeat match goal with
  | |- context [match ?x with _ => _ end] =>
      lazymatch x with
      | context [match _ with _ => _ end] => fail
      | malloc_oracle _ => destruct x as [|[|] ?] eqn:?
      | libfsapfs_file_system_btree_read_data ?data ?t =>
          let Hreleased := fresh "Hreleased" in
          pose proof (read_data_released data t) as Hreleased;
          destruct x as [[? ?] ?] eqn:?
      | _ => destruct x eqn:?
      end;
      file_io_simpl
  end.

Lemma accepted_state data s1 s2 v :
  file_system_btree s1 = file_system_btree s2 ->
  accepted data s1 v -> accepted data s2 v.
Proof.
  unfold accepted. intros Hsame (d & Hd & Hset & Hrest).
  exists d. rewrite <- Hsame. auto.
Qed.

(** What the call has been through when it returns 1. *)
Lemma file_io_success file_offset block_size s :
  uint32_range block_size ->
  fst (fst (libfsapfs_file_system_btree_read_file_io_handle
              file_offset block_size s)) = 1 ->
  exists offset handle bytes handle' v,
    libbfio_handle_seek_offset (file_io_handle s) file_offset
    = (offset, handle)
    /\ offset <> -1
    /\ libbfio_handle_read_buffer handle block_size
       = ((block_size, bytes), handle')
    /\ Z.of_nat (length bytes) = block_size
    /\ block_size <= SSIZE_MAX
    /\ accepted (Some bytes) (node_state s) v
    /\ fst (libfsapfs_file_system_btree_read_file_io_handle
              file_offset block_size s) = (1, [])
    /\ libbfio_calls
         (snd (libfsapfs_file_system_btree_read_file_io_handle
                 file_offset block_size s))
       = libbfio_calls s ++ [Seek_offset file_offset; Read_buffer block_size]
    /\ file_io_handle
         (snd (libfsapfs_file_system_btree_read_file_io_handle
                 file_offset block_size s))
       = handle'.
Proof.
  intros Hrange. pose proof (size_t_uint32 _ Hrange) as Hsize.
  file_io_cases; intros Hok; try discriminate Hok;
    rewrite Hsize in *; bool_facts;
    match goal with
    | Hguard : (_ <=? 32) && _ = false |- _ =>
        destruct (ssize_t_block_size _ Hrange Hguard) as [Hcast Hmax]
    end;
    match goal with
    | Hread : libbfio_handle_read_buffer _ _ = (?count, _, _) |- _ =>
        assert (Hcount : count = block_size) by congruence;
        rewrite Hcount in Hread;
        pose proof (read_buffer_stores_count _ _ _ _ _ Hread
                      ltac:(unfold uint32_range in Hrange; lia)) as Hlength
    end;
    match goal with
    | Hdata : libfsapfs_file_system_btree_read_data ?d ?t = _ |- _ =>
        destruct (read_data_result d t) as [Hresult|[e Hresult]];
        [ apply read_data_success in Hresult; destruct Hresult as [v Hv];
          apply decoded_accepted in Hv;
          apply (accepted_state _ t (node_state s) v eq_refl) in Hv
        | rewrite Hdata in Hresult; cbn [fst] in Hresult; congruence ]
    end;
    do 5 eexists; repeat split; try eassumption; try reflexivity;
    now rewrite <- app_assoc.
Qed.

(** X11.  The block buffer never outlives the call: on every path, the
    return of 1 and each of the failures, [block_data] has been freed when
    the call returns, and the heap and the structure of the reader are what
    they were before the call. *)
Theorem read_file_io_handle_releases file_offset block_size s :
  block_data
    (snd (libfsapfs_file_system_btree_read_file_io_handle
            file_offset block_size s)) = None
  /\ heap (node_state
             (snd (libfsapfs_file_system_btree_read_file_io_handle
                     file_offset block_size s)))
     = heap (node_state s)
  /\ file_system_btree
       (node_state
          (snd (libfsapfs_file_system_btree_read_file_io_handle
                  file_offset block_size s)))
     = file_system_btree (node_state s).
Proof.
  file_io_cases;
    try match goal with
    | H : released _ _ _ |- _ =>
        cbn [snd] in H; destruct H as (? & ? & -> & _)
    end;
    state_simpl; repeat split; solve [reflexivity | assumption].
Qed.

(** The last error of a failing call. *)
Definition file_io_failures : list file_io_error :=
  [Error_code ARGUMENT_ERROR_INVALID_VALUE;
   Error_code RUNTIME_ERROR_VALUE_OUT_OF_BOUNDS;
   Error_code MEMORY_ERROR_INSUFFICIENT;
   IO_ERROR_SEEK_FAILED;
   Error_code IO_ERROR_READ_FAILED].

Lemma file_io_result file_offset block_size s :
  fst (libfsapfs_file_system_btree_read_file_io_handle
         file_offset block_size s) = (1, [])
  \/ exists earlier e,
       fst (libfsapfs_file_system_btree_read_file_io_handle
              file_offset block_size s) = (-1, earlier ++ [e])
       /\ In e file_io_failures
       /\ (earlier = []
           \/ exists e', earlier = [Error_code e']
                         /\ e = Error_code IO_ERROR_READ_FAILED).
Proof.
  unfold file_io_failures.
  file_io_cases;
    try match goal with
    | Hdata : libfsapfs_file_system_btree_read_data ?d ?t = _ |- _ =>
        destruct (read_data_result d t) as [Hresult|[e Hresult]];
        rewrite Hdata in Hresult; cbn [fst] in Hresult;
        injection Hresult as -> ->; cbn [errors_of] in *;
        try discriminate
    end;
    first
      [ left; reflexivity
      | right; exists []; eexists; split; [reflexivity|];
        split; [cbn [In]; tauto | left; reflexivity]
      | right; eexists [_]; eexists; split; [reflexivity|];
        split; [cbn [In]; tauto | right; eexists; split; reflexivity] ].
Qed.

(** X12.  A call that returns 1 has sought [file_offset] with success,
    has read [block_size] bytes there in one read, and these bytes are a
    node the reader accepts: they satisfy all that [accepted] lists.  It
    has made no other call on the handle and has set no error. *)
Theorem read_file_io_handle_success file_offset block_size s :
  uint32_range block_size ->
  fst (fst (libfsapfs_file_system_btree_read_file_io_handle
              file_offset block_size s)) = 1 ->
  exists offset handle bytes handle' v,
    libbfio_handle_seek_offset (file_io_handle s) file_offset
    = (offset, handle)
    /\ offset <> -1
    /\ libbfio_handle_read_buffer handle block_size
       = ((block_size, bytes), handle')
    /\ Z.of_nat (length bytes) = block_size
    /\ accepted (Some bytes) (node_state s) v
    /\ fst (libfsapfs_file_system_btree_read_file_io_handle
              file_offset block_size s) = (1, [])
    /\ libbfio_calls
         (snd (libfsapfs_file_system_btree_read_file_io_handle
                 file_offset block_size s))
       = libbfio_calls s ++ [Seek_offset file_offset; Read_buffer block_size].
Proof.
  intros Hrange Hok.
  destruct (file_io_success _ _ _ Hrange Hok)
    as (offset & handle & bytes & handle' & v & Hseek & Hoffset & Hread
        & Hlength & _ & Haccepted & Hresult & Hcalls & _).
  exists offset, handle, bytes, handle', v. auto 10.
Qed.

(** X13.  The handle is used in order and no more than needed: the call
    makes no call on it at all when the structure is missing or the
    allocation of the block buffer is refused, it seeks [file_offset]
    first, and it reads, once and [block_size] bytes, only after a seek
    that has not failed. *)
Theorem read_file_io_handle_calls file_offset block_size s :
  uint32_range block_size ->
  exists l,
    libbfio_calls
      (snd (libfsapfs_file_system_btree_read_file_io_handle
              file_offset block_size s))
    = libbfio_calls s ++ l
    /\ (l = []
        \/ (l = [Seek_offset file_offset]
            /\ fst (libbfio_handle_seek_offset (file_io_handle s) file_offset)
               = -1)
        \/ (l = [Seek_offset file_offset; Read_buffer block_size]
            /\ fst (libbfio_handle_seek_offset (file_io_handle s) file_offset)
               <> -1))
    /\ (file_system_btree (node_state s) = None
        \/ ~ header_allocated (node_state s) ->
        l = []).
Proof.
  intros Hrange. pose proof (size_t_uint32 _ Hrange) as Hsize.
  unfold header_allocated.
  file_io_cases; rewrite ?Hsize in *; bool_facts;
    first
      [ exists []; rewrite app_nil_r; split; [reflexivity|];
        split; [left; reflexivity | intros _; reflexivity]
      | exists [Seek_offset file_offset]; split; [reflexivity|];
        split; [right; left; split; [reflexivity|assumption]|];
        intros [Hnull|Hrefused]; [discriminate Hnull|];
        exfalso; apply Hrefused; exact I
      | exists [Seek_offset file_offset; Read_buffer block_size];
        rewrite <- app_assoc; split; [reflexivity|];
        split; [right; right; split; [reflexivity|assumption]|];
        intros [Hnull|Hrefused]; [discriminate Hnull|];
        exfalso; apply Hrefused; exact I ].
Qed.

(** X15.  A block that has no room for the object header, the B-tree
    header, the footer and one byte more is never accepted: whatever the
    file holds and whatever the handle does, the call returns -1.  This
    covers the empty block. *)
Theorem read_file_io_handle_small_block file_offset block_size s :
  uint32_range block_size ->
  block_size <= header_end + sizeof_fsapfs_btree_footer_t ->
  exists errors,
    fst (libfsapfs_file_system_btree_read_file_io_handle
           file_offset block_size s) = (-1, errors).
Proof.
  intros Hrange Hsmall.
  destruct (file_io_result file_offset block_size s)
    as [Hok|(earlier & e & Hfail & _)]; [|eauto].
  exfalso.
  assert (Hone : fst (fst (libfsapfs_file_system_btree_read_file_io_handle
                             file_offset block_size s)) = 1)
    by now rewrite Hok.
  destruct (file_io_success _ _ _ Hrange Hone)
    as (_ & _ & bytes & _ & v & _ & _ & _ & Hlength & _ & Haccepted & _).
  destruct Haccepted as (d & Hd & _ & _ & _ & _ & Hheader & _ & Hlayout & _).
  injection Hd as <-.
  pose proof (header_of_bytes_wf _ _ Hheader) as (_ & Hoffset & _).
  unfold Int.uint16_range in Hoffset. unfold layout_ok in Hlayout. lia.
Qed.


Lemma acceptable_state s1 s2 d h f :
  file_system_btree s1 = file_system_btree s2 ->
  malloc_oracle s1 = malloc_oracle s2 ->
  acceptable s1 d h f -> acceptable s2 d h f.
Proof.
  unfold acceptable, footer_decoded, header_decoded, header_allocated,
    footer_allocated.
  intros <- <-. auto.
Qed.

(** X17.  The call returns 1, with no error set, whenever nothing stands
    in its way: the structure is given, the block size passes the guard of
    32-bit platforms, the buffer is granted, the seek does not fail, the
    read delivers [block_size] bytes, and these bytes are [acceptable] to
    the reader with the allocator answers that are left. *)
Theorem read_file_io_handle_accepts file_offset block_size s
    offset handle bytes handle' h f :
  uint32_range block_size ->
  block_size <= 2147483647 ->
  file_system_btree (node_state s) <> None ->
  header_allocated (node_state s) ->
  libbfio_handle_seek_offset (file_io_handle s) file_offset
  = (offset, handle) ->
  offset <> -1 ->
  libbfio_handle_read_buffer handle block_size
  = ((block_size, bytes), handle') ->
  acceptable (set_malloc_oracle (tl (malloc_oracle (node_state s)))
                                (node_state s))
             bytes h f ->
  fst (libfsapfs_file_system_btree_read_file_io_handle
         file_offset block_size s) = (1, []).
Proof.
  intros Hrange Hsmall Hset Hgranted Hseek Hoffset Hread Hok.
  pose proof (size_t_uint32 _ Hrange) as Hsize.
  assert (Hguard : (size_bits <=? 32) && (uint32_t SSIZE_MAX <? block_size)
                   = false).
  { destruct (size_bits <=? 32) eqn:Hbits; [|reflexivity].
    apply Z.leb_le in Hbits.
    assert (Hbits32 : size_bits = 32) by lia.
    unfold uint32_t, SSIZE_MAX, Int.to_unsigned. rewrite Hbits32.
    change (2 ^ (32 - 1) - 1) with 2147483647.
    change (2147483647 mod 2 ^ 32) with 2147483647.
    cbn [andb]. now apply Z.ltb_ge. }
  destruct (ssize_t_block_size _ Hrange Hguard) as [Hcast _].
  unfold libfsapfs_file_system_btree_read_file_io_handle,
    allocate_block_data.
  file_io_simpl. rewrite Hguard, Hsize.
  destruct (file_system_btree (node_state s)) as [structure|] eqn:Hpointer;
    [|now contradiction Hset].
  unfold header_allocated in Hgranted.
  destruct (malloc_oracle (node_state s)) as [|[|] rest] eqn:Horacle;
    try contradiction; file_io_simpl;
    rewrite Hseek; file_io_simpl;
    (destruct (offset =? -1) eqn:Hfailed;
     [apply Z.eqb_eq in Hfailed; contradiction|]);
    rewrite Hread; file_io_simpl;
    rewrite Hcast, Z.eqb_refl; file_io_simpl;
    match goal with
    | |- context [libfsapfs_file_system_btree_read_data _ ?t] =>
        assert (Hok' : acceptable t bytes h f)
          by (match type of Hok with
              | acceptable ?t0 _ _ _ => apply (acceptable_state t0 t)
              end;
              [reflexivity | cbn; now rewrite ?Horacle | exact Hok]);
        destruct (acceptable_decoded _ _ _ _ Hok') as [-> _]
    end;
    reflexivity.
Qed.

(** The state in which the reader is called: the structure and the heap
    of the caller, and the allocator answers that are left once the block
    buffer has been asked for. *)
Definition reader_state (s : file_io_state) : state :=
  set_malloc_oracle (tl (malloc_oracle (node_state s))) (node_state s).

Lemma set_malloc_oracle_same oracle s :
  malloc_oracle s = oracle -> set_malloc_oracle oracle s = s.
Proof. intros <-. now destruct s. Qed.

(** X14.  How the call reports, counting the errors that it and the
    reader pass to [libcerror_error_set] (what libbfio sets through the
    error argument is outside the model).  There are three shapes: the
    call returns 1 with no error; or it returns -1 with one error, its own
    (INVALID_VALUE, VALUE_OUT_OF_BOUNDS, INSUFFICIENT memory, SEEK_FAILED or
    READ_FAILED); or it returns -1 with two errors, the one the reader has
    set and then its own READ_FAILED.  The third shape means that the seek
    has not failed, the read has delivered [block_size] bytes and the
    reader has rejected these bytes with that error.  And the other way
    round: whenever the block is delivered and the reader rejects it, the
    call returns -1 with the reader's error followed by READ_FAILED. *)
Theorem read_file_io_handle_reports file_offset block_size s :
  uint32_range block_size ->
  (fst (libfsapfs_file_system_btree_read_file_io_handle
          file_offset block_size s) = (1, [])
   \/ (exists e,
         fst (libfsapfs_file_system_btree_read_file_io_handle
                file_offset block_size s) = (-1, [e])
         /\ In e file_io_failures)
   \/ (exists bytes handle' e',
         fst (libbfio_handle_seek_offset (file_io_handle s) file_offset)
         <> -1
         /\ libbfio_handle_read_buffer
              (snd (libbfio_handle_seek_offset (file_io_handle s)
                                               file_offset))
              block_size
            = ((block_size, bytes), handle')
         /\ fst (libfsapfs_file_system_btree_read_data
                   (Some bytes) (reader_state s)) = (-1, Some e')
         /\ fst (libfsapfs_file_system_btree_read_file_io_handle
                   file_offset block_size s)
            = (-1, [Error_code e'; Error_code IO_ERROR_READ_FAILED])))
  /\ (forall bytes handle' e',
        file_system_btree (node_state s) <> None ->
        block_size <= 2147483647 ->
        header_allocated (node_state s) ->
        fst (libbfio_handle_seek_offset (file_io_handle s) file_offset)
        <> -1 ->
        libbfio_handle_read_buffer
          (snd (libbfio_handle_seek_offset (file_io_handle s) file_offset))
          block_size
        = ((block_size, bytes), handle') ->
        fst (libfsapfs_file_system_btree_read_data
               (Some bytes) (reader_state s)) = (-1, Some e') ->
        fst (libfsapfs_file_system_btree_read_file_io_handle
               file_offset block_size s)
        = (-1, [Error_code e'; Error_code IO_ERROR_READ_FAILED])).
Proof.
  intros Hrange. pose proof (size_t_uint32 _ Hrange) as Hsize.
  unfold reader_state, file_io_failures, header_allocated.
  split.
  - file_io_cases; rewrite ?Hsize in *; bool_facts; cbn [tl];
      try match goal with
      | Hguard : (_ <=? 32) && _ = false |- _ =>
          destruct (ssize_t_block_size _ Hrange Hguard) as [Hcast _];
          rewrite Hcast in *
      end;
      try match goal with
      | Hdata : libfsapfs_file_system_btree_read_data ?d ?t = _ |- _ =>
          destruct (read_data_result d t) as [Hresult|[e Hresult]];
          rewrite Hdata in Hresult; cbn [fst] in Hresult;
          injection Hresult as -> ->; cbn [errors_of app fst snd] in *;
          try congruence
      end;
      rewrite ?(set_malloc_oracle_same [] (node_state s)) by assumption;
      first
        [ left; reflexivity
        | right; left; eexists; split; [reflexivity|]; cbn [In]; tauto
        | right; right; do 3 eexists;
          split; [assumption|];
          split; [subst; eassumption|];
          split; [match goal with
                  | Hdata : libfsapfs_file_system_btree_read_data _ _ = _
                    |- _ => rewrite Hdata
                  end; reflexivity
                 |reflexivity] ].
  - intros bytes handle' e' Hset Hsmall Hgranted Hseek Hread Hrejected.
    assert (Hguard : (size_bits <=? 32) && (uint32_t SSIZE_MAX <? block_size)
                     = false).
    { destruct (size_bits <=? 32) eqn:Hbits; [|reflexivity].
      apply Z.leb_le in Hbits.
      assert (Hbits32 : size_bits = 32) by lia.
      unfold uint32_t, SSIZE_MAX, Int.to_unsigned. rewrite Hbits32.
      change (2 ^ (32 - 1) - 1) with 2147483647.
      change (2147483647 mod 2 ^ 32) with 2147483647.
      cbn [andb]. now apply Z.ltb_ge. }
    destruct (ssize_t_block_size _ Hrange Hguard) as [Hcast _].
    unfold libfsapfs_file_system_btree_read_file_io_handle,
      allocate_block_data.
    file_io_simpl. rewrite Hguard, Hsize.
    destruct (file_system_btree (node_state s)) as [structure|] eqn:Hpointer;
      [|now contradiction Hset].
    destruct (malloc_oracle (node_state s)) as [|[|] rest] eqn:Horacle;
      try contradiction; file_io_simpl; cbn [tl] in Hrejected;
      rewrite ?(set_malloc_oracle_same [] (node_state s)) in Hrejected
        by assumption;
      (destruct (libbfio_handle_seek_offset (file_io_handle s) file_offset)
         as [offset handle] eqn:Hsought);
      cbn [fst snd] in Hseek, Hread;
      (destruct (offset =? -1) eqn:Hfailed;
       [apply Z.eqb_eq in Hfailed; contradiction|]);
      file_io_simpl; rewrite Hread; file_io_simpl;
      rewrite Hcast, Z.eqb_refl; file_io_simpl;
      match goal with
      | |- context [libfsapfs_file_system_btree_read_data ?d ?t] =>
          destruct (libfsapfs_file_system_btree_read_data d t)
            as [result node]
      end;
      cbn [fst] in Hrejected; subst result; reflexivity.
Qed.

End ReadFileIoHandle.

End ReadData.

(** ** The properties on concrete nodes *)

Module ReferenceFacts.

Import Reference.

Lemma size_bits_ge : 32 <= size_bits.
Proof. unfold size_bits. lia. Qed.

Lemma sizeof_header_ge : 0 <= sizeof_fsapfs_btree_header_t.
Proof. unfold sizeof_fsapfs_btree_header_t. lia. Qed.

Lemma sizeof_footer_ge : 0 <= sizeof_fsapfs_btree_footer_t.
Proof. unfold sizeof_fsapfs_btree_footer_t. lia. Qed.

Lemma sizes_small :
  sizeof_fsapfs_object_t + sizeof_fsapfs_btree_header_t
  + sizeof_fsapfs_btree_footer_t <= SSIZE_MAX size_bits.
Proof. vm_compute. discriminate. Qed.

Lemma member_range bytes off len :
  0 <= len -> 0 <= member bytes off len < 2 ^ (8 * len).
Proof. apply little_endian_slice_range. Qed.

Lemma decoded_header_wf bytes h :
  header_of_bytes bytes = Some h -> header_wf h.
Proof.
  unfold header_of_bytes. intros H. injection H as <-.
  unfold header_wf, Int.uint16_range. cbn [flags entries_data_offset
    entries_data_size unused_data_offset unused_data_size].
  repeat split; apply (member_range bytes _ 2); lia.
Qed.

Lemma decoded_footer_wf bytes f :
  footer_of_bytes bytes = Some f -> footer_wf f.
Proof.
  unfold footer_of_bytes. intros H. injection H as <-.
  unfold footer_wf, Int.uint16_range, Int.uint64_range.
  cbn [key_size value_size number_of_entries].
  repeat split;
    solve [ apply (member_range bytes _ 2); lia
          | apply (member_range bytes _ 8); lia ].
Qed.

End ReferenceFacts.

Module Examples.

Import Reference.

(** The reader for the concrete layout. *)
Definition read_data : option (list byte) -> state
                       -> (Z * option libcerror_error_t) * state :=
  libfsapfs_file_system_btree_read_data
    size_bits sizeof_fsapfs_btree_header_t sizeof_fsapfs_btree_footer_t
    header_of_bytes footer_of_bytes.

Definition decoded : option (list byte) -> state -> option node_view :=
  decoded size_bits sizeof_fsapfs_btree_header_t sizeof_fsapfs_btree_footer_t
          header_of_bytes footer_of_bytes.

Ltac evaluate :=
  repeat split;
  first
    [ exact I
    | reflexivity
    | discriminate
    | vm_compute; first [reflexivity | exact I | discriminate
                        | intro; discriminate] ].

Lemma packed_node_header_decoded :
  header_decoded size_bits sizeof_fsapfs_btree_header_t header_of_bytes
                 (start false) packed_node (header 0 8 4 0).
Proof. unfold header_decoded. evaluate. Qed.

Lemma footer_decoded_with data h f :
  length data = 112%nat ->
  firstn 56 data = firstn 56 one_entry_node ->
  header_of_bytes (header_slice sizeof_fsapfs_btree_header_t data) = Some h ->
  h = header 0 8 2 4 ->
  footer_of_bytes (footer_slice sizeof_fsapfs_btree_footer_t data) = Some f ->
  footer_decoded size_bits sizeof_fsapfs_btree_header_t
                 sizeof_fsapfs_btree_footer_t header_of_bytes footer_of_bytes
                 (start false) data h f.
Proof.
  intros Hlength Hprefix Hheader -> Hfooter.
  assert (Htype : object_type data = 2).
  { unfold object_type, ByteStream.slice, offsetof_object_type.
    replace (skipn (Z.to_nat 24) data)
      with (skipn (Z.to_nat 24) (firstn 56 data) ++ skipn 56 data).
    - rewrite Hprefix. reflexivity.
    - rewrite <- (firstn_skipn 56 data) at 3.
      rewrite skipn_app, length_firstn, Hlength. reflexivity. }
  assert (Hsubtype : object_subtype data = 14).
  { unfold object_subtype, ByteStream.slice, offsetof_object_subtype.
    replace (skipn (Z.to_nat 28) data)
      with (skipn (Z.to_nat 28) (firstn 56 data) ++ skipn 56 data).
    - rewrite Hprefix. reflexivity.
    - rewrite <- (firstn_skipn 56 data) at 3.
      rewrite skipn_app, length_firstn, Hlength. reflexivity. }
  unfold footer_decoded, header_decoded, layout_ok, header_end.
  rewrite Hlength.
  repeat split; try assumption; try (vm_compute; congruence);
    try discriminate.
Qed.

(** C1: on the packed node the chain of the specification finds nothing to
    reject (the unused offset equals what remains), and the call fails
    with VALUE_OUT_OF_BOUNDS at the chain, after the header slice and before
    any read of the footer or of a record. *)
Lemma accounting_chain_spec_differs :
  header_of_bytes (header_slice sizeof_fsapfs_btree_header_t packed_node)
  = Some (header 0 8 4 0)
  /\ accounting_chain_spec (Z.of_nat (length packed_node))
       (sizeof_fsapfs_object_t + sizeof_fsapfs_btree_header_t)
       sizeof_fsapfs_btree_footer_t (header 0 8 4 0) = true
  /\ read_data (Some packed_node) (start false)
     = ((-1, Some RUNTIME_ERROR_VALUE_OUT_OF_BOUNDS),
        mkState (Some (zeros 8)) [File_system_btree_block] [] false
                [(24, 4); (28, 4); (32, 24)] None None).
Proof. evaluate. Qed.

Lemma accounting_chain_checked_witness :
  read_data (Some packed_node) (start false)
  = ((-1, Some RUNTIME_ERROR_VALUE_OUT_OF_BOUNDS),
     mkState (Some (zeros 8)) [File_system_btree_block] [] false
             [(24, 4); (28, 4); (32, 24)] None None).
Proof.
  apply (accounting_chain_checked
           size_bits sizeof_fsapfs_btree_header_t
           sizeof_fsapfs_btree_footer_t header_of_bytes footer_of_bytes
           ReferenceFacts.size_bits_ge ReferenceFacts.sizeof_header_ge
           ReferenceFacts.sizeof_footer_ge ReferenceFacts.sizes_small
           ReferenceFacts.decoded_header_wf
           (start false) packed_node (header 0 8 4 0)
           packed_node_header_decoded).
  unfold layout_ok, header_end. vm_compute. intros (_ & _ & _ & H & _).
  discriminate H.
Defined.

(** C2: the call accepts the block whose record has key offset 65520.
    The key offset the specification computes is 65584, beyond the 4096
    bytes of the block; the one the code has computed and validated is 48,
    which is 65584 modulo 65536. *)
Theorem key_offset_wraps_around :
  fst (read_data (Some wrapped_key_node) (start false)) = (1, None)
  /\ option_map (fun v => map key_data_offset (view_entries v))
                (decoded (Some wrapped_key_node) (start false))
     = Some [48]
  /\ absolute_key_offset_spec sizeof_fsapfs_object_t
       sizeof_fsapfs_btree_header_t (header 0 8 2 4) 65520 = 65584
  /\ (Z.of_nat (length wrapped_key_node) <? 65584) = true.
Proof. evaluate. Qed.

(** C3: the call accepts the block whose record has value offset 65535.
    The value offset the specification computes is 4056 - 65535, which is
    negative; the one the code has computed and validated is 4057, inside
    the footer.  And on a buffer of 70000 bytes the footer offset 69960 is
    cut to 4424, so that value offset 2 resolves to 4422, not to 69958. *)
Theorem value_offset_wraps_around :
  fst (read_data (Some wrapped_value_node) (start false)) = (1, None)
  /\ option_map (fun v => map value_data_offset (view_entries v))
                (decoded (Some wrapped_value_node) (start false))
     = Some [4057]
  /\ absolute_value_offset_spec (Z.of_nat (length wrapped_value_node))
       sizeof_fsapfs_btree_footer_t 65535 = -61479
  /\ fst (read_data (Some large_node) (start false)) = (1, None)
  /\ option_map (fun v => map value_data_offset (view_entries v))
                (decoded (Some large_node) (start false))
     = Some [4422]
  /\ absolute_value_offset_spec (Z.of_nat (length large_node))
       sizeof_fsapfs_btree_footer_t 2 = 69958.
Proof. evaluate. Qed.

Lemma read_data_reads_in_bounds_witness :
  exists l,
    accesses (snd (read_data (Some one_entry_node) (start true)))
    = accesses (start true) ++ l
    /\ (forall off len, In (off, len) l ->
          exists d, Some one_entry_node = Some d
                    /\ in_bounds (Z.of_nat (length d)) (off, len))
    /\ (forall v, decoded (Some one_entry_node) (start true) = Some v ->
          exists d, Some one_entry_node = Some d
                    /\ Forall (entry_in_bounds (Z.of_nat (length d)))
                              (view_entries v)).
Proof.
  exact (read_data_reads_in_bounds
           size_bits sizeof_fsapfs_btree_header_t
           sizeof_fsapfs_btree_footer_t header_of_bytes footer_of_bytes
           ReferenceFacts.size_bits_ge ReferenceFacts.sizeof_header_ge
           ReferenceFacts.sizeof_footer_ge ReferenceFacts.sizes_small
           ReferenceFacts.decoded_header_wf ReferenceFacts.decoded_footer_wf
           (Some one_entry_node) (start true)).
Defined.

Lemma accepted_layout_accounting_witness :
  exists d h,
    Some one_entry_node = Some d
    /\ header_of_bytes (header_slice sizeof_fsapfs_btree_header_t d) = Some h
    /\ sizeof_fsapfs_object_t + sizeof_fsapfs_btree_header_t
       + entries_data_offset h + entries_data_size h
       + unused_data_offset h + unused_data_size h
       + sizeof_fsapfs_btree_footer_t
       <= Z.of_nat (length d).
Proof.
  apply (accepted_layout_accounting
           size_bits sizeof_fsapfs_btree_header_t
           sizeof_fsapfs_btree_footer_t header_of_bytes footer_of_bytes
           ReferenceFacts.size_bits_ge ReferenceFacts.sizeof_header_ge
           ReferenceFacts.sizeof_footer_ge ReferenceFacts.sizes_small
           ReferenceFacts.decoded_header_wf ReferenceFacts.decoded_footer_wf
           (Some one_entry_node) (start false)).
  vm_compute. reflexivity.
Defined.

Lemma footer_entry_count_witness :
  fst (read_data (Some two_entries_claimed_node) (start false))
  = (-1, Some RUNTIME_ERROR_VALUE_OUT_OF_BOUNDS)
  /\ (forall v,
        decoded (Some one_entry_node) (start false) = Some v ->
        number_of_entries (view_footer v) * 8
        <= entries_data_size (view_header v)
        /\ length (view_entries v)
           = Z.to_nat (number_of_entries (view_footer v))).
Proof.
  destruct (footer_entry_count
              size_bits sizeof_fsapfs_btree_header_t
              sizeof_fsapfs_btree_footer_t header_of_bytes footer_of_bytes
              ReferenceFacts.size_bits_ge ReferenceFacts.sizeof_header_ge
              ReferenceFacts.sizeof_footer_ge ReferenceFacts.sizes_small
              ReferenceFacts.decoded_header_wf ReferenceFacts.decoded_footer_wf)
    as [Hreject Haccept].
  split.
  - apply (Hreject (start false) two_entries_claimed_node
                   (header 0 8 2 4) (footer 2)).
    + apply footer_decoded_with; reflexivity.
    + vm_compute. reflexivity.
  - intros v Hv.
    destruct (Haccept (Some one_entry_node) (start false) v Hv)
      as (Hsize & Hlength & _).
    split; assumption.
Defined.

(** C7: the footer of this node has key_size 8, and the call fails with
    VALUE_OUT_OF_BOUNDS, whose kind is BoundsError. *)
Lemma footer_key_size_is_bounds_error :
  option_map key_size
    (footer_of_bytes
       (footer_slice sizeof_fsapfs_btree_footer_t fixed_key_size_node))
  = Some 8
  /\ fst (read_data (Some fixed_key_size_node) (start false))
     = (-1, Some RUNTIME_ERROR_VALUE_OUT_OF_BOUNDS)
  /\ kind_of RUNTIME_ERROR_VALUE_OUT_OF_BOUNDS = BoundsError.
Proof. evaluate. Qed.

Lemma unsupported_format_cases_witness :
  (exists e, fst (read_data (Some flags_one_node) (start false)) = (-1, Some e)
             /\ kind_of e = UnsupportedFormat)
  /\ (exists e, fst (read_data (Some fixed_key_size_node) (start false))
                = (-1, Some e)
                /\ kind_of e = BoundsError).
Proof.
  split.
  - apply (unsupported_format_cases
             size_bits sizeof_fsapfs_btree_header_t
             sizeof_fsapfs_btree_footer_t header_of_bytes footer_of_bytes
             ReferenceFacts.size_bits_ge ReferenceFacts.sizeof_header_ge
             ReferenceFacts.sizeof_footer_ge ReferenceFacts.sizes_small
             ReferenceFacts.decoded_header_wf ReferenceFacts.decoded_footer_wf
             (Some flags_one_node) (start false)).
    exists flags_one_node. split; [reflexivity|].
    split; [discriminate|]. split; [evaluate|].
    right. right. repeat split; try (vm_compute; congruence).
    eexists. split; [reflexivity|]. vm_compute. discriminate.
  - apply (proj2 (unsupported_format_cases
             size_bits sizeof_fsapfs_btree_header_t
             sizeof_fsapfs_btree_footer_t header_of_bytes footer_of_bytes
             ReferenceFacts.size_bits_ge ReferenceFacts.sizeof_header_ge
             ReferenceFacts.sizeof_footer_ge ReferenceFacts.sizes_small
             ReferenceFacts.decoded_header_wf ReferenceFacts.decoded_footer_wf
             (Some fixed_key_size_node) (start false))
            fixed_key_size_node (header 0 8 2 4)
            {| key_size := 8; value_size := 0; number_of_entries := 1 |}
            eq_refl).
    + apply footer_decoded_with; reflexivity.
    + left. discriminate.
Defined.

Lemma read_data_failure_releases_witness :
  decoded (Some fixed_key_size_node) (start false) = None
  /\ file_system_btree
       (snd (read_data (Some fixed_key_size_node) (start false)))
     = file_system_btree (start false)
  /\ heap (snd (read_data (Some fixed_key_size_node) (start false)))
     = heap (start false)
  /\ btree_header (snd (read_data (Some fixed_key_size_node) (start false)))
     = None
  /\ btree_footer (snd (read_data (Some fixed_key_size_node) (start false)))
     = None.
Proof.
  apply (read_data_failure_releases
           size_bits sizeof_fsapfs_btree_header_t
           sizeof_fsapfs_btree_footer_t header_of_bytes footer_of_bytes
           ReferenceFacts.size_bits_ge ReferenceFacts.sizeof_header_ge
           ReferenceFacts.sizeof_footer_ge ReferenceFacts.sizes_small
           ReferenceFacts.decoded_header_wf ReferenceFacts.decoded_footer_wf
           (Some fixed_key_size_node) (start false)
           RUNTIME_ERROR_VALUE_OUT_OF_BOUNDS).
  vm_compute. reflexivity.
Defined.

(** C9: the same buffer, the same structure, and two outcomes.  With an
    allocator that grants every request the call returns 1 and has decoded
    the node; with one that refuses the first request it returns -1 with
    INITIALIZE_FAILED and has decoded nothing. *)
Lemma allocator_answer_changes_outcome :
  file_system_btree (start false)
  = file_system_btree
      (mkState (Some (zeros 8)) [File_system_btree_block] [false] false []
               None None)
  /\ fst (read_data (Some one_entry_node) (start false)) = (1, None)
  /\ fst (read_data (Some one_entry_node)
            (mkState (Some (zeros 8)) [File_system_btree_block] [false]
                     false [] None None))
     = (-1, Some RUNTIME_ERROR_INITIALIZE_FAILED)
  /\ option_map view_entries (decoded (Some one_entry_node) (start false))
     = Some [record 64 2 70 2]
  /\ decoded (Some one_entry_node)
       (mkState (Some (zeros 8)) [File_system_btree_block] [false] false []
                None None)
     = None.
Proof. evaluate. Qed.

Lemma read_data_deterministic_witness :
  fst (read_data (Some one_entry_node) (start false))
  = fst (read_data (Some one_entry_node) other_start)
  /\ decoded (Some one_entry_node) (start false)
     = decoded (Some one_entry_node) other_start.
Proof.
  apply (read_data_deterministic
           size_bits sizeof_fsapfs_btree_header_t
           sizeof_fsapfs_btree_footer_t header_of_bytes footer_of_bytes
           (Some one_entry_node) (start false) other_start).
  - split; intros H; discriminate H.
  - reflexivity.
Defined.

Lemma read_data_leaves_structure_witness :
  file_system_btree
    (snd (read_data (Some one_entry_node)
            (snd (libfsapfs_file_system_btree_initialize
                    8 true nothing_allocated))))
  = Some (repeat x00 8).
Proof.
  apply (proj2 (read_data_leaves_structure
           size_bits sizeof_fsapfs_btree_header_t
           sizeof_fsapfs_btree_footer_t header_of_bytes footer_of_bytes
           ReferenceFacts.size_bits_ge ReferenceFacts.sizeof_header_ge
           ReferenceFacts.sizeof_footer_ge ReferenceFacts.sizes_small
           ReferenceFacts.decoded_header_wf ReferenceFacts.decoded_footer_wf
           (Some one_entry_node)
           (snd (libfsapfs_file_system_btree_initialize
                   8 true nothing_allocated)))
          8%nat nothing_allocated);
    reflexivity.
Defined.

End Examples.

Arguments mkFileIoState {libbfio_handle_t} _ _ _ _.
Arguments node_state {libbfio_handle_t} _.
Arguments block_data {libbfio_handle_t} _.
Arguments file_io_handle {libbfio_handle_t} _.
Arguments libbfio_calls {libbfio_handle_t} _.
Arguments set_node_state {libbfio_handle_t} _ _.
Arguments set_block_data {libbfio_handle_t} _ _.

(** ** Creating and freeing the structure (lines 38-139) *)

(** X18.  [libfsapfs_file_system_btree_initialize] returns 1 exactly when
    it is given a pointer, the caller's pointer is NULL and the allocation
    is granted; the structure is then all zero bytes and one more block is
    live.  In every other case it returns -1 with INVALID_VALUE,
    VALUE_ALREADY_SET or INSUFFICIENT memory and leaves the caller's
    pointer and the heap as they were: a structure that is already set is
    neither replaced nor leaked. *)
Theorem initialize_outcome size handle s :
  (fst (libfsapfs_file_system_btree_initialize size handle s) = (1, None)
   <-> handle = true /\ file_system_btree s = None /\ header_allocated s)
  /\ (fst (libfsapfs_file_system_btree_initialize size handle s) = (1, None) ->
      file_system_btree
        (snd (libfsapfs_file_system_btree_initialize size handle s))
      = Some (repeat x00 size)
      /\ heap (snd (libfsapfs_file_system_btree_initialize size handle s))
         = File_system_btree_block :: heap s)
  /\ (fst (libfsapfs_file_system_btree_initialize size handle s) <> (1, None) ->
      file_system_btree
        (snd (libfsapfs_file_system_btree_initialize size handle s))
      = file_system_btree s
      /\ heap (snd (libfsapfs_file_system_btree_initialize size handle s))
         = heap s
      /\ exists e,
           fst (libfsapfs_file_system_btree_initialize size handle s)
           = (-1, Some e)
           /\ In e [ARGUMENT_ERROR_INVALID_VALUE;
                    RUNTIME_ERROR_VALUE_ALREADY_SET;
                    MEMORY_ERROR_INSUFFICIENT]).
Proof.
  unfold libfsapfs_file_system_btree_initialize, memory_allocate,
    header_allocated.
  destruct handle; cbn [negb];
    destruct (file_system_btree s) as [bytes|] eqn:Hpointer;
    destruct (malloc_oracle s) as [|[|] rest]; cbn;
    rewrite ?Hpointer;
    (split; [split|split]);
    try solve [ intros H; discriminate H
              | intros (H & _); discriminate H
              | intros (_ & H & _); discriminate H
              | intros (_ & _ & [])
              | intros H; now contradiction H
              | intros _; auto
              | intros _; repeat split; eauto 6 ].
Qed.

(** X19.  Create, then free: the free returns 1, and the state is the one
    from before the creation but for the allocator answer that was used.
    The block is off the heap again and the caller's pointer is NULL. *)
Theorem initialize_then_free size s :
  fst (libfsapfs_file_system_btree_initialize size true s) = (1, None) ->
  libfsapfs_file_system_btree_free
    true (snd (libfsapfs_file_system_btree_initialize size true s))
  = ((1, None), set_malloc_oracle (tl (malloc_oracle s)) s).
Proof.
  unfold libfsapfs_file_system_btree_initialize,
    libfsapfs_file_system_btree_free, memory_allocate, memory_free.
  destruct s as [pointer blocks oracle verbose reads header footer].
  cbn [negb file_system_btree malloc_oracle heap].
  destruct pointer as [bytes|]; [intros H; discriminate H|].
  destruct oracle as [|[|] rest]; cbn; intros H;
    solve [reflexivity | discriminate H].
Qed.

(** X20.  [libfsapfs_file_system_btree_free] refuses only a missing
    pointer argument.  Given one it returns 1 and leaves the caller's
    pointer NULL, whether or not there was a structure to free; a second
    free finds nothing to do and changes nothing. *)
Theorem free_idempotent s :
  libfsapfs_file_system_btree_free false s
  = ((-1, Some ARGUMENT_ERROR_INVALID_VALUE), s)
  /\ fst (libfsapfs_file_system_btree_free true s) = (1, None)
  /\ file_system_btree (snd (libfsapfs_file_system_btree_free true s)) = None
  /\ libfsapfs_file_system_btree_free
       true (snd (libfsapfs_file_system_btree_free true s))
     = ((1, None), snd (libfsapfs_file_system_btree_free true s)).
Proof.
  unfold libfsapfs_file_system_btree_free. cbn [negb].
  destruct (file_system_btree s) as [bytes|] eqn:Hpointer; cbn;
    rewrite ?Hpointer; repeat split; reflexivity.
Qed.

(** ** A file held in memory

    A stand-in for libbfio, to run the file reader on concrete files: the
    handle is the bytes of the file and the current offset, a seek fails
    on a negative offset, and a read stores the bytes that are there, up to
    the size asked for.  The general statements do not depend on it. *)

Module MemoryFile.

Record handle : Type := {
  contents : list byte;
  current_offset : Z
}.

Definition seek_offset (h : handle) (offset : Z) : Z * handle :=
  if offset <? 0 then (-1, h)
  else (offset, {| contents := contents h; current_offset := offset |}).

Definition read_buffer (h : handle) (size : Z)
  : (Z * list byte) * handle :=
  let bytes := ByteStream.slice (contents h) (current_offset h) size in
  ((Z.of_nat (length bytes), bytes),
   {| contents := contents h;
      current_offset := current_offset h + Z.of_nat (length bytes) |}).

Lemma read_buffer_count h size count bytes h' :
  read_buffer h size = ((count, bytes), h') ->
  0 <= count ->
  Z.of_nat (length bytes) = count.
Proof.
  unfold read_buffer. intros H _. injection H as <- <- _. reflexivity.
Qed.

End MemoryFile.

(** ** The further properties on concrete nodes and files *)

Module Scenarios.

Import Reference.

(** The file reader for the concrete layout, on a file held in memory. *)
Definition read_file_io_handle
  : Z -> Z -> file_io_state MemoryFile.handle
    -> (Z * list file_io_error) * file_io_state MemoryFile.handle :=
  libfsapfs_file_system_btree_read_file_io_handle
    size_bits sizeof_fsapfs_btree_header_t sizeof_fsapfs_btree_footer_t
    header_of_bytes footer_of_bytes
    MemoryFile.handle MemoryFile.seek_offset MemoryFile.read_buffer.

(** A file that is opened at its start, and the caller's state [start]. *)
Definition opened (file : list byte) : file_io_state MemoryFile.handle :=
  mkFileIoState (start false) None
    {| MemoryFile.contents := file; MemoryFile.current_offset := 0 |} [].

(** What the reader decodes from [one_entry_node]. *)
Definition one_entry_view : node_view :=
  {| view_header := header 0 8 2 4;
     view_footer := footer 1;
     view_entries := [record 64 2 70 2] |}.

(** [one_entry_node] with a record whose key offset, 100, leads past the
    end of the 112 bytes. *)
Definition stray_key_node : list byte :=
  node_bytes 2 14 (header 0 8 2 4)
    (entry_bytes (record 100 2 2 2) ++ [x4b; x31] ++ zeros 4 ++ [x56; x31])
    (footer 1).

(** [start] with an allocator that refuses the first request. *)
Definition start_refused : state :=
  mkState (Some (zeros 8)) [File_system_btree_block] [false] false [] None
          None.

(** [one_entry_node] with another key, another value and other bytes in
    the unused region between them. *)
Definition other_payload_node : list byte :=
  node_bytes 2 14 (header 0 8 2 4)
    (entry_bytes (record 0 2 2 2) ++ [x4b; x32] ++ [xff; xff; xff; xff]
     ++ [x56; x32])
    (footer 1).

(** [one_entry_node] with object type 3. *)
Definition wrong_type_node : list byte :=
  node_bytes 3 14 (header 0 8 2 4)
    (entry_bytes (record 0 2 2 2) ++ [x4b; x31] ++ zeros 4 ++ [x56; x31])
    (footer 1).

Lemma one_entry_node_decoded :
  Examples.decoded (Some one_entry_node) (start false) = Some one_entry_view.
Proof. vm_compute. reflexivity. Qed.

Lemma one_entry_node_acceptable :
  acceptable size_bits sizeof_fsapfs_btree_header_t
             sizeof_fsapfs_btree_footer_t header_of_bytes footer_of_bytes
             (start false) one_entry_node (header 0 8 2 4) (footer 1).
Proof.
  unfold acceptable. split; [|split; [|split; [|split]]].
  - apply Examples.footer_decoded_with; reflexivity.
  - reflexivity.
  - reflexivity.
  - vm_compute. discriminate.
  - vm_compute. repeat constructor; cbn; discriminate.
Qed.

Lemma stray_key_node_footer_decoded :
  footer_decoded size_bits sizeof_fsapfs_btree_header_t
                 sizeof_fsapfs_btree_footer_t header_of_bytes footer_of_bytes
                 (start false) stray_key_node (header 0 8 2 4) (footer 1).
Proof. apply Examples.footer_decoded_with; reflexivity. Qed.

Lemma read_data_argument_errors_witness :
  Examples.read_data (Some one_entry_node) nothing_allocated
  = ((-1, Some ARGUMENT_ERROR_INVALID_VALUE), enter nothing_allocated)
  /\ Examples.read_data None (start false)
     = ((-1, Some RUNTIME_ERROR_VALUE_MISSING), enter (start false))
  /\ Examples.read_data (Some []) (start false)
     = ((-1, Some RUNTIME_ERROR_VALUE_OUT_OF_BOUNDS), enter (start false)).
Proof.
  split; [|split].
  - apply (proj1 (read_data_argument_errors
                    size_bits sizeof_fsapfs_btree_header_t
                    sizeof_fsapfs_btree_footer_t header_of_bytes
                    footer_of_bytes (Some one_entry_node) nothing_allocated)).
    reflexivity.
  - apply (proj1 (proj2 (read_data_argument_errors
                           size_bits sizeof_fsapfs_btree_header_t
                           sizeof_fsapfs_btree_footer_t header_of_bytes
                           footer_of_bytes None (start false))));
      [discriminate|reflexivity].
  - apply (proj2 (proj2 (read_data_argument_errors
                           size_bits sizeof_fsapfs_btree_header_t
                           sizeof_fsapfs_btree_footer_t header_of_bytes
                           footer_of_bytes (Some []) (start false))) []);
      [discriminate|reflexivity|left; reflexivity].
Defined.

Lemma read_data_accepts_iff_witness :
  fst (Examples.read_data (Some one_entry_node) (start false)) = (1, None).
Proof.
  apply (read_data_accepts_iff
           size_bits sizeof_fsapfs_btree_header_t
           sizeof_fsapfs_btree_footer_t header_of_bytes footer_of_bytes
           ReferenceFacts.size_bits_ge ReferenceFacts.sizeof_header_ge
           ReferenceFacts.sizeof_footer_ge ReferenceFacts.sizes_small
           ReferenceFacts.decoded_header_wf ReferenceFacts.decoded_footer_wf
           (Some one_entry_node) (start false)).
  exists one_entry_node, (header 0 8 2 4), (footer 1).
  split; [reflexivity|exact one_entry_node_acceptable].
Defined.

Lemma read_data_success_state_witness :
  Examples.read_data (Some one_entry_node) (start false)
  = ((1, None),
     mkState (Some (zeros 8)) [File_system_btree_block] [] false
             [(24, 4); (28, 4); (32, 24); (72, 40);
              (56, 2); (58, 2); (60, 2); (62, 2)]
             None None)
  /\ Examples.decoded (Some one_entry_node) (start false)
     = Some one_entry_view.
Proof.
  destruct (read_data_success_state
              size_bits sizeof_fsapfs_btree_header_t
              sizeof_fsapfs_btree_footer_t header_of_bytes footer_of_bytes
              ReferenceFacts.size_bits_ge ReferenceFacts.sizeof_header_ge
              ReferenceFacts.sizeof_footer_ge ReferenceFacts.sizes_small
              ReferenceFacts.decoded_header_wf ReferenceFacts.decoded_footer_wf
              (start false) one_entry_node (header 0 8 2 4) (footer 1)
              one_entry_node_acceptable)
    as (Hrun & Hview & _).
  split.
  - unfold Examples.read_data. rewrite Hrun. reflexivity.
  - unfold Examples.decoded. rewrite Hview. reflexivity.
Defined.

Lemma records_inside_entries_region_witness :
  exists d,
    Some one_entry_node = Some d
    /\ number_of_entries (view_footer one_entry_view) <= 8191
    /\ header_end sizeof_fsapfs_btree_header_t
       + entries_data_offset (view_header one_entry_view)
       + entries_data_size (view_header one_entry_view)
       <= Z.of_nat (length d) - sizeof_fsapfs_btree_footer_t
    /\ Forall (fun off =>
                 header_end sizeof_fsapfs_btree_header_t
                 + entries_data_offset (view_header one_entry_view) <= off
                 /\ off + sizeof_fsapfs_btree_variable_size_entry_t
                    <= header_end sizeof_fsapfs_btree_header_t
                       + entries_data_offset (view_header one_entry_view)
                       + entries_data_size (view_header one_entry_view))
              (record_offsets
                 (header_end sizeof_fsapfs_btree_header_t
                  + entries_data_offset (view_header one_entry_view))
                 (Z.to_nat (number_of_entries (view_footer one_entry_view)))).
Proof.
  exact (records_inside_entries_region
           size_bits sizeof_fsapfs_btree_header_t
           sizeof_fsapfs_btree_footer_t header_of_bytes footer_of_bytes
           ReferenceFacts.size_bits_ge ReferenceFacts.sizeof_header_ge
           ReferenceFacts.sizeof_footer_ge ReferenceFacts.sizes_small
           ReferenceFacts.decoded_header_wf ReferenceFacts.decoded_footer_wf
           (Some one_entry_node) (start false) one_entry_view
           one_entry_node_decoded).
Defined.

Lemma entry_out_of_bounds_rejected_witness :
  fst (Examples.read_data (Some one_entry_node) (start false)) = (1, None)
  /\ fst (Examples.read_data (Some stray_key_node) (start false))
     = (-1, Some RUNTIME_ERROR_VALUE_OUT_OF_BOUNDS).
Proof.
  split.
  - apply (proj1 (entry_out_of_bounds_rejected
             size_bits sizeof_fsapfs_btree_header_t
             sizeof_fsapfs_btree_footer_t header_of_bytes footer_of_bytes
             ReferenceFacts.size_bits_ge ReferenceFacts.sizeof_header_ge
             ReferenceFacts.sizeof_footer_ge ReferenceFacts.sizes_small
             ReferenceFacts.decoded_header_wf ReferenceFacts.decoded_footer_wf
             (start false) one_entry_node (header 0 8 2 4) (footer 1)
             (proj1 one_entry_node_acceptable) eq_refl eq_refl
             (proj1 (proj2 (proj2 (proj2 one_entry_node_acceptable)))))).
    exact (proj2 (proj2 (proj2 (proj2 one_entry_node_acceptable)))).
  - assert (Hcount : number_of_entries (footer 1)
                     <= entries_data_size (header 0 8 2 4) / 8)
      by (vm_compute; discriminate).
    apply (proj2 (entry_out_of_bounds_rejected
             size_bits sizeof_fsapfs_btree_header_t
             sizeof_fsapfs_btree_footer_t header_of_bytes footer_of_bytes
             ReferenceFacts.size_bits_ge ReferenceFacts.sizeof_header_ge
             ReferenceFacts.sizeof_footer_ge ReferenceFacts.sizes_small
             ReferenceFacts.decoded_header_wf ReferenceFacts.decoded_footer_wf
             (start false) stray_key_node (header 0 8 2 4) (footer 1)
             stray_key_node_footer_decoded eq_refl eq_refl Hcount)).
    intros Hall. vm_compute in Hall. apply Forall_inv in Hall.
    destruct Hall as [(_ & _ & Hkey) _]. apply Hkey. reflexivity.
Defined.

Lemma resolved_offsets_without_wrap_witness :
  exists d,
    Some one_entry_node = Some d
    /\ Forall2
         (fun off e =>
            let key := ByteStream.little_endian (ByteStream.slice d off 2) in
            let value :=
              ByteStream.little_endian (ByteStream.slice d (off + 4) 2) in
            (absolute_key_offset_spec sizeof_fsapfs_object_t
               sizeof_fsapfs_btree_header_t (view_header one_entry_view) key
             < 65536 ->
             key_data_offset e
             = absolute_key_offset_spec sizeof_fsapfs_object_t
                 sizeof_fsapfs_btree_header_t (view_header one_entry_view)
                 key)
            /\ (Z.of_nat (length d) - sizeof_fsapfs_btree_footer_t < 65536 ->
                value <= Z.of_nat (length d) - sizeof_fsapfs_btree_footer_t ->
                value_data_offset e
                = absolute_value_offset_spec (Z.of_nat (length d))
                    sizeof_fsapfs_btree_footer_t value))
         (record_offsets
            (header_end sizeof_fsapfs_btree_header_t
             + entries_data_offset (view_header one_entry_view))
            (Z.to_nat (number_of_entries (view_footer one_entry_view))))
         (view_entries one_entry_view).
Proof.
  exact (resolved_offsets_without_wrap
           size_bits sizeof_fsapfs_btree_header_t
           sizeof_fsapfs_btree_footer_t header_of_bytes footer_of_bytes
           ReferenceFacts.size_bits_ge ReferenceFacts.sizeof_header_ge
           ReferenceFacts.sizeof_footer_ge ReferenceFacts.sizes_small
           ReferenceFacts.decoded_header_wf ReferenceFacts.decoded_footer_wf
           (Some one_entry_node) (start false) one_entry_view
           one_entry_node_decoded).
Defined.

Lemma read_data_failure_causes_witness :
  ~ (header_allocated start_refused /\ footer_allocated start_refused).
Proof.
  apply (read_data_failure_causes
           size_bits sizeof_fsapfs_btree_header_t
           sizeof_fsapfs_btree_footer_t header_of_bytes footer_of_bytes
           ReferenceFacts.size_bits_ge ReferenceFacts.sizeof_header_ge
           ReferenceFacts.sizeof_footer_ge ReferenceFacts.sizes_small
           ReferenceFacts.decoded_header_wf ReferenceFacts.decoded_footer_wf
           (Some one_entry_node) start_refused
           RUNTIME_ERROR_INITIALIZE_FAILED).
  vm_compute. reflexivity.
Defined.

Lemma read_data_rejects_early_witness :
  Examples.read_data (Some wrong_type_node) (start false)
  = ((-1, Some RUNTIME_ERROR_UNSUPPORTED_VALUE),
     mkState (Some (zeros 8)) [File_system_btree_block] [] false [(24, 4)]
             None None)
  /\ exists l,
       accesses (snd (Examples.read_data (Some wrong_type_node)
                                         (start false)))
       = accesses (start false) ++ l
       /\ Forall (in_bounds sizeof_fsapfs_object_t) l.
Proof.
  assert (Hset : file_system_btree (start false) <> None) by discriminate.
  assert (Hsize : sizeof_fsapfs_object_t
                  <= Z.of_nat (length wrong_type_node)
                  <= SSIZE_MAX size_bits)
    by (split; discriminate).
  assert (Hwrong : object_type wrong_type_node <> 2
                   \/ object_subtype wrong_type_node <> 14)
    by (left; discriminate).
  destruct (read_data_rejects_early
              size_bits sizeof_fsapfs_btree_header_t
              sizeof_fsapfs_btree_footer_t header_of_bytes footer_of_bytes
              ReferenceFacts.size_bits_ge ReferenceFacts.sizeof_header_ge
              ReferenceFacts.sizeof_footer_ge ReferenceFacts.sizes_small
              (start false) wrong_type_node Hset Hsize Hwrong)
    as [Hrun Hquiet].
  split.
  - unfold Examples.read_data. rewrite Hrun. reflexivity.
  - apply Hquiet. reflexivity.
Defined.

Lemma lifecycle_restores_heap_witness :
  fst (libfsapfs_file_system_btree_free
         true
         (snd (Examples.read_data
                 (Some one_entry_node)
                 (snd (libfsapfs_file_system_btree_initialize
                         8 true nothing_allocated)))))
  = (1, None)
  /\ file_system_btree
       (snd (libfsapfs_file_system_btree_free
               true
               (snd (Examples.read_data
                       (Some one_entry_node)
                       (snd (libfsapfs_file_system_btree_initialize
                               8 true nothing_allocated))))))
     = None
  /\ heap
       (snd (libfsapfs_file_system_btree_free
               true
               (snd (Examples.read_data
                       (Some one_entry_node)
                       (snd (libfsapfs_file_system_btree_initialize
                               8 true nothing_allocated))))))
     = heap nothing_allocated.
Proof.
  exact (lifecycle_restores_heap
           size_bits sizeof_fsapfs_btree_header_t
           sizeof_fsapfs_btree_footer_t header_of_bytes footer_of_bytes
           ReferenceFacts.size_bits_ge ReferenceFacts.sizeof_header_ge
           ReferenceFacts.sizeof_footer_ge ReferenceFacts.sizes_small
           ReferenceFacts.decoded_header_wf ReferenceFacts.decoded_footer_wf
           8%nat (Some one_entry_node) nothing_allocated eq_refl).
Defined.

Lemma other_payload_same_metadata :
  same_metadata sizeof_fsapfs_btree_header_t sizeof_fsapfs_btree_footer_t
                header_of_bytes one_entry_node other_payload_node.
Proof.
  unfold same_metadata. repeat split; try reflexivity.
  intros h off Hheader Hlow Hhigh.
  vm_compute in Hheader. injection Hheader as <-.
  unfold header_end, sizeof_fsapfs_object_t, sizeof_fsapfs_btree_header_t
    in Hlow, Hhigh.
  cbn [entries_data_offset entries_data_size] in Hlow, Hhigh.
  assert (Hoff : off = 56 \/ off = 57 \/ off = 58 \/ off = 59 \/ off = 60
                 \/ off = 61 \/ off = 62) by lia.
  repeat (destruct Hoff as [->|Hoff]; [reflexivity|]).
  subst off. reflexivity.
Qed.

Lemma decoded_ignores_payload_witness :
  Examples.decoded (Some one_entry_node) (start false)
  = Examples.decoded (Some other_payload_node) (start false)
  /\ fst (fst (Examples.read_data (Some one_entry_node) (start false)))
     = fst (fst (Examples.read_data (Some other_payload_node) (start false))).
Proof.
  exact (decoded_ignores_payload
           size_bits sizeof_fsapfs_btree_header_t
           sizeof_fsapfs_btree_footer_t header_of_bytes footer_of_bytes
           ReferenceFacts.size_bits_ge ReferenceFacts.sizeof_header_ge
           ReferenceFacts.sizeof_footer_ge ReferenceFacts.sizes_small
           ReferenceFacts.decoded_header_wf ReferenceFacts.decoded_footer_wf
           (start false) one_entry_node other_payload_node
           other_payload_same_metadata).
Defined.

Lemma uint32_range_112 : uint32_range 112.
Proof. unfold uint32_range. lia. Qed.

Lemma read_file_io_handle_releases_witness :
  block_data (snd (read_file_io_handle 0 112 (opened one_entry_node))) = None
  /\ heap (node_state
             (snd (read_file_io_handle 0 112 (opened one_entry_node))))
     = heap (node_state (opened one_entry_node))
  /\ file_system_btree
       (node_state (snd (read_file_io_handle 0 112 (opened one_entry_node))))
     = file_system_btree (node_state (opened one_entry_node)).
Proof.
  exact (read_file_io_handle_releases
           size_bits sizeof_fsapfs_btree_header_t
           sizeof_fsapfs_btree_footer_t header_of_bytes footer_of_bytes
           ReferenceFacts.size_bits_ge ReferenceFacts.sizeof_header_ge
           ReferenceFacts.sizeof_footer_ge ReferenceFacts.sizes_small
           ReferenceFacts.decoded_header_wf ReferenceFacts.decoded_footer_wf
           MemoryFile.handle MemoryFile.seek_offset MemoryFile.read_buffer
           0 112 (opened one_entry_node)).
Defined.

Lemma read_file_io_handle_success_witness :
  exists offset handle bytes handle' v,
    MemoryFile.seek_offset (file_io_handle (opened one_entry_node)) 0
    = (offset, handle)
    /\ offset <> -1
    /\ MemoryFile.read_buffer handle 112 = ((112, bytes), handle')
    /\ Z.of_nat (length bytes) = 112
    /\ accepted size_bits sizeof_fsapfs_btree_header_t
                sizeof_fsapfs_btree_footer_t header_of_bytes footer_of_bytes
                (Some bytes) (node_state (opened one_entry_node)) v
    /\ fst (read_file_io_handle 0 112 (opened one_entry_node)) = (1, [])
    /\ libbfio_calls (snd (read_file_io_handle 0 112 (opened one_entry_node)))
       = libbfio_calls (opened one_entry_node)
         ++ [Seek_offset 0; Read_buffer 112].
Proof.
  apply (read_file_io_handle_success
           size_bits sizeof_fsapfs_btree_header_t
           sizeof_fsapfs_btree_footer_t header_of_bytes footer_of_bytes
           ReferenceFacts.size_bits_ge ReferenceFacts.sizeof_header_ge
           ReferenceFacts.sizeof_footer_ge ReferenceFacts.sizes_small
           ReferenceFacts.decoded_header_wf ReferenceFacts.decoded_footer_wf
           MemoryFile.handle MemoryFile.seek_offset MemoryFile.read_buffer
           MemoryFile.read_buffer_count
           0 112 (opened one_entry_node) uint32_range_112).
  vm_compute. reflexivity.
Defined.

Lemma read_file_io_handle_calls_witness :
  exists l,
    libbfio_calls (snd (read_file_io_handle (-1) 112 (opened one_entry_node)))
    = libbfio_calls (opened one_entry_node) ++ l
    /\ (l = []
        \/ (l = [Seek_offset (-1)]
            /\ fst (MemoryFile.seek_offset
                      (file_io_handle (opened one_entry_node)) (-1)) = -1)
        \/ (l = [Seek_offset (-1); Read_buffer 112]
            /\ fst (MemoryFile.seek_offset
                      (file_io_handle (opened one_entry_node)) (-1)) <> -1))
    /\ (file_system_btree (node_state (opened one_entry_node)) = None
        \/ ~ header_allocated (node_state (opened one_entry_node)) ->
        l = []).
Proof.
  exact (read_file_io_handle_calls
           size_bits sizeof_fsapfs_btree_header_t
           sizeof_fsapfs_btree_footer_t header_of_bytes footer_of_bytes
           ReferenceFacts.size_bits_ge ReferenceFacts.sizeof_header_ge
           ReferenceFacts.sizeof_footer_ge ReferenceFacts.sizes_small
           ReferenceFacts.decoded_header_wf ReferenceFacts.decoded_footer_wf
           MemoryFile.handle MemoryFile.seek_offset MemoryFile.read_buffer
           (-1) 112 (opened one_entry_node) uint32_range_112).
Defined.

Lemma read_file_io_handle_reports_witness :
  fst (read_file_io_handle 0 112 (opened fixed_key_size_node))
  = (-1, [Error_code RUNTIME_ERROR_VALUE_OUT_OF_BOUNDS;
          Error_code IO_ERROR_READ_FAILED]).
Proof.
  apply (proj2 (read_file_io_handle_reports
                  size_bits sizeof_fsapfs_btree_header_t
                  sizeof_fsapfs_btree_footer_t header_of_bytes
                  footer_of_bytes
                  ReferenceFacts.size_bits_ge ReferenceFacts.sizeof_header_ge
                  ReferenceFacts.sizeof_footer_ge ReferenceFacts.sizes_small
                  ReferenceFacts.decoded_header_wf
                  ReferenceFacts.decoded_footer_wf
                  MemoryFile.handle MemoryFile.seek_offset
                  MemoryFile.read_buffer
                  0 112 (opened fixed_key_size_node) uint32_range_112)
               fixed_key_size_node
               {| MemoryFile.contents := fixed_key_size_node;
                  MemoryFile.current_offset := 112 |}
               RUNTIME_ERROR_VALUE_OUT_OF_BOUNDS).
  - discriminate.
  - discriminate.
  - exact I.
  - discriminate.
  - reflexivity.
  - vm_compute. reflexivity.
Defined.

Lemma read_file_io_handle_small_block_witness :
  exists errors,
    fst (read_file_io_handle 0 0 (opened one_entry_node)) = (-1, errors).
Proof.
  apply (read_file_io_handle_small_block
           size_bits sizeof_fsapfs_btree_header_t
           sizeof_fsapfs_btree_footer_t header_of_bytes footer_of_bytes
           ReferenceFacts.size_bits_ge ReferenceFacts.sizeof_header_ge
           ReferenceFacts.sizeof_footer_ge ReferenceFacts.sizes_small
           ReferenceFacts.decoded_header_wf ReferenceFacts.decoded_footer_wf
           MemoryFile.handle MemoryFile.seek_offset MemoryFile.read_buffer
           MemoryFile.read_buffer_count
           0 0 (opened one_entry_node)).
  - unfold uint32_range. lia.
  - vm_compute. discriminate.
Defined.


Lemma read_file_io_handle_accepts_witness :
  fst (read_file_io_handle 0 112 (opened one_entry_node)) = (1, []).
Proof.
  apply (read_file_io_handle_accepts
           size_bits sizeof_fsapfs_btree_header_t
           sizeof_fsapfs_btree_footer_t header_of_bytes footer_of_bytes
           ReferenceFacts.size_bits_ge ReferenceFacts.sizeof_header_ge
           ReferenceFacts.sizeof_footer_ge ReferenceFacts.sizes_small
           ReferenceFacts.decoded_header_wf ReferenceFacts.decoded_footer_wf
           MemoryFile.handle MemoryFile.seek_offset MemoryFile.read_buffer
           0 112 (opened one_entry_node)
           0 {| MemoryFile.contents := one_entry_node;
                MemoryFile.current_offset := 0 |}
           one_entry_node
           {| MemoryFile.contents := one_entry_node;
              MemoryFile.current_offset := 112 |}
           (header 0 8 2 4) (footer 1)).
  - exact uint32_range_112.
  - discriminate.
  - discriminate.
  - exact I.
  - reflexivity.
  - discriminate.
  - reflexivity.
  - exact one_entry_node_acceptable.
Defined.

Lemma initialize_outcome_witness :
  file_system_btree
    (snd (libfsapfs_file_system_btree_initialize 8 true nothing_allocated))
  = Some (repeat x00 8)
  /\ heap (snd (libfsapfs_file_system_btree_initialize
                  8 true nothing_allocated))
     = File_system_btree_block :: heap nothing_allocated.
Proof.
  apply (proj1 (proj2 (initialize_outcome 8 true nothing_allocated))).
  reflexivity.
Defined.

Lemma initialize_then_free_witness :
  libfsapfs_file_system_btree_free
    true (snd (libfsapfs_file_system_btree_initialize
                 8 true nothing_allocated))
  = ((1, None),
     set_malloc_oracle (tl (malloc_oracle nothing_allocated))
                       nothing_allocated).
Proof.
  apply (initialize_then_free 8 nothing_allocated). reflexivity.
Defined.

End Scenarios.
